(** * BART seq2seq language model: the cached decoding driver

    A shallow embedding of [keras_nlp/models/bart/bart_seq_2_seq_lm.py]
    (class [BartSeq2SeqLM]) and the properties of its generation path:
    [call_decoder_with_cache], [_initialize_cache], [_build_cache],
    [compile], [make_generate_function], [generate_step] with its [next]
    closure, [_normalize_generate_inputs], [_normalize_generate_outputs]
    and [generate].

    Conventions of the embedding.
    - Integer and boolean tensors the driver computes on (token ids,
      padding masks) are concrete: a rank-2 tensor is a list of rows
      together with its static second dimension.  int32 arithmetic wraps.
    - Dense float tensors (hidden states, logits, key/value caches) are
      values of an abstract type; the backbone layers and the TensorFlow
      kernels acting on them are the fields of an interface.
    - The layers are functions of their inputs, as they are when the
      model runs outside of training.  [call_decoder_with_cache] is also
      embedded over layers that hold state; the two embeddings agree on
      layers that write none.
    - A Python exception is the [Raise] outcome of a computation.
    - The forward passes issued by a call are recorded in a history, so
      that "called once" and "called with these arguments" are statements
      about a value. *)

From Stdlib Require Import ZArith List String Bool Lia.
From stdpp Require Import base list.
Import ListNotations.
Local Open Scope Z_scope.
Set Warnings "-register-all".

(** ** Exceptions *)

Inductive Exn : Type :=
| InvalidArgumentError   (* raised by a TensorFlow kernel *)
| IndexError             (* Python list index out of range *)
| KeyError               (* missing dictionary key *)
| TypeError              (* operation on a value of the wrong type *)
| ValueError             (* a value that cannot be converted *)
| ZeroDivisionError.     (* Python [//] by zero *)

Inductive Result (A : Type) : Type :=
| Ok (a : A)
| Raise (e : Exn).
Arguments Ok {A} a.
Arguments Raise {A} e.

Definition rbind {A B} (r : Result A) (f : A -> Result B) : Result B :=
  match r with
  | Ok a => f a
  | Raise e => Raise e
  end.

(** ** int32 *)

Module Int32.
Definition max_signed : Z := 2 ^ 31 - 1.
Definition min_signed : Z := - 2 ^ 31.
Definition in_range (z : Z) : Prop := min_signed <= z <= max_signed.
Definition wrap (z : Z) : Z := (z + 2 ^ 31) mod 2 ^ 32 - 2 ^ 31.
Definition add (a b : Z) : Z := wrap (a + b).
Definition sub (a b : Z) : Z := wrap (a - b).
Definition fits (z : Z) : bool := (min_signed <=? z) && (z <=? max_signed).
End Int32.

(** ** Rank-2 integer and boolean tensors

    [dim1] is the static length of axis 1; axis 0 is the number of rows.
    A tensor is well formed when every row has [dim1] entries. *)

Record Tensor2 (A : Type) : Type := T2 { dim1 : nat; rows : list (list A) }.
Arguments T2 {A} dim1 rows.
Arguments dim1 {A} t.
Arguments rows {A} t.

Definition dim0 {A} (t : Tensor2 A) : nat := length (rows t).

Definition wf {A} (t : Tensor2 A) : Prop :=
  Forall (fun r => length r = dim1 t) (rows t).

Definition same_shape {A B} (a : Tensor2 A) (b : Tensor2 B) : bool :=
  Nat.eqb (dim0 a) (dim0 b) && Nat.eqb (dim1 a) (dim1 b).

Definition map2d {A B} (f : A -> B) (t : Tensor2 A) : Tensor2 B :=
  T2 (dim1 t) (map (map f) (rows t)).

(** Entry [(i, p)] of a tensor, when it exists. *)
Definition entry {A} (t : Tensor2 A) (i p : nat) : option A :=
  match rows t !! i with
  | Some r => r !! p
  | None => None
  end.

Module Tf.

(** [tf.shape(x)] with its default int32 output type: the kernel rejects
      a dimension that does not fit. *)
Definition shape {A} (t : Tensor2 A) : Result (Z * Z) :=
    if Int32.fits (Z.of_nat (dim0 t)) && Int32.fits (Z.of_nat (dim1 t))
    then Ok (Z.of_nat (dim0 t), Z.of_nat (dim1 t))
    else Raise InvalidArgumentError.

(** [tf.slice(x, [0, j], [-1, 1])]: all rows, the one column [j]. *)
Definition slice_column {A} (t : Tensor2 A) (j : Z) : Result (Tensor2 A) :=
    if (0 <=? j) && (j + 1 <=? Z.of_nat (dim1 t))
    then Ok (T2 1%nat (map (fun r => take 1 (drop (Z.to_nat j) r)) (rows t)))
    else Raise InvalidArgumentError.

(** [tf.cast(x, "int32")] of a boolean tensor. *)
Definition cast_int32 (t : Tensor2 bool) : Tensor2 Z :=
    map2d (fun b : bool => if b then 1 else 0) t.

(** [tf.cast(x, "bool")] of an int32 tensor: non-zero is true. *)
Definition cast_bool (t : Tensor2 Z) : Tensor2 bool :=
    map2d (fun z => negb (z =? 0)) t.

(** [tf.math.reduce_sum(x, axis=-1)], int32 accumulation. *)
Definition reduce_sum_last (t : Tensor2 Z) : list Z :=
    map (fun r => fold_left Int32.add r 0) (rows t).

(** [tf.math.reduce_min(x)] of an int32 vector; the reduction starts
      from the largest int32, which is what an empty vector yields. *)
Definition reduce_min (l : list Z) : Z :=
    fold_right Z.min Int32.max_signed l.

(** [x == c] against a scalar. *)
Definition equal_scalar (t : Tensor2 Z) (c : Z) : Tensor2 bool :=
    map2d (fun z => z =? c) t.

(** [~x]. *)
Definition logical_not (t : Tensor2 bool) : Tensor2 bool := map2d negb t.

(** [a & b]; the operands must have one shape. *)
Definition logical_and (a b : Tensor2 bool) : Result (Tensor2 bool) :=
    if same_shape a b
    then Ok (T2 (dim1 a) (zip_with (zip_with andb) (rows a) (rows b)))
    else Raise InvalidArgumentError.

(** [tf.math.cumsum(x, exclusive=True, axis=-1)] on one row. *)
Fixpoint cumsum_exclusive_from (acc : Z) (l : list Z) : list Z :=
    match l with
    | [] => []
    | x :: l' => acc :: cumsum_exclusive_from (Int32.add acc x) l'
    end.

Definition cumsum_exclusive (t : Tensor2 Z) : Tensor2 Z :=
    T2 (dim1 t) (map (cumsum_exclusive_from 0) (rows t)).

(** [tf.ones_like(x, dtype="bool")]. *)
Definition ones_like_bool {A} (t : Tensor2 A) : Tensor2 bool :=
    map2d (fun _ => true) t.

(** [tf.repeat(x, repeats=n, axis=0)]: every row [n] times in a row. *)
Definition repeat0 {A} (n : Z) (t : Tensor2 A) : Result (Tensor2 A) :=
    if 0 <=? n
    then Ok (T2 (dim1 t) (concat (map (replicate (Z.to_nat n)) (rows t))))
    else Raise InvalidArgumentError.

(** Python/TensorFlow [a // b] on int32 scalars. *)
Definition floordiv (a b : Z) : Result Z :=
    if b =? 0 then Raise InvalidArgumentError else Ok (Int32.wrap (a / b)).

End Tf.

(** ** The backbone and the float-tensor kernels

    [BartBackbone] and the Keras layers it owns are external to the class.
    Each layer fetched with [backbone.get_layer(name)] is a function on
    float tensors; the decoder layers are indexed by their position, as
    in [f"transformer_decoder_layer_{i}"].  The TensorFlow kernels that
    the driver applies to float tensors are part of the same interface.
    Shape errors inside the float-tensor algebra are configuration
    errors of the backbone and are not represented: a layer or kernel of
    this interface always returns.  That leaves out the exceptions a layer
    raises on its own arguments (the position embedding on a
    [start_index] of [None]) and the one [tf.zeros] raises on a negative dimension, so
    the driver is modelled for backbones with a positive number of heads
    and a non-negative hidden dimension, and what is proved about a
    raising forward pass is about the exceptions of the driver's own
    code. *)

Class Backbone : Type := {
  Tensor : Type;
  num_layers : nat;
  num_heads : Z;
  hidden_dim : Z;
  token_embedding : Tensor2 Z -> Tensor;
  token_embedding_embeddings : Tensor;
  decoder_position_embedding : Tensor -> option Z -> Tensor;
  decoder_embeddings_add : Tensor -> Tensor -> Tensor;
  decoder_embeddings_layer_norm : Tensor -> Tensor;
  decoder_embeddings_dropout : Tensor -> Tensor;
  transformer_decoder_layer :
    nat -> Tensor -> Tensor -> Tensor2 bool ->
    Tensor -> option Z -> Tensor -> option Z -> Tensor * Tensor * Tensor;
  encoder_position_embedding : Tensor -> Tensor;
  encoder_embeddings_add : Tensor -> Tensor -> Tensor;
  encoder_embeddings_layer_norm : Tensor -> Tensor;
  encoder_embeddings_dropout : Tensor -> Tensor;
  transformer_encoder_layer : nat -> Tensor -> Tensor2 bool -> Tensor;
  tf_zeros : list Z -> Tensor;
  tf_unstack1 : Tensor -> list Tensor;
  tf_stack1 : list Tensor -> Tensor;
  tf_matmul_transpose_b : Tensor -> Tensor -> Tensor;
  tf_squeeze1 : Tensor -> Tensor;
  tf_repeat0 : Z -> Tensor -> Tensor;
  tf_shape0 : Tensor -> Z
}.

(** What the driver relies on from the stacking kernels: a tensor of
    shape [b; l; ...] unstacks along axis 1 into [l] slices, a stack of
    slices unstacks into as many, and repeating along axis 0 leaves
    axis 1 alone. *)
Class TfLaws (B : Backbone) : Prop := {
  unstack_zeros : forall b l rest,
    0 <= l -> length (tf_unstack1 (tf_zeros (b :: l :: rest))) = Z.to_nat l;
  unstack_stack : forall l,
    l <> [] -> length (tf_unstack1 (tf_stack1 l)) = length l;
  unstack_repeat : forall n x,
    length (tf_unstack1 (tf_repeat0 n x)) = length (tf_unstack1 x)
}.

(** ** Histories and the generation monad *)

Section Generation.
Context {B : Backbone}.

(** The keyword arguments of one [call_decoder_with_cache] invocation. *)
Record DecoderCall : Type := {
  dc_encoder_hidden_states : Tensor;
  dc_encoder_padding_mask : Tensor2 bool;
  dc_decoder_token_ids : Tensor2 Z;
  dc_self_attention_cache : Tensor;
  dc_self_attention_cache_update_index : option Z;
  dc_cross_attention_cache : Tensor;
  dc_cross_attention_cache_update_index : option Z
}.

Inductive Event : Type :=
| EncoderPass (token_ids : Tensor2 Z) (padding_mask : Tensor2 bool)
| DecoderPass (c : DecoderCall).

Definition History : Type := list Event.

(** A computation reads the history so far and either raises or returns
    a value with the extended history. *)
Definition G (A : Type) : Type := History -> Result (A * History).

Definition ret {A} (a : A) : G A := fun h => Ok (a, h).

Definition bind {A C} (m : G A) (k : A -> G C) : G C :=
  fun h => match m h with
           | Ok (a, h') => k a h'
           | Raise e => Raise e
           end.

Definition lift {A} (r : Result A) : G A :=
  fun h => match r with
           | Ok a => Ok (a, h)
           | Raise e => Raise e
           end.

Definition record (e : Event) : G unit := fun h => Ok (tt, h ++ [e]).

End Generation.

Declare Scope gen_scope.
Delimit Scope gen_scope with gen.
Notation "'let*' x := c1 'in' c2" := (bind c1 (fun x => c2))
  (at level 10, x pattern, c1 at level 100, c2 at level 200) : gen_scope.

Section Driver.
Context {B : Backbone}.
Local Open Scope gen_scope.

(** *** [call_decoder_with_cache] *)

(** One iteration of [for i in range(self.backbone.num_layers)]: the loop
    state is [x] and the two Python lists of per-layer caches. *)
Definition decoder_layer_step
    (encoder_hidden_states : Tensor) (encoder_padding_mask : Tensor2 bool)
    (self_attention_cache_update_index cross_attention_cache_update_index
       : option Z)
    (st : Tensor * list Tensor * list Tensor) (i : nat)
    : Result (Tensor * list Tensor * list Tensor) :=
  let '(x, self_attention_caches, cross_attention_caches) := st in
  match self_attention_caches !! i with
  | None => Raise IndexError
  | Some current_self_attention_cache =>
    match cross_attention_caches !! i with
    | None => Raise IndexError
    | Some current_cross_attention_cache =>
      let '(x, next_self_attention_cache, next_cross_attention_cache) :=
        transformer_decoder_layer i x encoder_hidden_states
          encoder_padding_mask
          current_self_attention_cache self_attention_cache_update_index
          current_cross_attention_cache cross_attention_cache_update_index in
      let self_attention_caches :=
        match self_attention_cache_update_index with
        | Some _ => <[i := next_self_attention_cache]> self_attention_caches
        | None => self_attention_caches
        end in
      let cross_attention_caches :=
        match cross_attention_cache_update_index with
        | Some _ => <[i := next_cross_attention_cache]> cross_attention_caches
        | None => cross_attention_caches
        end in
      Ok (x, self_attention_caches, cross_attention_caches)
    end
  end.

Fixpoint for_each {S} (body : S -> nat -> Result S) (l : list nat) (st : S)
    : Result S :=
  match l with
  | [] => Ok st
  | i :: l' => rbind (body st i) (for_each body l')
  end.

(** The body of [call_decoder_with_cache], without the history. *)
Definition decoder_forward (c : DecoderCall)
    : Result (Tensor * Tensor * Tensor * Tensor) :=
  let encoder_hidden_states := dc_encoder_hidden_states c in
  let encoder_padding_mask := dc_encoder_padding_mask c in
  let decoder_token_ids := dc_decoder_token_ids c in
  let self_attention_cache := dc_self_attention_cache c in
  let self_attention_cache_update_index :=
    dc_self_attention_cache_update_index c in
  let cross_attention_cache := dc_cross_attention_cache c in
  let cross_attention_cache_update_index :=
    dc_cross_attention_cache_update_index c in
  let token_embedding := token_embedding decoder_token_ids in
  let position_embedding :=
    decoder_position_embedding token_embedding
      self_attention_cache_update_index in
  let x := decoder_embeddings_add token_embedding position_embedding in
  let x := decoder_embeddings_layer_norm x in
  let x := decoder_embeddings_dropout x in
  let self_attention_caches := tf_unstack1 self_attention_cache in
  let cross_attention_caches := tf_unstack1 cross_attention_cache in
  rbind
    (for_each
       (decoder_layer_step encoder_hidden_states encoder_padding_mask
          self_attention_cache_update_index
          cross_attention_cache_update_index)
       (seq 0 num_layers)
       (x, self_attention_caches, cross_attention_caches))
    (fun '(x, self_attention_caches, cross_attention_caches) =>
       let self_attention_cache :=
         match self_attention_cache_update_index with
         | Some _ => tf_stack1 self_attention_caches
         | None => self_attention_cache
         end in
       let cross_attention_cache :=
         match cross_attention_cache_update_index with
         | Some _ => tf_stack1 cross_attention_caches
         | None => cross_attention_cache
         end in
       let hidden_states := x in
       let logits :=
         tf_matmul_transpose_b hidden_states token_embedding_embeddings in
       Ok (logits, hidden_states, self_attention_cache,
           cross_attention_cache)).

(** [call_decoder_with_cache]: the forward pass, entered in the history.
    The two caches are required here; the source's [None] defaults make
    [tf.unstack] raise and no caller in the class relies on them. *)
Definition call_decoder_with_cache
    (encoder_hidden_states : Tensor) (encoder_padding_mask : Tensor2 bool)
    (decoder_token_ids : Tensor2 Z)
    (self_attention_cache : Tensor)
    (self_attention_cache_update_index : option Z)
    (cross_attention_cache : Tensor)
    (cross_attention_cache_update_index : option Z)
    : G (Tensor * Tensor * Tensor * Tensor) :=
  let c := {| dc_encoder_hidden_states := encoder_hidden_states;
              dc_encoder_padding_mask := encoder_padding_mask;
              dc_decoder_token_ids := decoder_token_ids;
              dc_self_attention_cache := self_attention_cache;
              dc_self_attention_cache_update_index :=
                self_attention_cache_update_index;
              dc_cross_attention_cache := cross_attention_cache;
              dc_cross_attention_cache_update_index :=
                cross_attention_cache_update_index |} in
  let* _ := record (DecoderPass c) in
  lift (decoder_forward c).

(** *** [call_encoder] *)

Definition encoder_forward (token_ids : Tensor2 Z)
    (padding_mask : Tensor2 bool) : Tensor :=
  let token_embedding := token_embedding token_ids in
  let position_embedding := encoder_position_embedding token_embedding in
  let x := encoder_embeddings_add token_embedding position_embedding in
  let x := encoder_embeddings_layer_norm x in
  let x := encoder_embeddings_dropout x in
  fold_left (fun x i => transformer_encoder_layer i x padding_mask)
    (seq 0 num_layers) x.

Definition call_encoder (token_ids : Tensor2 Z) (padding_mask : Tensor2 bool)
    : G Tensor :=
  let* _ := record (EncoderPass token_ids padding_mask) in
  ret (encoder_forward token_ids padding_mask).

(** *** [_initialize_cache] and [_build_cache] *)

(** Python [a // b] on unbounded integers. *)
Definition py_floordiv (a b : Z) : Result Z :=
  if b =? 0 then Raise ZeroDivisionError else Ok (a / b).

Definition _initialize_cache (encoder_token_ids decoder_token_ids : Tensor2 Z)
    : Result (Tensor * Tensor) :=
  rbind (Tf.shape encoder_token_ids) (fun '(batch_size, _) =>
  rbind (Tf.shape encoder_token_ids) (fun '(_, encoder_max_length) =>
  rbind (Tf.shape decoder_token_ids) (fun '(_, decoder_max_length) =>
  let num_layers := Z.of_nat num_layers in
  let num_heads := num_heads in
  rbind (py_floordiv hidden_dim num_heads) (fun head_dim =>
  let shape :=
    [batch_size; num_layers; 2; decoder_max_length; num_heads; head_dim] in
  let self_attention_cache := tf_zeros shape in
  let shape := <[3%nat := encoder_max_length]> shape in
  let cross_attention_cache := tf_zeros shape in
  Ok (self_attention_cache, cross_attention_cache))))).

Definition _build_cache
    (encoder_token_ids : Tensor2 Z) (encoder_padding_mask : Tensor2 bool)
    (decoder_token_ids : Tensor2 Z)
    : G (Tensor * Tensor * Tensor * Tensor) :=
  let* encoder_hidden_states :=
    call_encoder encoder_token_ids encoder_padding_mask in
  let* (self_attention_cache, cross_attention_cache) :=
    lift (_initialize_cache encoder_token_ids decoder_token_ids) in
  let* (_, hidden_states, self_attention_cache, cross_attention_cache) :=
    call_decoder_with_cache encoder_hidden_states encoder_padding_mask
      decoder_token_ids self_attention_cache (Some 0)
      cross_attention_cache (Some 0) in
  ret (hidden_states, encoder_hidden_states, self_attention_cache,
       cross_attention_cache).

(** *** [generate_step] *)

(** The sampler's view of the decoder: [next(prompt, cache, index)]. *)
Definition NextFn : Type :=
  Tensor2 Z -> Tensor -> Z -> G (Tensor * Tensor * Tensor).

(** [self._sampler], called with the keyword arguments [next], [prompt],
    [cache], [index], [mask], [end_token_id] and [hidden_states]. *)
Definition Sampler : Type :=
  NextFn -> Tensor2 Z -> Tensor -> Z -> Tensor2 bool -> option Z -> Tensor ->
  G (Tensor2 Z).

(** [repeat_tensor], the helper local to [next], on a float tensor. *)
Definition repeat_tensor (num_samples batch_size : Z) (x : Tensor)
    : Result Tensor :=
  if tf_shape0 x =? num_samples then Ok x
  else rbind (Tf.floordiv num_samples batch_size) (fun repeats =>
       Ok (tf_repeat0 repeats x)).

(** [repeat_tensor] on the encoder padding mask. *)
Definition repeat_tensor_mask (num_samples batch_size : Z) (x : Tensor2 bool)
    : Result (Tensor2 bool) :=
  rbind (Tf.shape x) (fun '(n, _) =>
  if n =? num_samples then Ok x
  else rbind (Tf.floordiv num_samples batch_size) (fun repeats =>
       Tf.repeat0 repeats x)).

(** The closure [next] of [generate_step]; its free variables
    [batch_size], [encoder_hidden_states], [encoder_padding_mask] and
    [cross_attention_cache] are the first four arguments. *)
Definition next
    (batch_size : Z) (encoder_hidden_states : Tensor)
    (encoder_padding_mask : Tensor2 bool) (cross_attention_cache : Tensor)
    : NextFn :=
  fun prompt cache index =>
  let cache_index := Int32.sub index 1 in
  let* prompt := lift (Tf.slice_column prompt cache_index) in
  let* (num_samples, _) := lift (Tf.shape prompt) in
  let* encoder_hidden_states' :=
    lift (repeat_tensor num_samples batch_size encoder_hidden_states) in
  let* encoder_padding_mask' :=
    lift (repeat_tensor_mask num_samples batch_size encoder_padding_mask) in
  let* cross_attention_cache' :=
    lift (repeat_tensor num_samples batch_size cross_attention_cache) in
  let* (logits, hidden_states, cache, _) :=
    call_decoder_with_cache encoder_hidden_states' encoder_padding_mask'
      prompt cache (Some cache_index) cross_attention_cache' None in
  ret (tf_squeeze1 logits, tf_squeeze1 hidden_states, cache).

(** The starting index: lines 516-521 of [generate_step]. *)
Definition start_index (decoder_padding_mask : Tensor2 bool) : Z :=
  let row_lengths :=
    Tf.reduce_sum_last (Tf.cast_int32 decoder_padding_mask) in
  Tf.reduce_min row_lengths.

(** The output padding mask: lines 561-575 of [generate_step].
    [decoder_token_ids] is what the sampler returned,
    [decoder_padding_mask] the mask of the inputs. *)
Definition output_padding_mask (end_token_id : option Z)
    (decoder_token_ids : Tensor2 Z) (decoder_padding_mask : Tensor2 bool)
    : Result (Tensor2 bool) :=
  match end_token_id with
  | Some end_token_id =>
    rbind (Tf.logical_and (Tf.equal_scalar decoder_token_ids end_token_id)
             (Tf.logical_not decoder_padding_mask))
      (fun end_locations =>
         let end_locations := Tf.cast_int32 end_locations in
         let overflow := Tf.cumsum_exclusive end_locations in
         Ok (Tf.logical_not (Tf.cast_bool overflow)))
  | None => Ok (Tf.ones_like_bool decoder_token_ids)
  end.

Record Inputs : Type := {
  encoder_token_ids : Tensor2 Z;
  encoder_padding_mask : Tensor2 bool;
  decoder_token_ids : Tensor2 Z;
  decoder_padding_mask : Tensor2 bool
}.

Record Outputs : Type := {
  out_decoder_token_ids : Tensor2 Z;
  out_decoder_padding_mask : Tensor2 bool
}.

(** [generate_step]; [_sampler] is the value of [self._sampler]. *)
Definition generate_step (_sampler : Sampler) (inputs : Inputs)
    (end_token_id : option Z) : G Outputs :=
  let encoder_token_ids := encoder_token_ids inputs in
  let encoder_padding_mask := encoder_padding_mask inputs in
  let decoder_token_ids := decoder_token_ids inputs in
  let decoder_padding_mask := decoder_padding_mask inputs in
  let* (batch_size, _) := lift (Tf.shape encoder_token_ids) in
  let* (hidden_states, encoder_hidden_states, self_attention_cache,
        cross_attention_cache) :=
    _build_cache encoder_token_ids encoder_padding_mask decoder_token_ids in
  let index := start_index decoder_padding_mask in
  let* decoder_token_ids :=
    _sampler
      (next batch_size encoder_hidden_states encoder_padding_mask
         cross_attention_cache)
      decoder_token_ids self_attention_cache index decoder_padding_mask
      end_token_id hidden_states in
  let* decoder_padding_mask :=
    lift (output_padding_mask end_token_id decoder_token_ids
            decoder_padding_mask) in
  ret {| out_decoder_token_ids := decoder_token_ids;
         out_decoder_padding_mask := decoder_padding_mask |}.

(** *** The sampling loop

    The class obtains its sampler from [get_sampler]; the sampling loop of
    [keras_nlp.samplers] is not among the sources.  The definitions of
    this part follow section 4.5 of the spec. *)

(** Modelled from the spec: the per-row completion test of the sampling
    loop, which is missing from the sources.  A row is complete when it
    has produced the end token at some position beyond its original known
    prefix. *)
Definition row_done (end_token_id : Z) (row : list Z) (mask_row : list bool)
    : bool :=
  existsb (fun b : bool => b)
    (zip_with (fun t (m : bool) => (t =? end_token_id) && negb m)
       row mask_row).

(** Modelled from the spec: the early-stopping test of the sampling loop,
    which is missing from the sources.  Early stopping is a conjunction
    over the rows of the batch and is off when no end token is
    configured. *)
Definition all_rows_done (end_token_id : option Z) (prompt : Tensor2 Z)
    (mask : Tensor2 bool) : bool :=
  match end_token_id with
  | None => false
  | Some e =>
    forallb (fun b : bool => b) (zip_with (row_done e) (rows prompt) (rows mask))
  end.

(** Modelled from the spec: the write of the sampling loop, which is
    missing from the sources.  The chosen token of every row is written
    into the prompt buffer at position [index]; an entry the mask marks as
    known is never overwritten. *)
Definition write_column (prompt : Tensor2 Z) (mask : Tensor2 bool)
    (index : nat) (tokens : list Z) : Tensor2 Z :=
  T2 (dim1 prompt)
    (imap (fun i row =>
             match entry mask i index, tokens !! i with
             | Some false, Some t => <[index := t]> row
             | _, _ => row
             end) (rows prompt)).

(** Modelled from the spec: the iteration of the sampling loop, which is
    missing from the sources.  Each step asks [next] for the logits at the
    current index, lets the strategy choose, writes the choice and moves
    the index on by one; the loop stops when its iterations are used up or
    every row is complete. *)
Fixpoint sampler_loop (get_next_token : Tensor -> list Z) (next : NextFn)
    (mask : Tensor2 bool) (end_token_id : option Z) (fuel : nat)
    (prompt : Tensor2 Z) (cache : Tensor) (index : Z) : G (Tensor2 Z) :=
  match fuel with
  | O => ret prompt
  | S fuel =>
    if all_rows_done end_token_id prompt mask then ret prompt
    else
      let* (logits, _, cache) := next prompt cache index in
      let prompt :=
        write_column prompt mask (Z.to_nat index) (get_next_token logits) in
      sampler_loop get_next_token next mask end_token_id fuel prompt cache
        (Int32.add index 1)
  end.

(** Modelled from the spec: the sampler object called by [generate_step],
    which is missing from the sources.  The step is repeated with the
    index increasing by one from the start index and the loop terminates
    at the decoder maximum length, the length of the prompt buffer.  The
    selection rule [get_next_token] is the strategy's own. *)
Definition spec_sampler (get_next_token : Tensor -> list Z) : Sampler :=
  fun next prompt cache index mask end_token_id hidden_states =>
  sampler_loop get_next_token next mask end_token_id
    (Z.to_nat (Z.of_nat (dim1 prompt) - index)) prompt cache index.

End Driver.

(** ** The compiled-function cache: [__init__], [compile],
    [make_generate_function] *)

Module Lifecycle.
Section Lifecycle.

(** [SamplerArg] is what the caller passes as [sampler=] (a name such as
    ["top_k"] or a sampler object), [SamplerObj] what [get_sampler]
    returns, [TrainingArgs] the remaining [*args, **kwargs] of [compile]
    (loss, optimizer, metrics). *)
Context {SamplerArg SamplerObj TrainingArgs : Type}.
Context (get_sampler : SamplerArg -> SamplerObj).
(** The value of [is_xla_compatible(self)]. *)
Context (is_xla_compatible : bool).
(** Whether [keras.Model] exposes [jit_compile] (it does from TF 2.12). *)
Context (has_jit_compile : bool).

(** The callable stored in [self.generate_function].  A [tf.function]
    traces [generate_step] on its first call and keeps the trace, and with
    it the value [self._sampler] had then. *)
Inductive GenerateFunction : Type :=
| BoundGenerateStep
| TfFunction (jit_compile : bool) (traced : option (option SamplerObj)).

Record Model : Type := {
  training : option TrainingArgs;
  run_eagerly : bool;
  jit_compile : option bool;
  _sampler : option SamplerObj;
  generate_function : option GenerateFunction
}.

Record CompileArgs : Type := {
  ca_args : TrainingArgs;
  ca_run_eagerly : bool;
  ca_jit_compile : bool;
  ca_sampler : SamplerArg
}.

(** [keras.Model.compile]: stores the training and execution options. *)
Definition super_compile (args : TrainingArgs) (run_eagerly jit_compile : bool)
    (m : Model) : Model :=
  {| training := Some args;
     run_eagerly := run_eagerly;
     jit_compile := if has_jit_compile then Some jit_compile else None;
     _sampler := _sampler m;
     generate_function := generate_function m |}.

Definition compile (a : CompileArgs) (m : Model) : Model :=
  let xla_compatible := is_xla_compatible in
  let m :=
    super_compile (ca_args a) (ca_run_eagerly a)
      (ca_jit_compile a && xla_compatible && negb (ca_run_eagerly a)) m in
  let m :=
    {| training := training m; run_eagerly := run_eagerly m;
       jit_compile := jit_compile m;
       _sampler := Some (get_sampler (ca_sampler a));
       generate_function := generate_function m |} in
  {| training := training m; run_eagerly := run_eagerly m;
     jit_compile := jit_compile m; _sampler := _sampler m;
     generate_function := None |}.

(** What [make_generate_function] builds when nothing is stored. *)
Definition build_generate_function (m : Model) : GenerateFunction :=
  if run_eagerly m then BoundGenerateStep
  else
    let jit_compile :=
      match jit_compile m with Some j => j | None => true end in
    TfFunction jit_compile None.

Definition make_generate_function (m : Model) : GenerateFunction * Model :=
  match generate_function m with
  | Some f => (f, m)
  | None =>
    let f := build_generate_function m in
    (f, {| training := training m; run_eagerly := run_eagerly m;
           jit_compile := jit_compile m; _sampler := _sampler m;
           generate_function := Some f |})
  end.

(** The state [__init__] leaves behind: both fields are set to [None] and
    the default [compile] runs. *)
Definition init (default_args : TrainingArgs) (default_sampler : SamplerArg)
    : Model :=
  compile
    {| ca_args := default_args; ca_run_eagerly := false;
       ca_jit_compile := is_xla_compatible; ca_sampler := default_sampler |}
    {| training := None; run_eagerly := false; jit_compile := None;
       _sampler := None; generate_function := None |}.

(** Calling the function [f] that [make_generate_function] returned, as
    [generate] does for a batch: the sampler that [generate_step] runs
    with, and the state afterwards.  [f] is the object stored in
    [self.generate_function], so the trace a [tf.function] takes on its
    first call is visible through that field. *)
Definition call_generate_function (f : GenerateFunction) (m : Model)
    : option SamplerObj * Model :=
  match f with
  | BoundGenerateStep => (_sampler m, m)
  | TfFunction j None =>
    (_sampler m,
     {| training := training m; run_eagerly := run_eagerly m;
        jit_compile := jit_compile m; _sampler := _sampler m;
        generate_function := Some (TfFunction j (Some (_sampler m))) |})
  | TfFunction j (Some s) => (s, m)
  end.

(** The first line of [generate] followed by one call of the function. *)
Definition generate_once (m : Model) : option SamplerObj * Model :=
  let '(f, m) := make_generate_function m in
  call_generate_function f m.

Inductive Op : Type :=
| OpCompile (a : CompileArgs)
| OpGenerate.

(** What is observed of one [generate]: the function obtained from
    [make_generate_function] and the sampler it ran with, next to the
    function a rebuild would give and the sampler installed by the latest
    [compile]. *)
Record Observation : Type := {
  used_function : GenerateFunction;
  used_sampler : option SamplerObj;
  rebuilt_function : GenerateFunction;
  installed_sampler : option SamplerObj
}.

(** Run a sequence of calls on the model and observe every [generate]. *)
Fixpoint run (ops : list Op) (m : Model) : list Observation * Model :=
  match ops with
  | [] => ([], m)
  | OpCompile a :: ops => run ops (compile a m)
  | OpGenerate :: ops =>
    let '(f, m1) := make_generate_function m in
    let '(used, m2) := call_generate_function f m1 in
    let '(log, m3) := run ops m2 in
    ({| used_function := f; used_sampler := used;
        rebuilt_function := build_generate_function m;
        installed_sampler := _sampler m |} :: log, m3)
  end.

(** Two generate functions of the same kind and compilation mode. *)
Definition same_function (f g : GenerateFunction) : bool :=
  match f, g with
  | BoundGenerateStep, BoundGenerateStep => true
  | TfFunction j _, TfFunction j' _ => Bool.eqb j j'
  | _, _ => false
  end.

(** An observed [generate] used nothing stale. *)
Definition up_to_date (o : Observation) : Prop :=
  used_sampler o = installed_sampler o /\
  same_function (used_function o) (rebuilt_function o) = true.

(** The stored function, if there is one, is what a rebuild would give,
    and its trace, if it has one, was taken under the installed sampler. *)
Definition fresh (m : Model) : Prop :=
  match generate_function m with
  | None => True
  | Some f =>
    same_function f (build_generate_function m) = true /\
    match f with
    | TfFunction _ (Some s) => s = _sampler m
    | _ => True
    end
  end.

(** [make_generate_function] called [n] times in a row. *)
Fixpoint make_repeatedly (n : nat) (m : Model)
    : list GenerateFunction * Model :=
  match n with
  | O => ([], m)
  | S n =>
    let '(f, m) := make_generate_function m in
    let '(fs, m) := make_repeatedly n m in
    (f :: fs, m)
  end.

End Lifecycle.
End Lifecycle.

(** ** Input and output normalisation: [_normalize_generate_inputs],
    [_normalize_generate_outputs], [generate] *)

Module Py.

Inductive DType : Type := tf_string | tf_int32 | tf_bool | tf_float32.

Inductive Atom : Type :=
| AStr (s : string)
| AInt (z : Z)
| ABool (b : bool).

(** The entries of a tensor of any rank: a scalar or a sequence along
    axis 0. *)
Inductive Nd : Type :=
| Sc (a : Atom)
| Arr (xs : list Nd).

Record TfTensor : Type := { dtype : DType; data : Nd }.

(** The Python values [generate] receives and returns. *)
Inductive PyValue : Type :=
| PyStr (s : string)
| PyInt (z : Z)
| PyList (xs : list PyValue)
| PyTensor (t : TfTensor)
| PyNumpy (t : TfTensor)
| PyDict (items : list (string * PyValue))
| PyDataset (batches : list PyValue).

Definition dtype_eqb (a b : DType) : bool :=
  match a, b with
  | tf_string, tf_string | tf_int32, tf_int32
  | tf_bool, tf_bool | tf_float32, tf_float32 => true
  | _, _ => false
  end.

Fixpoint rank (d : Nd) : nat :=
  match d with
  | Sc _ => 0
  | Arr [] => 1
  | Arr (x :: _) => S (rank x)
  end.

Fixpoint sequence {A} (l : list (Result A)) : Result (list A) :=
  match l with
  | [] => Ok []
  | r :: l' => rbind r (fun a => rbind (sequence l') (fun t => Ok (a :: t)))
  end.

(** Pack converted elements into one tensor: they must agree on the
    dtype and on the rank; the empty list is a float32 vector. *)
Definition pack (ts : list TfTensor) : Result TfTensor :=
  match ts with
  | [] => Ok {| dtype := tf_float32; data := Arr [] |}
  | t :: _ =>
    if forallb (fun u => dtype_eqb (dtype u) (dtype t)
                         && Nat.eqb (rank (data u)) (rank (data t))) ts
    then Ok {| dtype := dtype t; data := Arr (map data ts) |}
    else Raise ValueError
  end.

(** [tf.convert_to_tensor(x)]. *)
Fixpoint convert_to_tensor (x : PyValue) : Result TfTensor :=
  match x with
  | PyStr s => Ok {| dtype := tf_string; data := Sc (AStr s) |}
  | PyInt z => Ok {| dtype := tf_int32; data := Sc (AInt z) |}
  | PyTensor t | PyNumpy t => Ok t
  | PyList xs => rbind (sequence (map convert_to_tensor xs)) pack
  | PyDict _ | PyDataset _ => Raise ValueError
  end.

(** [x[tf.newaxis]]. *)
Definition newaxis (t : TfTensor) : TfTensor :=
  {| dtype := dtype t; data := Arr [data t] |}.

(** The local function [normalize] of [_normalize_generate_inputs]. *)
Definition normalize_input (x : PyValue) : Result (PyValue * bool) :=
  let x_is_scalar := false in
  rbind
    (match x with
     | PyStr _ | PyList _ =>
       rbind (convert_to_tensor x) (fun t => Ok (PyTensor t))
     | _ => Ok x
     end)
    (fun x =>
       match x with
       | PyTensor t =>
         match data t with
         | Sc _ => Ok (PyTensor (newaxis t), true)
         | Arr _ => Ok (x, x_is_scalar)
         end
       | _ => Ok (x, x_is_scalar)
       end).

(** [for key in inputs: inputs[key], input_is_scalar = normalize(...)]:
    every value is replaced, and the flag is assigned anew by every key. *)
Fixpoint normalize_items (items : list (string * PyValue))
    (input_is_scalar : bool) : Result (list (string * PyValue) * bool) :=
  match items with
  | [] => Ok ([], input_is_scalar)
  | (key, v) :: items =>
    rbind (normalize_input v) (fun '(v, input_is_scalar) =>
    rbind (normalize_items items input_is_scalar) (fun '(items, flag) =>
    Ok ((key, v) :: items, flag)))
  end.

(** [_normalize_generate_inputs]: the first component is the iterable of
    batches, a dataset or a one-element list. *)
Definition _normalize_generate_inputs (inputs : PyValue)
    : Result (PyValue * bool) :=
  let input_is_scalar := false in
  match inputs with
  | PyDataset _ => Ok (inputs, input_is_scalar)
  | PyDict items =>
    rbind (normalize_items items input_is_scalar) (fun '(items, flag) =>
    Ok (PyList [PyDict items], flag))
  | _ =>
    rbind (normalize_input inputs) (fun '(inputs, input_is_scalar) =>
    Ok (PyList [inputs], input_is_scalar))
  end.

(** The static shape of a tensor, read along the first entry of every
    axis.  A tensor without entries is the empty vector. *)
Fixpoint shape (d : Nd) : list nat :=
  match d with
  | Sc _ => []
  | Arr xs =>
    length xs :: match xs with
                 | [] => []
                 | x :: _ => shape x
                 end
  end.

Fixpoint dims_eqb (a b : list nat) : bool :=
  match a, b with
  | [], [] => true
  | x :: a, y :: b => Nat.eqb x y && dims_eqb a b
  | _, _ => false
  end.

(** The dimensions of a tensor behind axis 0. *)
Definition inner_dims (t : TfTensor) : list nat := tail (shape (data t)).

(** The entries of [u] along axis 0 when [u] can be joined to [t] along
    that axis: [u] has rank at least one, the dtype of [t] and the
    dimensions of [t] behind axis 0. *)
Definition rows_like (t u : TfTensor) : Result (list Nd) :=
  match data u with
  | Arr l =>
    if dtype_eqb (dtype u) (dtype t) && dims_eqb (inner_dims u) (inner_dims t)
    then Ok l
    else Raise InvalidArgumentError
  | Sc _ => Raise InvalidArgumentError
  end.

(** [tf.concat(xs, axis=0)]: one tensor is returned as it is; several
    must be of rank at least one, of one dtype, and agree on every
    dimension behind axis 0. *)
Definition concat0 (xs : list TfTensor) : Result TfTensor :=
  match xs with
  | [] => Raise ValueError
  | [t] => Ok t
  | t :: _ =>
    rbind (sequence (map (rows_like t) xs))
      (fun ls => Ok {| dtype := dtype t; data := Arr (concat ls) |})
  end.

(** [tf.squeeze(x, 0)]: axis 0 must have size one. *)
Definition squeeze0 (t : TfTensor) : Result TfTensor :=
  match data t with
  | Arr [d] => Ok {| dtype := dtype t; data := d |}
  | _ => Raise InvalidArgumentError
  end.

(** Modelled from the spec: [tensor_to_string_list] of
    [keras_nlp.utils.tensor_utils], which is missing from the sources.
    Section 4.6: string-typed results are converted to host-native
    strings and lists of strings. *)
Fixpoint tensor_to_string_list (d : Nd) : PyValue :=
  match d with
  | Sc (AStr s) => PyStr s
  | Sc (AInt z) => PyInt z
  | Sc (ABool b) => PyInt (if b then 1 else 0)
  | Arr xs => PyList (map tensor_to_string_list xs)
  end.

Definition as_tensor (x : PyValue) : Result TfTensor :=
  match x with
  | PyTensor t => Ok t
  | _ => Raise TypeError
  end.

(** The local function [normalize] of [_normalize_generate_outputs]. *)
Definition normalize_output (input_is_scalar : bool) (x : list PyValue)
    : Result PyValue :=
  rbind (sequence (map as_tensor x)) (fun x =>
  rbind (concat0 x) (fun x =>
  rbind (if input_is_scalar then squeeze0 x else Ok x) (fun x =>
  let is_string := dtype_eqb (dtype x) tf_string in
  Ok (if is_string then tensor_to_string_list (data x) else PyNumpy x)))).

Fixpoint dict_get (key : string) (items : list (string * PyValue))
    : Result PyValue :=
  match items with
  | [] => Raise KeyError
  | (k, v) :: items => if String.eqb k key then Ok v else dict_get key items
  end.

(** [x[key]] for [x] in [outputs]. *)
Definition getitem (key : string) (x : PyValue) : Result PyValue :=
  match x with
  | PyDict items => dict_get key items
  | _ => Raise TypeError
  end.

Definition _normalize_generate_outputs (outputs : list PyValue)
    (input_is_scalar : bool) : Result PyValue :=
  match outputs with
  | [] => Raise IndexError
  | PyDict _ :: _ =>
    rbind (sequence (map (getitem "decoder_token_ids") outputs)) (fun ids =>
    rbind (normalize_output input_is_scalar ids) (fun ids =>
    rbind (sequence (map (getitem "decoder_padding_mask") outputs))
      (fun masks =>
    rbind (normalize_output input_is_scalar masks) (fun masks =>
    Ok (PyDict [("decoder_token_ids"%string, ids);
                ("decoder_padding_mask"%string, masks)])))))
  | _ => normalize_output input_is_scalar outputs
  end.

(** The attached preprocessor: its two generation passes and the end
    token of its tokenizer. *)
Record Preprocessor : Type := {
  generate_preprocess : PyValue -> option Z -> Result PyValue;
  generate_postprocess : PyValue -> Result PyValue;
  tokenizer_end_token_id : option Z
}.

(** The batches an iterable yields. *)
Definition batches_of (inputs : PyValue) : Result (list PyValue) :=
  match inputs with
  | PyDataset bs | PyList bs => Ok bs
  | _ => Raise TypeError
  end.

(** [generate]; [generate_function] is what [make_generate_function]
    returned, applied to a batch and [end_token_id]. *)
Definition generate (preprocessor : option Preprocessor)
    (generate_function : PyValue -> option Z -> Result PyValue)
    (inputs : PyValue) (max_length : option Z) : Result PyValue :=
  let end_token_id :=
    match preprocessor with
    | Some p => tokenizer_end_token_id p
    | None => None
    end in
  let preprocess x :=
    match preprocessor with
    | Some p => generate_preprocess p x max_length
    | None => Ok x
    end in
  let generate x := generate_function x end_token_id in
  let postprocess x :=
    match preprocessor with
    | Some p => generate_postprocess p x
    | None => Ok x
    end in
  rbind (_normalize_generate_inputs inputs) (fun '(inputs, input_is_scalar) =>
  rbind (batches_of inputs) (fun inputs =>
  rbind (sequence (map preprocess inputs)) (fun inputs =>
  rbind (sequence (map generate inputs)) (fun outputs =>
  rbind (sequence (map postprocess outputs)) (fun outputs =>
  _normalize_generate_outputs outputs input_is_scalar))))).

(** The host value of a result tensor: strings for a string tensor, an
    array otherwise. *)
Definition to_python (t : TfTensor) : PyValue :=
  if dtype_eqb (dtype t) tf_string then tensor_to_string_list (data t)
  else PyNumpy t.

(** A rank-0 tensor, and a tensor with a leading batch axis. *)
Definition rank0 (dt : DType) (a : Atom) : TfTensor :=
  {| dtype := dt; data := Sc a |}.

Definition batched (dt : DType) (xs : list Nd) : TfTensor :=
  {| dtype := dt; data := Arr xs |}.

(** The inputs [generate] treats as a single example: a string, a rank-0
    tensor, or a non-empty dictionary whose values are rank-0 tensors. *)
Inductive ScalarInput : Type :=
| SStr (s : string)
| STensor (dt : DType) (a : Atom)
| SDict (kv : string * (DType * Atom)) (kvs : list (string * (DType * Atom))).

Definition scalar_value (x : ScalarInput) : PyValue :=
  match x with
  | SStr s => PyStr s
  | STensor dt a => PyTensor (rank0 dt a)
  | SDict kv kvs =>
    PyDict (map (fun '(k, (dt, a)) => (k, PyTensor (rank0 dt a))) (kv :: kvs))
  end.

(** The same example as a batch of one. *)
Definition with_batch_axis (x : ScalarInput) : PyValue :=
  match x with
  | SStr s => PyTensor (batched tf_string [Sc (AStr s)])
  | STensor dt a => PyTensor (batched dt [Sc a])
  | SDict kv kvs =>
    PyDict (map (fun '(k, (dt, a)) => (k, PyTensor (batched dt [Sc a])))
              (kv :: kvs))
  end.

(** Inputs that already carry a batch axis: a tensor of rank at least
    one, or a dictionary of such tensors. *)
Inductive BatchedInput : Type :=
| BTensor (dt : DType) (xs : list Nd)
| BDict (kvs : list (string * (DType * list Nd))).

Definition batched_value (y : BatchedInput) : PyValue :=
  match y with
  | BTensor dt xs => PyTensor (batched dt xs)
  | BDict kvs =>
    PyDict (map (fun '(k, (dt, xs)) => (k, PyTensor (batched dt xs))) kvs)
  end.

(** The three passes of [generate] on one batch: preprocess when a
    preprocessor is attached, generate, postprocess when a preprocessor
    is attached. *)
Definition passes (preprocessor : option Preprocessor)
    (generate_function : PyValue -> option Z -> Result PyValue)
    (max_length : option Z) (x : PyValue) : Result PyValue :=
  match preprocessor with
  | Some p =>
    rbind (generate_preprocess p x max_length) (fun x =>
    rbind (generate_function x (tokenizer_end_token_id p))
      (generate_postprocess p))
  | None => generate_function x None
  end.

End Py.

(** ** A symbolic backbone

    An instance of the interface in which a float tensor is the term that
    computes it: every layer and kernel builds a node.  It is used to run
    the driver on concrete batches. *)

Module Symbolic.

Inductive term : Type :=
| Zeros (shape : list Z)
| Weights
| Ids (t : Tensor2 Z)
| Mask (t : Tensor2 bool)
| Index (i : option Z)
| Layer (i : nat)
| Node (op : string) (args : list term).

Fixpoint unstack1 (t : term) : list term :=
  match t with
  | Zeros (b :: l :: rest) => replicate (Z.to_nat l) (Zeros (b :: rest))
  | Node "stack" args => args
  | Node "repeat" [x; n] => map (fun s => Node "repeat" [s; n]) (unstack1 x)
  | _ => []
  end.

Fixpoint shape0 (t : term) : Z :=
  match t with
  | Zeros (b :: _) => b
  | Ids t => Z.of_nat (dim0 t)
  | Node "repeat" [x; Index (Some n)] => n * shape0 x
  | Node _ (a :: _) => shape0 a
  | _ => 0
  end.

Definition decoder_layer (i : nat) (x ehs : term) (m : Tensor2 bool)
    (sc : term) (si : option Z) (cc : term) (ci : option Z)
    : term * term * term :=
  let args := [x; ehs; Mask m; sc; Index si; cc; Index ci; Layer i] in
  (Node "decoder_sequence" args, Node "self_attention_cache" args,
   Node "cross_attention_cache" args).

Definition backbone (layers : nat) (heads hidden : Z) : Backbone :=
  {| Tensor := term;
     num_layers := layers;
     num_heads := heads;
     hidden_dim := hidden;
     token_embedding := fun ids => Node "token_embedding" [Ids ids];
     token_embedding_embeddings := Weights;
     decoder_position_embedding :=
       fun x i => Node "decoder_position_embedding" [x; Index i];
     decoder_embeddings_add :=
       fun a b => Node "decoder_embeddings_add" [a; b];
     decoder_embeddings_layer_norm :=
       fun x => Node "decoder_embeddings_layer_norm" [x];
     decoder_embeddings_dropout :=
       fun x => Node "decoder_embeddings_dropout" [x];
     transformer_decoder_layer := decoder_layer;
     encoder_position_embedding :=
       fun x => Node "encoder_position_embedding" [x];
     encoder_embeddings_add :=
       fun a b => Node "encoder_embeddings_add" [a; b];
     encoder_embeddings_layer_norm :=
       fun x => Node "encoder_embeddings_layer_norm" [x];
     encoder_embeddings_dropout :=
       fun x => Node "encoder_embeddings_dropout" [x];
     transformer_encoder_layer :=
       fun i x m => Node "transformer_encoder_layer" [x; Mask m; Layer i];
     tf_zeros := Zeros;
     tf_unstack1 := unstack1;
     tf_stack1 := Node "stack";
     tf_matmul_transpose_b := fun a b => Node "matmul" [a; b];
     tf_squeeze1 := fun x => Node "squeeze" [x];
     tf_repeat0 := fun n x => Node "repeat" [x; Index (Some n)];
     tf_shape0 := shape0 |}.

(** A two-layer backbone and a selection rule that always picks token
    [7] for each of two rows. *)
Definition bart : Backbone := backbone 2 4 8.

Definition pick7 : @Tensor bart -> list Z := fun _ => [7; 7].

(** Two rows with known-prefix lengths 2 and 4 over a decoder length of
    five; the encoder sequence has three positions. *)
Definition demo_inputs : @Inputs :=
  {| encoder_token_ids := T2 3 [[0; 11; 2]; [0; 12; 2]];
     encoder_padding_mask := T2 3 [[true; true; true]; [true; true; true]];
     decoder_token_ids := T2 5 [[0; 21; 1; 1; 1]; [0; 22; 23; 24; 1]];
     decoder_padding_mask :=
       T2 5 [[true; true; false; false; false];
             [true; true; true; true; false]] |}.

(** The decoder state of that batch when [next] is first called. *)
Definition demo_encoder_hidden_states : @Tensor bart :=
  Node "encoder" [Ids (encoder_token_ids demo_inputs)].

Definition demo_cache : @Tensor bart := Zeros [2; 2; 2; 5; 4; 2].

Definition demo_cross_attention_cache : @Tensor bart :=
  Zeros [2; 2; 2; 3; 4; 2].

(** A run of [generate_step] on the batch with end token [7]. *)
Definition demo_run : Result (Outputs * @History bart) :=
  Eval vm_compute in
    @generate_step bart (spec_sampler pick7) demo_inputs (Some 7) [].

Definition demo_outputs : Outputs :=
  {| out_decoder_token_ids := T2 5 [[0; 21; 7; 7; 7]; [0; 22; 23; 24; 7]];
     out_decoder_padding_mask :=
       T2 5 [[true; true; true; false; false];
             [true; true; true; true; true]] |}.

Definition demo_history : @History bart :=
  Eval vm_compute in
    match demo_run with
    | Ok (_, h) => h
    | Raise _ => []
    end.

(** A preprocessor that passes its batches through unchanged. *)
Definition identity_preprocessor : Py.Preprocessor :=
  {| Py.generate_preprocess := fun x _ => Ok x;
     Py.generate_postprocess := fun x => Ok x;
     Py.tokenizer_end_token_id := Some 2 |}.

End Symbolic.

(** ** Notions the properties are stated with *)

(** The number of [true] entries of a mask row: the count of tokens the
    caller supplied for that row. *)
Definition count_true (r : list bool) : Z :=
  Z.of_nat (length (List.filter (fun b : bool => b) r)).

(** [k] is the minimum of the list [l]. *)
Definition is_minimum (k : Z) (l : list Z) : Prop :=
  In k l /\ Forall (fun x => k <= x) l.

(** Position [p] of row [i] holds the end token outside the original
    prompt. *)
Definition end_location (end_token_id : Z) (ids : Tensor2 Z)
    (mask : Tensor2 bool) (i p : nat) : Prop :=
  entry ids i p = Some end_token_id /\ entry mask i p = Some false.

Definition first_end_location (end_token_id : Z) (ids : Tensor2 Z)
    (mask : Tensor2 bool) (i f : nat) : Prop :=
  end_location end_token_id ids mask i f /\
  forall q, (q < f)%nat -> ~ end_location end_token_id ids mask i q.

(** [w] is the one-token window of the prompt at column [j]: a single
    column that holds, for every row, exactly the token at position [j]
    of that row. *)
Definition single_token_window (prompt : Tensor2 Z) (j : nat)
    (w : Tensor2 Z) : Prop :=
  dim1 w = 1%nat /\ dim0 w = dim0 prompt /\
  forall i, (i < dim0 prompt)%nat ->
    exists t, entry prompt i j = Some t /\ rows w !! i = Some [t].

(** Both dimensions of a tensor fit the int32 that [tf.shape] reports. *)
Definition int32_dims {A} (t : Tensor2 A) : Prop :=
  Z.of_nat (dim0 t) <= Int32.max_signed /\
  Z.of_nat (dim1 t) <= Int32.max_signed.

(** Once [false], a mask row stays [false]. *)
Definition monotonic (row : list bool) : Prop :=
  forall p q : nat, (p < q)%nat ->
    row !! p = Some false -> row !! q = Some true -> False.

(** The end locations of one row and the mask row computed from them. *)
Definition end_row (e : Z) (r : list Z) (m : list bool) : list bool :=
  zip_with (fun t (k : bool) => (t =? e) && negb k) r m.

Definition out_row (e : Z) (r : list Z) (m : list bool) : list bool :=
  map negb
    (map (fun z => negb (z =? 0))
       (Tf.cumsum_exclusive_from 0
          (map (fun b : bool => if b then 1 else 0) (end_row e r m)))).


(** The arguments of the decoder pass made by one step of [next]. *)
Definition step_call {B : Backbone} (ehs : Tensor) (m : Tensor2 bool) (w : Tensor2 Z)
    (cache : Tensor) (j : Z) (cc : Tensor) : DecoderCall :=
  {| dc_encoder_hidden_states := ehs;
     dc_encoder_padding_mask := m;
     dc_decoder_token_ids := w;
     dc_self_attention_cache := cache;
     dc_self_attention_cache_update_index := Some j;
     dc_cross_attention_cache := cc;
     dc_cross_attention_cache_update_index := None |}.

(** The arguments of the seeding pass of [_build_cache]. *)
Definition seed_call {B : Backbone} (encoder_token_ids : Tensor2 Z)
    (encoder_padding_mask : Tensor2 bool) (decoder_token_ids : Tensor2 Z)
    : DecoderCall :=
  {| dc_encoder_hidden_states :=
       encoder_forward encoder_token_ids encoder_padding_mask;
     dc_encoder_padding_mask := encoder_padding_mask;
     dc_decoder_token_ids := decoder_token_ids;
     dc_self_attention_cache :=
       tf_zeros [Z.of_nat (dim0 encoder_token_ids); Z.of_nat num_layers; 2;
                 Z.of_nat (dim1 decoder_token_ids); num_heads;
                 hidden_dim / num_heads];
     dc_self_attention_cache_update_index := Some 0;
     dc_cross_attention_cache :=
       tf_zeros [Z.of_nat (dim0 encoder_token_ids); Z.of_nat num_layers; 2;
                 Z.of_nat (dim1 encoder_token_ids); num_heads;
                 hidden_dim / num_heads];
     dc_cross_attention_cache_update_index := Some 0 |}.

(** ** Layers that hold state

    A Keras layer is an object: next to its weights it may hold
    variables that a call advances, such as the seed generator of a
    dropout layer that runs in training mode.  [call_decoder_with_cache]
    is embedded here a second time, over layer calls that read and may
    write the state of the layers, to tell what the method itself keeps
    between two calls from what its layers keep.  The tensors and the
    TensorFlow kernels are those of the backbone interface. *)

Module Stateful.

(** A computation on the state [S] of the layers: its outcome and the
    state it leaves behind, also when it raises. *)
Definition M (S A : Type) : Type := S -> Result A * S.

Definition ret {S A} (a : A) : M S A := fun s => (Ok a, s).

Definition raise {S A} (e : Exn) : M S A := fun s => (Raise e, s).

Definition bind {S A C} (m : M S A) (k : A -> M S C) : M S C :=
  fun s => match m s with
           | (Ok a, s') => k a s'
           | (Raise e, s') => (Raise e, s')
           end.

(** Reading a variable of a layer. *)
Definition read {S A} (f : S -> A) : M S A := fun s => (Ok (f s), s).

(** A computation that leaves the state as it found it. *)
Definition frame {S A} (m : M S A) : Prop := forall s, snd (m s) = s.

Declare Scope layer_scope.
Delimit Scope layer_scope with layer.
Notation "'let*' x := c1 'in' c2" := (bind c1 (fun x => c2))
  (at level 10, x pattern, c1 at level 100, c2 at level 200) : layer_scope.

Section Stateful.
Context {B : Backbone}.
Context {LayerState : Type}.
Local Open Scope layer_scope.

(** The layers [call_decoder_with_cache] fetches with
    [self.backbone.get_layer(name)], as calls on the state, and the
    [embeddings] variable of the token embedding, which is read. *)
Record Layers : Type := {
  layer_token_embedding : Tensor2 Z -> M LayerState Tensor;
  layer_token_embedding_embeddings : LayerState -> Tensor;
  layer_decoder_position_embedding :
    Tensor -> option Z -> M LayerState Tensor;
  layer_decoder_embeddings_add : Tensor -> Tensor -> M LayerState Tensor;
  layer_decoder_embeddings_layer_norm : Tensor -> M LayerState Tensor;
  layer_decoder_embeddings_dropout : Tensor -> M LayerState Tensor;
  layer_transformer_decoder_layer :
    nat -> Tensor -> Tensor -> Tensor2 bool ->
    Tensor -> option Z -> Tensor -> option Z ->
    M LayerState (Tensor * Tensor * Tensor)
}.

Variable L : Layers.

(** One iteration of [for i in range(self.backbone.num_layers)]. *)
Definition decoder_layer_step
    (encoder_hidden_states : Tensor) (encoder_padding_mask : Tensor2 bool)
    (self_attention_cache_update_index cross_attention_cache_update_index
       : option Z)
    (st : Tensor * list Tensor * list Tensor) (i : nat)
    : M LayerState (Tensor * list Tensor * list Tensor) :=
  let '(x, self_attention_caches, cross_attention_caches) := st in
  match self_attention_caches !! i with
  | None => raise IndexError
  | Some current_self_attention_cache =>
    match cross_attention_caches !! i with
    | None => raise IndexError
    | Some current_cross_attention_cache =>
      let* (x, next_self_attention_cache, next_cross_attention_cache) :=
        layer_transformer_decoder_layer L i x encoder_hidden_states
          encoder_padding_mask
          current_self_attention_cache self_attention_cache_update_index
          current_cross_attention_cache cross_attention_cache_update_index in
      let self_attention_caches :=
        match self_attention_cache_update_index with
        | Some _ => <[i := next_self_attention_cache]> self_attention_caches
        | None => self_attention_caches
        end in
      let cross_attention_caches :=
        match cross_attention_cache_update_index with
        | Some _ => <[i := next_cross_attention_cache]> cross_attention_caches
        | None => cross_attention_caches
        end in
      ret (x, self_attention_caches, cross_attention_caches)
    end
  end.

Fixpoint for_each {St} (body : St -> nat -> M LayerState St) (l : list nat)
    (st : St) : M LayerState St :=
  match l with
  | [] => ret st
  | i :: l' => let* st := body st i in for_each body l' st
  end.

(** [call_decoder_with_cache], lines 293-352. *)
Definition call_decoder_with_cache (c : DecoderCall)
    : M LayerState (Tensor * Tensor * Tensor * Tensor) :=
  let encoder_hidden_states := dc_encoder_hidden_states c in
  let encoder_padding_mask := dc_encoder_padding_mask c in
  let decoder_token_ids := dc_decoder_token_ids c in
  let self_attention_cache := dc_self_attention_cache c in
  let self_attention_cache_update_index :=
    dc_self_attention_cache_update_index c in
  let cross_attention_cache := dc_cross_attention_cache c in
  let cross_attention_cache_update_index :=
    dc_cross_attention_cache_update_index c in
  let* token_embedding := layer_token_embedding L decoder_token_ids in
  let* position_embedding :=
    layer_decoder_position_embedding L token_embedding
      self_attention_cache_update_index in
  let* x := layer_decoder_embeddings_add L token_embedding
              position_embedding in
  let* x := layer_decoder_embeddings_layer_norm L x in
  let* x := layer_decoder_embeddings_dropout L x in
  let self_attention_caches := tf_unstack1 self_attention_cache in
  let cross_attention_caches := tf_unstack1 cross_attention_cache in
  let* (x, self_attention_caches, cross_attention_caches) :=
    for_each
      (decoder_layer_step encoder_hidden_states encoder_padding_mask
         self_attention_cache_update_index
         cross_attention_cache_update_index)
      (seq 0 num_layers)
      (x, self_attention_caches, cross_attention_caches) in
  let self_attention_cache :=
    match self_attention_cache_update_index with
    | Some _ => tf_stack1 self_attention_caches
    | None => self_attention_cache
    end in
  let cross_attention_cache :=
    match cross_attention_cache_update_index with
    | Some _ => tf_stack1 cross_attention_caches
    | None => cross_attention_cache
    end in
  let hidden_states := x in
  let* embeddings := read (layer_token_embedding_embeddings L) in
  let logits := tf_matmul_transpose_b hidden_states embeddings in
  ret (logits, hidden_states, self_attention_cache, cross_attention_cache).

(** Layers whose calls leave the state of the layers as it is, as a
    layer does that is called outside of training: no call writes a
    variable. *)
Record read_only : Prop := {
  token_embedding_frame : forall ids, frame (layer_token_embedding L ids);
  decoder_position_embedding_frame :
    forall x i, frame (layer_decoder_position_embedding L x i);
  decoder_embeddings_add_frame :
    forall a b, frame (layer_decoder_embeddings_add L a b);
  decoder_embeddings_layer_norm_frame :
    forall x, frame (layer_decoder_embeddings_layer_norm L x);
  decoder_embeddings_dropout_frame :
    forall x, frame (layer_decoder_embeddings_dropout L x);
  transformer_decoder_layer_frame :
    forall i x ehs m sc si cc ci,
      frame (layer_transformer_decoder_layer L i x ehs m sc si cc ci)
}.

End Stateful.

Arguments Layers B LayerState : clear implicits.

(** The layers of a backbone of the interface above: every call returns
    what the layer function returns and touches no state. *)
Definition inference_layers (B : Backbone) (LayerState : Type)
    : Layers B LayerState :=
  {| layer_token_embedding := fun ids => ret (token_embedding ids);
     layer_token_embedding_embeddings := fun _ => token_embedding_embeddings;
     layer_decoder_position_embedding :=
       fun x i => ret (decoder_position_embedding x i);
     layer_decoder_embeddings_add :=
       fun a b => ret (decoder_embeddings_add a b);
     layer_decoder_embeddings_layer_norm :=
       fun x => ret (decoder_embeddings_layer_norm x);
     layer_decoder_embeddings_dropout :=
       fun x => ret (decoder_embeddings_dropout x);
     layer_transformer_decoder_layer :=
       fun i x ehs m sc si cc ci =>
         ret (transformer_decoder_layer i x ehs m sc si cc ci) |}.

End Stateful.

(** A backbone whose embedding dropout runs in training mode: the state
    of the layers is the seed of the dropout mask, and every call of the
    layer draws its mask from the seed and moves the seed on.  The other
    layers are those of [Symbolic.bart]. *)
Definition training_layers : Stateful.Layers Symbolic.bart Z :=
  let L := Stateful.inference_layers Symbolic.bart Z in
  {| Stateful.layer_token_embedding := Stateful.layer_token_embedding L;
     Stateful.layer_token_embedding_embeddings :=
       Stateful.layer_token_embedding_embeddings L;
     Stateful.layer_decoder_position_embedding :=
       Stateful.layer_decoder_position_embedding L;
     Stateful.layer_decoder_embeddings_add :=
       Stateful.layer_decoder_embeddings_add L;
     Stateful.layer_decoder_embeddings_layer_norm :=
       Stateful.layer_decoder_embeddings_layer_norm L;
     Stateful.layer_decoder_embeddings_dropout :=
       fun x seed =>
         (Ok (Symbolic.Node "dropout" [x; Symbolic.Index (Some seed)]),
          seed + 1);
     Stateful.layer_transformer_decoder_layer :=
       Stateful.layer_transformer_decoder_layer L |}.

(** One decoding step on the batch of [Symbolic.demo_inputs]. *)
Definition demo_step : @DecoderCall Symbolic.bart :=
  step_call Symbolic.demo_encoder_hidden_states
    (encoder_padding_mask Symbolic.demo_inputs)
    (T2 1 [[21]; [22]]) Symbolic.demo_cache 1
    Symbolic.demo_cross_attention_cache.

(** ** Further notions: the decoder layers one by one *)

Section LayerNotions.
Context {B : Backbone}.

(** The decoder input after the embedding layers. *)
Definition embedded (c : DecoderCall) : Tensor :=
  let token_embedding := token_embedding (dc_decoder_token_ids c) in
  decoder_embeddings_dropout
    (decoder_embeddings_layer_norm
       (decoder_embeddings_add token_embedding
          (decoder_position_embedding token_embedding
             (dc_self_attention_cache_update_index c)))).

(** Layer [i] applied to the sequence [x] and to slot [i] of the two
    caches as they were passed in. *)
Definition layer_on_input_slots (c : DecoderCall) (i : nat) (x : Tensor)
    : option (Tensor * Tensor * Tensor) :=
  match tf_unstack1 (dc_self_attention_cache c) !! i,
        tf_unstack1 (dc_cross_attention_cache c) !! i with
  | Some s, Some r =>
    Some (transformer_decoder_layer i x (dc_encoder_hidden_states c)
            (dc_encoder_padding_mask c)
            s (dc_self_attention_cache_update_index c)
            r (dc_cross_attention_cache_update_index c))
  | _, _ => None
  end.

(** The sequence that enters layer [i]: the embedded input for layer 0,
    the output of the layer before otherwise. *)
Fixpoint layer_input (c : DecoderCall) (i : nat) : option Tensor :=
  match i with
  | O => Some (embedded c)
  | S k =>
    match layer_input c k with
    | Some x =>
      match layer_on_input_slots c k x with
      | Some (x', _, _) => Some x'
      | None => None
      end
    | None => None
    end
  end.

(** What layer [i] returns in the forward pass. *)
Definition layer_output (c : DecoderCall) (i : nat)
    : option (Tensor * Tensor * Tensor) :=
  match layer_input c i with
  | Some x => layer_on_input_slots c i x
  | None => None
  end.

(** Slot [i] of a cache after the pass: the cache returned by layer [i]
    for a slot of the backbone, the old slot beyond. *)
Definition self_slot_after (c : DecoderCall) (i : nat) : option Tensor :=
  if (i <? num_layers)%nat
  then match layer_output c i with
       | Some (_, s, _) => Some s
       | None => None
       end
  else tf_unstack1 (dc_self_attention_cache c) !! i.

Definition cross_slot_after (c : DecoderCall) (i : nat) : option Tensor :=
  if (i <? num_layers)%nat
  then match layer_output c i with
       | Some (_, _, r) => Some r
       | None => None
       end
  else tf_unstack1 (dc_cross_attention_cache c) !! i.

End LayerNotions.

(** ** Further notions: the passes of [generate] *)

(** The end token [generate] hands to the generate function: the one of
    the tokenizer when a preprocessor is attached, none otherwise. *)
Definition end_token_of (preprocessor : option Py.Preprocessor) : option Z :=
  match preprocessor with
  | Some p => Py.tokenizer_end_token_id p
  | None => None
  end.

(** The output of one batch as a dictionary of token ids and padding
    mask, possibly among other keys. *)
Definition has_ids_and_mask (o : Py.PyValue) (dti dtm : Py.DType)
    (ids mask : list Py.Nd) : Prop :=
  Py.getitem "decoder_token_ids" o = Ok (Py.PyTensor (Py.batched dti ids)) /\
  Py.getitem "decoder_padding_mask" o = Ok (Py.PyTensor (Py.batched dtm mask)).

(** The dimensions behind the batch axis of a batch with the rows
    [xs]. *)
Definition row_dims (xs : list Py.Nd) : list nat := tail (Py.shape (Py.Arr xs)).

(** ** The alphabet of the sampler tests

    [TopKSamplerTest.setUp] of [keras_nlp/samplers/top_k_sampler_test.py]
    builds two dictionaries over the lowercase letters, and
    [join_as_string] turns rows of ids back into strings. *)

Module SamplerTest.

(** [{i: chr(i + ord("a")) for i in range(26)}], in insertion order. *)
Definition int_lookup : list (Z * Ascii.ascii) :=
  map (fun i : nat => (Z.of_nat i, Ascii.ascii_of_nat (i + 97))) (seq 0 26).

(** [{v: k for k, v in self.int_lookup.items()}]. *)
Definition char_lookup : list (Ascii.ascii * Z) :=
  map (fun '(k, v) => (v, k)) int_lookup.

(** [d[key]]: the value under the key, [KeyError] without one. *)
Fixpoint getitem {K V} (eqb : K -> K -> bool) (d : list (K * V)) (key : K)
    : Result V :=
  match d with
  | [] => Raise KeyError
  | (k, v) :: d => if eqb k key then Ok v else getitem eqb d key
  end.

(** [[self.char_lookup[c] for c in cache_chars]]. *)
Definition to_ids (cache_chars : string) : Result (list Z) :=
  Py.sequence
    (map (getitem Ascii.eqb char_lookup) (list_ascii_of_string cache_chars)).

(** [join_as_string]. *)
Definition join_as_string (x : list (list Z)) : Result (list string) :=
  Py.sequence
    (map (fun s =>
            rbind (Py.sequence (map (getitem Z.eqb int_lookup) s))
              (fun cs => Ok (string_of_list_ascii cs))) x).

End SamplerTest.

(** * Properties *)

(** ** int32 arithmetic *)

Lemma Int32_wrap_small z : Int32.in_range z -> Int32.wrap z = z.
Proof.
  unfold Int32.in_range, Int32.wrap, Int32.min_signed, Int32.max_signed.
  intros H. rewrite Z.mod_small; lia.
Qed.

Lemma Int32_fits_in_range z : Int32.fits z = true <-> Int32.in_range z.
Proof.
  unfold Int32.fits, Int32.in_range.
  rewrite andb_true_iff, !Z.leb_le. tauto.
Qed.

Lemma Int32_add_small a b :
  Int32.in_range (a + b) -> Int32.add a b = a + b.
Proof. apply Int32_wrap_small. Qed.

(** ** The starting index *)

Lemma count_true_cons b r :
  count_true (b :: r) = (if b then 1 else 0) + count_true r.
Proof. unfold count_true. destruct b; cbn [List.filter length]; lia. Qed.

Lemma count_true_bounds r : 0 <= count_true r <= Z.of_nat (length r).
Proof.
  induction r as [|b r IH]; [unfold count_true; simpl; lia|].
  rewrite count_true_cons. destruct b; cbn [length]; lia.
Qed.

(** The int32 row sum of the cast mask is the count of its [true]
    entries as long as the row is short enough not to wrap. *)
Lemma row_sum_count r acc :
  0 <= acc -> acc + Z.of_nat (length r) <= Int32.max_signed ->
  fold_left Int32.add (map (fun b : bool => if b then 1 else 0) r) acc
  = acc + count_true r.
Proof.
  revert acc. induction r as [|b r IH]; intros acc H0 Hmax.
  - unfold count_true; simpl; lia.
  - cbn [map fold_left length] in *. rewrite count_true_cons.
    assert (Hr : Int32.add acc (if b then 1 else 0)
                 = acc + (if b then 1 else 0)).
    { apply Int32_add_small. unfold Int32.in_range, Int32.min_signed.
      unfold Int32.max_signed in *. destruct b; lia. }
    rewrite Hr, IH; destruct b; lia.
Qed.

Lemma reduce_min_le l x : In x l -> Tf.reduce_min l <= x.
Proof.
  unfold Tf.reduce_min. induction l as [|y l IH]; [intros []|].
  intros [->|Hin]; cbn [fold_right]; [lia|]. specialize (IH Hin). lia.
Qed.

Lemma reduce_min_in l :
  l <> [] -> Forall (fun x => x <= Int32.max_signed) l ->
  In (Tf.reduce_min l) l.
Proof.
  unfold Tf.reduce_min. induction l as [|y l IH]; [congruence|].
  intros _ Hall. inversion Hall as [|? ? Hy Hl]; subst.
  cbn [fold_right]. destruct l as [|z l'].
  - cbn [fold_right]. left. lia.
  - destruct (Z.min_spec y (fold_right Z.min Int32.max_signed (z :: l')))
      as [[_ ->]|[_ ->]]; [now left|right; apply IH; [congruence|assumption]].
Qed.

Lemma row_lengths_counts (mask : Tensor2 bool) :
  wf mask -> Z.of_nat (dim1 mask) <= Int32.max_signed ->
  Tf.reduce_sum_last (Tf.cast_int32 mask) = map count_true (rows mask).
Proof.
  intros Hwf Hmax. unfold Tf.reduce_sum_last, Tf.cast_int32, map2d.
  cbn [rows]. rewrite map_map. apply map_ext_in. intros r Hr.
  rewrite row_sum_count; [lia|lia|].
  unfold wf in Hwf. rewrite Forall_forall in Hwf.
  rewrite (Hwf r); [lia|]. now apply list_elem_of_In.
Qed.

Lemma start_index_minimum (mask : Tensor2 bool) :
  wf mask -> Z.of_nat (dim1 mask) <= Int32.max_signed -> rows mask <> [] ->
  is_minimum (start_index mask) (map count_true (rows mask)).
Proof.
  intros Hwf Hmax Hne. unfold start_index.
  rewrite row_lengths_counts by assumption. split.
  - apply reduce_min_in.
    + destruct (rows mask); [congruence|discriminate].
    + rewrite Forall_forall. intros x Hx.
      apply list_elem_of_In, in_map_iff in Hx. destruct Hx as (r & <- & Hr).
      pose proof (count_true_bounds r) as Hb.
      unfold wf in Hwf. rewrite Forall_forall in Hwf.
      rewrite (Hwf r) in Hb; [lia|]. now apply list_elem_of_In.
  - rewrite Forall_forall. intros x Hx. apply reduce_min_le.
    now apply list_elem_of_In.
Qed.

(** ** Running computations *)

Section MonadFacts.
Context {B : Backbone}.

Lemma bind_Ok {A C} (m : G A) (k : A -> G C) h c h' :
  bind m k h = Ok (c, h') ->
  exists a h1, m h = Ok (a, h1) /\ k a h1 = Ok (c, h').
Proof.
  unfold bind. destruct (m h) as [[a h1]|e]; [|discriminate].
  intros H. now exists a, h1.
Qed.

Lemma lift_Ok {A} (r : Result A) h a h' :
  lift r h = Ok (a, h') -> r = Ok a /\ h' = h.
Proof.
  unfold lift. destruct r; [|discriminate]. intros H. now inversion H.
Qed.

Lemma ret_Ok {A} (a : A) h a' h' : ret a h = Ok (a', h') -> a' = a /\ h' = h.
Proof. unfold ret. intros H. now inversion H. Qed.

Lemma rbind_Ok {A C} (r : Result A) (k : A -> Result C) c :
  rbind r k = Ok c -> exists a, r = Ok a /\ k a = Ok c.
Proof. destruct r; [|discriminate]. intros H. now eexists. Qed.

End MonadFacts.

(** ** The output padding mask, row by row *)

Lemma same_shape_map2d {A A' C C'} (f : A -> A') (g : C -> C') a b :
  same_shape (map2d f a) (map2d g b) = same_shape a b.
Proof. unfold same_shape, dim0, map2d. cbn. now rewrite !length_map. Qed.

Lemma end_row_unfold e r m :
  zip_with andb (map (fun z => z =? e) r) (map negb m) = end_row e r m.
Proof.
  unfold end_row. revert m. induction r as [|t r IH]; intros [|k m];
    cbn; [reflexivity..|]. now rewrite IH.
Qed.

Lemma output_rows e ids mask out :
  output_padding_mask (Some e) ids mask = Ok out ->
  same_shape ids mask = true /\ dim1 out = dim1 ids /\
  rows out = zip_with (out_row e) (rows ids) (rows mask).
Proof.
  unfold output_padding_mask, Tf.logical_and, Tf.equal_scalar, Tf.logical_not.
  rewrite same_shape_map2d.
  unfold Tf.cast_int32, Tf.cast_bool, Tf.cumsum_exclusive, map2d.
  destruct (same_shape ids mask); [|discriminate].
  cbn [rbind rows dim1]. intros H. inversion H; subst; clear H.
  cbn [rows dim1]. repeat split.
  generalize (rows mask). induction (rows ids) as [|r rs IH]; intros [|m ms];
    cbn; [reflexivity..|].
  rewrite IH. f_equal. unfold out_row. now rewrite end_row_unfold.
Qed.

Lemma output_padding_mask_total e ids mask :
  same_shape ids mask = true ->
  exists out, output_padding_mask e ids mask = Ok out.
Proof.
  intros Hs. destruct e as [e|]; [|now eexists].
  unfold output_padding_mask, Tf.logical_and, Tf.equal_scalar, Tf.logical_not.
  rewrite same_shape_map2d, Hs. now eexists.
Qed.

Lemma length_cumsum acc l :
  length (Tf.cumsum_exclusive_from acc l) = length l.
Proof.
  revert acc. induction l as [|x l IH]; intros acc; cbn; [|rewrite IH];
    reflexivity.
Qed.

(** Without wrap-around, entry [p] of the exclusive running sum counts
    the end locations strictly before [p]. *)
Lemma cumsum_lookup (bs : list bool) acc (p : nat) :
  0 <= acc -> acc + Z.of_nat (length bs) <= Int32.max_signed ->
  (p < length bs)%nat ->
  Tf.cumsum_exclusive_from acc (map (fun b : bool => if b then 1 else 0) bs)
    !! p = Some (acc + count_true (take p bs)).
Proof.
  revert acc p. induction bs as [|b bs IH]; intros acc p H0 Hmax Hp;
    cbn [length] in *; [lia|].
  destruct p as [|p]; cbn [map Tf.cumsum_exclusive_from take].
  - cbn. unfold count_true. cbn. f_equal. lia.
  - change ((?x :: ?l) !! S p) with (l !! p).
    assert (Hr : Int32.add acc (if b then 1 else 0)
                 = acc + (if b then 1 else 0)).
    { apply Int32_add_small. unfold Int32.in_range, Int32.min_signed.
      unfold Int32.max_signed in *. destruct b; lia. }
    rewrite Hr, IH, count_true_cons; [f_equal; lia|destruct b; lia..].
Qed.

Lemma count_true_zero l :
  count_true l = 0 <-> (forall q : nat, l !! q = Some true -> False).
Proof.
  induction l as [|b l IH].
  - split; [intros _ q Hq; discriminate|reflexivity].
  - rewrite count_true_cons. pose proof (count_true_bounds l) as Hb. split.
    + intros H [|q] Hq.
      * cbn in Hq. inversion Hq; subst. lia.
      * apply (proj1 IH) with q; [destruct b; lia|exact Hq].
    + intros H. destruct b; [exfalso; now apply (H 0%nat)|].
      assert (count_true l = 0) as ->; [|lia].
      apply IH. intros q Hq. now apply (H (S q)).
Qed.

Lemma out_row_lookup e r m (p : nat) :
  Z.of_nat (length (end_row e r m)) <= Int32.max_signed ->
  (p < length (end_row e r m))%nat ->
  out_row e r m !! p = Some (count_true (take p (end_row e r m)) =? 0).
Proof.
  intros Hmax Hp. unfold out_row.
  change (map negb ?l) with (negb <$> l).
  change (map (fun z => negb (z =? 0)) ?l) with ((fun z => negb (z =? 0)) <$> l).
  rewrite !list_lookup_fmap, cumsum_lookup by lia.
  cbn. now rewrite negb_involutive.
Qed.

Lemma length_out_row e r m : length (out_row e r m) = length (end_row e r m).
Proof. unfold out_row. now rewrite !length_map, length_cumsum, length_map. Qed.

Lemma end_row_true e r m (q : nat) :
  end_row e r m !! q = Some true <-> r !! q = Some e /\ m !! q = Some false.
Proof.
  unfold end_row. rewrite lookup_zip_with_Some. split.
  - intros (t & k & Heq & Ht & Hk). symmetry in Heq.
    apply andb_true_iff in Heq as [He Hn].
    apply Z.eqb_eq in He. apply negb_true_iff in Hn. now subst.
  - intros [Ht Hk]. exists e, false. rewrite Z.eqb_refl. auto.
Qed.

Lemma length_end_row e r m :
  length (end_row e r m) = Nat.min (length r) (length m).
Proof. unfold end_row. apply length_zip_with. Qed.

(** A position of the mask row is [true] exactly when no end location
    lies strictly before it. *)
Lemma out_row_true e r m (p : nat) :
  Z.of_nat (length (end_row e r m)) <= Int32.max_signed ->
  (p < length (end_row e r m))%nat ->
  (forall q : nat, (q < p)%nat ->
     ~ (r !! q = Some e /\ m !! q = Some false)) ->
  out_row e r m !! p = Some true.
Proof.
  intros Hmax Hp Hno. rewrite out_row_lookup by assumption. f_equal.
  apply Z.eqb_eq, count_true_zero. intros q Hq.
  apply lookup_take_Some in Hq as [Hq Hlt].
  apply (Hno q Hlt). now apply end_row_true.
Qed.

Lemma out_row_false e r m (p f : nat) :
  Z.of_nat (length (end_row e r m)) <= Int32.max_signed ->
  (p < length (end_row e r m))%nat -> (f < p)%nat ->
  r !! f = Some e -> m !! f = Some false ->
  out_row e r m !! p = Some false.
Proof.
  intros Hmax Hp Hf Hr Hm. rewrite out_row_lookup by assumption. f_equal.
  apply Z.eqb_neq. intros H0. rewrite count_true_zero in H0.
  apply (H0 f). apply lookup_take_Some. split; [|exact Hf].
  now apply end_row_true.
Qed.

Lemma out_row_monotonic e r m :
  Z.of_nat (length (end_row e r m)) <= Int32.max_signed ->
  monotonic (out_row e r m).
Proof.
  intros Hmax p q Hpq Hp Hq.
  assert (Hlq : (q < length (end_row e r m))%nat).
  { rewrite <- length_out_row. now apply lookup_lt_Some in Hq. }
  rewrite out_row_lookup in Hp, Hq by lia.
  inversion Hp as [Hp']; inversion Hq as [Hq']; clear Hp Hq.
  apply Z.eqb_neq in Hp'. apply Z.eqb_eq in Hq'. apply Hp'.
  rewrite count_true_zero in *. intros k Hk.
  apply lookup_take_Some in Hk as [Hk Hlt].
  apply (Hq' k). apply lookup_take_Some. split; [exact Hk|lia].
Qed.

(** ** [generate_step], taken apart *)

Section GenerateStepFacts.
Context {B : Backbone}.

Lemma generate_step_Ok (sampler : Sampler) inputs e h out h' :
  generate_step sampler inputs e h = Ok (out, h') ->
  exists batch_size d hs ehs sc cc h1,
    Tf.shape (encoder_token_ids inputs) = Ok (batch_size, d) /\
    _build_cache (encoder_token_ids inputs) (encoder_padding_mask inputs)
      (decoder_token_ids inputs) h = Ok ((hs, ehs, sc, cc), h1) /\
    sampler (next batch_size ehs (encoder_padding_mask inputs) cc)
      (decoder_token_ids inputs) sc
      (start_index (decoder_padding_mask inputs))
      (decoder_padding_mask inputs) e hs h1
    = Ok (out_decoder_token_ids out, h') /\
    output_padding_mask e (out_decoder_token_ids out)
      (decoder_padding_mask inputs)
    = Ok (out_decoder_padding_mask out).
Proof.
  unfold generate_step. intros H.
  apply bind_Ok in H as ([batch_size d] & h0 & Hs & H).
  apply lift_Ok in Hs as [Hs ->].
  apply bind_Ok in H as ([[[hs ehs] sc] cc] & h1 & Hb & H).
  apply bind_Ok in H as (ids & h2 & Hsam & H).
  apply bind_Ok in H as (m & h3 & Hm & H).
  apply lift_Ok in Hm as [Hm ->].
  apply ret_Ok in H as [-> ->]. cbn [out_decoder_token_ids out_decoder_padding_mask].
  now exists batch_size, d, hs, ehs, sc, cc, h1.
Qed.

End GenerateStepFacts.

Section StartIndex.
Context {B : Backbone}.

Lemma is_minimum_unique k k' l : is_minimum k l -> is_minimum k' l -> k = k'.
Proof.
  intros [Hin Hall] [Hin' Hall']. rewrite Forall_forall in Hall, Hall'.
  apply list_elem_of_In in Hin, Hin'.
  specialize (Hall _ Hin'). specialize (Hall' _ Hin). cbn beta in *. lia.
Qed.

(** C2.  The index [generate_step] hands to the sampler is the minimum,
    over the rows of the decoder padding mask, of the number of [true]
    entries of the row: with [k] that minimum, [generate_step] is the
    seeding of the caches, then the one call of the sampler at index [k]
    on the prompt, the mask and the seeded cache, then the mask stage on
    what the sampler returned.  For two rows with 2 and 4 known tokens
    the index is 2. *)
Theorem generate_step_start_index
    (sampler : Sampler) (inputs : Inputs) e h (k : Z) :
  wf (decoder_padding_mask inputs) ->
  Z.of_nat (dim1 (decoder_padding_mask inputs)) <= Int32.max_signed ->
  is_minimum k (map count_true (rows (decoder_padding_mask inputs))) ->
  generate_step sampler inputs e h
  = match Tf.shape (encoder_token_ids inputs) with
    | Ok (batch_size, _) =>
      match _build_cache (encoder_token_ids inputs)
              (encoder_padding_mask inputs) (decoder_token_ids inputs) h with
      | Ok ((hidden_states, encoder_hidden_states, self_attention_cache,
             cross_attention_cache), h1) =>
        match sampler
                (next batch_size encoder_hidden_states
                   (encoder_padding_mask inputs) cross_attention_cache)
                (decoder_token_ids inputs) self_attention_cache k
                (decoder_padding_mask inputs) e hidden_states h1 with
        | Ok (ids, h2) =>
          match output_padding_mask e ids (decoder_padding_mask inputs) with
          | Ok m =>
            Ok ({| out_decoder_token_ids := ids;
                   out_decoder_padding_mask := m |}, h2)
          | Raise x => Raise x
          end
        | Raise x => Raise x
        end
      | Raise x => Raise x
      end
    | Raise x => Raise x
    end
  /\
  (forall r1 r2,
      rows (decoder_padding_mask inputs) = [r1; r2] ->
      count_true r1 = 2 -> count_true r2 = 4 -> k = 2).
Proof.
  intros Hwf Hmax Hk.
  assert (Hne : rows (decoder_padding_mask inputs) <> []).
  { destruct Hk as [Hin _]. intros Hnil. rewrite Hnil in Hin. exact Hin. }
  pose proof (start_index_minimum _ Hwf Hmax Hne) as Hmin.
  pose proof (is_minimum_unique _ _ _ Hmin Hk) as Hidx.
  split.
  - rewrite <- Hidx. unfold generate_step, bind at 1.
    destruct (Tf.shape (encoder_token_ids inputs)) as [[batch_size d]|x];
      [|reflexivity].
    cbn [lift]. unfold bind at 1.
    destruct (_build_cache _ _ _ h) as [[[[[hs ehs] sc] cc] h1]|x];
      [|reflexivity].
    unfold bind at 1.
    destruct (sampler _ _ _ _ _ _ _ h1) as [[ids h2]|x]; [|reflexivity].
    unfold bind at 1.
    destruct (output_padding_mask e ids (decoder_padding_mask inputs))
      as [m|x]; reflexivity.
  - intros r1 r2 Hrows H1 H2. destruct Hk as [Hin Hall].
    rewrite Hrows in Hin, Hall. cbn [map] in Hin, Hall. rewrite H1, H2 in *.
    inversion Hall as [|? ? Hle _]; subst.
    destruct Hin as [<-|[Hin|[]]]; [reflexivity|lia].
Qed.

End StartIndex.

(** The batch of [Symbolic.demo_inputs], known prefixes of 2 and 4, under
    a sampler that reports the index it was handed as the one token of
    its result. *)
Lemma generate_step_start_index_witness :
  is_minimum 2
    (map count_true (rows (decoder_padding_mask Symbolic.demo_inputs))) /\
  @generate_step Symbolic.bart
    (fun _ _ _ index _ _ _ => ret (T2 1 [[index]])) Symbolic.demo_inputs None []
  = Ok ({| out_decoder_token_ids := T2 1 [[2]];
           out_decoder_padding_mask := T2 1 [[true]] |},
        [EncoderPass (encoder_token_ids Symbolic.demo_inputs)
           (encoder_padding_mask Symbolic.demo_inputs);
         DecoderPass
           (seed_call (encoder_token_ids Symbolic.demo_inputs)
              (encoder_padding_mask Symbolic.demo_inputs)
              (decoder_token_ids Symbolic.demo_inputs))]).
Proof.
  assert (Hk : is_minimum 2
                 (map count_true
                    (rows (decoder_padding_mask Symbolic.demo_inputs)))).
  { split; [left; reflexivity|]. repeat constructor; vm_compute; discriminate. }
  split; [exact Hk|].
  destruct (@generate_step_start_index Symbolic.bart
              (fun _ _ _ index _ _ _ => ret (T2 1 [[index]]))
              Symbolic.demo_inputs None [] 2) as [Hrun _].
  - repeat constructor.
  - vm_compute. discriminate.
  - exact Hk.
  - rewrite Hrun. reflexivity.
Defined.

Section OutputMask.
Context {B : Backbone}.

Lemma wf_row {A} (t : Tensor2 A) i r :
  wf t -> rows t !! i = Some r -> length r = dim1 t.
Proof.
  unfold wf. rewrite Forall_forall. intros Hwf Hr. apply Hwf.
  now apply list_elem_of_lookup_2 in Hr.
Qed.

(** C3.  With an end token configured, the padding mask [generate_step]
    returns is [true] at every position up to and including the first
    position that holds the end token outside the original prompt, and
    [false] at every later position, whatever token is stored there.  A
    row without such a position is [true] throughout. *)
Theorem generate_step_mask_end_token (sampler : Sampler) inputs e h out h' :
  generate_step sampler inputs (Some e) h = Ok (out, h') ->
  wf (decoder_padding_mask inputs) ->
  wf (out_decoder_token_ids out) ->
  Z.of_nat (dim1 (decoder_padding_mask inputs)) <= Int32.max_signed ->
  same_shape (out_decoder_padding_mask out) (out_decoder_token_ids out) = true
  /\
  (forall i f,
     first_end_location e (out_decoder_token_ids out)
       (decoder_padding_mask inputs) i f ->
     (forall p, (p <= f)%nat ->
        entry (out_decoder_padding_mask out) i p = Some true) /\
     (forall p, (f < p < dim1 (decoder_padding_mask inputs))%nat ->
        entry (out_decoder_padding_mask out) i p = Some false))
  /\
  (forall i,
     (i < dim0 (decoder_padding_mask inputs))%nat ->
     (forall q, ~ end_location e (out_decoder_token_ids out)
                   (decoder_padding_mask inputs) i q) ->
     forall p, (p < dim1 (decoder_padding_mask inputs))%nat ->
       entry (out_decoder_padding_mask out) i p = Some true).
Proof.
  intros Hgen Hwfm Hwfi Hmax.
  apply generate_step_Ok in Hgen
    as (bs & d & hs & ehs & sc & cc & h1 & _ & _ & _ & Hout).
  set (ids := out_decoder_token_ids out) in *.
  set (mask := decoder_padding_mask inputs) in *.
  set (om := out_decoder_padding_mask out) in *.
  apply output_rows in Hout as (Hshape & Hdim & Hrows).
  pose proof Hshape as Hshape'.
  unfold same_shape in Hshape'. apply andb_true_iff in Hshape' as [Hd0 Hd1].
  apply Nat.eqb_eq in Hd0, Hd1.
  assert (Hrow : forall i r m,
             rows ids !! i = Some r -> rows mask !! i = Some m ->
             rows om !! i = Some (out_row e r m) /\
             length (end_row e r m) = dim1 mask).
  { intros i r m Hr Hm. split.
    - rewrite Hrows. apply lookup_zip_with_Some. now exists r, m.
    - rewrite length_end_row, (wf_row ids i r), (wf_row mask i m) by assumption.
      lia. }
  split; [|split].
  - unfold same_shape, dim0. rewrite Hrows, length_zip_with, Hdim.
    fold (dim0 ids) (dim0 mask). rewrite Hd0, Nat.min_id, !Nat.eqb_refl.
    reflexivity.
  - intros i f [[Hi Hm] Hfirst]. unfold entry in Hi, Hm.
    destruct (rows ids !! i) as [r|] eqn:Hr; [|discriminate].
    destruct (rows mask !! i) as [m|] eqn:Hmr; [|discriminate].
    destruct (Hrow i r m Hr Hmr) as [Hom Hlen].
    assert (Hf : (f < dim1 mask)%nat).
    { rewrite <- (wf_row mask i m) by assumption.
      now apply lookup_lt_Some in Hm. }
    unfold entry. rewrite Hom. split; intros p Hp.
    + apply out_row_true; [lia|lia|]. intros q Hq Hend.
      apply (Hfirst q); [lia|]. unfold end_location, entry.
      now rewrite Hr, Hmr.
    + apply out_row_false with f; [lia|lia|lia|assumption..].
  - intros i Hi Hno p Hp. unfold dim0 in Hi.
    destruct (lookup_lt_is_Some_2 (rows mask) i Hi) as [m Hmr].
    assert (Hi' : (i < length (rows ids))%nat).
    { fold (dim0 ids). rewrite Hd0. exact Hi. }
    destruct (lookup_lt_is_Some_2 (rows ids) i Hi') as [r Hr].
    destruct (Hrow i r m Hr Hmr) as [Hom Hlen].
    unfold entry. rewrite Hom. apply out_row_true; [lia|lia|].
    intros q _ Hend. apply (Hno q). unfold end_location, entry.
    now rewrite Hr, Hmr.
Qed.

(** C4.  Every row of the padding mask [generate_step] returns is
    monotonic, with or without an end token: once [false] at a position,
    it is [false] at every later position. *)
Theorem generate_step_mask_monotonic (sampler : Sampler) inputs e h out h' :
  generate_step sampler inputs e h = Ok (out, h') ->
  wf (decoder_padding_mask inputs) ->
  Z.of_nat (dim1 (decoder_padding_mask inputs)) <= Int32.max_signed ->
  forall row, In row (rows (out_decoder_padding_mask out)) -> monotonic row.
Proof.
  intros Hgen Hwfm Hmax row Hin.
  apply generate_step_Ok in Hgen
    as (bs & d & hs & ehs & sc & cc & h1 & _ & _ & _ & Hout).
  destruct e as [e|].
  - apply output_rows in Hout as (_ & _ & Hrows). rewrite Hrows in Hin.
    apply list_elem_of_In, list_elem_of_lookup in Hin as [i Hi].
    apply lookup_zip_with_Some in Hi as (r & m & -> & Hr & Hm).
    apply out_row_monotonic. rewrite length_end_row.
    rewrite (wf_row _ i m Hwfm Hm). lia.
  - cbn in Hout. inversion Hout as [Hout']. rewrite <- Hout' in Hin.
    unfold Tf.ones_like_bool, map2d in Hin. cbn [rows] in Hin.
    apply in_map_iff in Hin as (r & <- & _). intros p q _ Hp _.
    change (map ?f r) with (f <$> r) in Hp. rewrite list_lookup_fmap in Hp.
    destruct (r !! p); discriminate.
Qed.

End OutputMask.

(** The run [Symbolic.demo_run]: row 0 produces the end token at
    position 2, row 1 at position 4. *)
Lemma generate_step_mask_end_token_witness :
  @generate_step Symbolic.bart (spec_sampler Symbolic.pick7)
    Symbolic.demo_inputs (Some 7) []
  = Ok (Symbolic.demo_outputs, Symbolic.demo_history) /\
  first_end_location 7 (out_decoder_token_ids Symbolic.demo_outputs)
    (decoder_padding_mask Symbolic.demo_inputs) 0 2 /\
  entry (out_decoder_padding_mask Symbolic.demo_outputs) 0 2 = Some true /\
  entry (out_decoder_padding_mask Symbolic.demo_outputs) 0 3 = Some false.
Proof.
  assert (Hrun : @generate_step Symbolic.bart (spec_sampler Symbolic.pick7)
                   Symbolic.demo_inputs (Some 7) []
                 = Ok (Symbolic.demo_outputs, Symbolic.demo_history))
    by (vm_compute; reflexivity).
  assert (Hfirst : first_end_location 7
                     (out_decoder_token_ids Symbolic.demo_outputs)
                     (decoder_padding_mask Symbolic.demo_inputs) 0 2).
  { split; [split; reflexivity|].
    intros [|[|q]] Hq [H1 H2]; [discriminate H2|discriminate H2|lia]. }
  destruct (@generate_step_mask_end_token Symbolic.bart
              (spec_sampler Symbolic.pick7) Symbolic.demo_inputs 7 []
              Symbolic.demo_outputs Symbolic.demo_history Hrun)
    as (_ & Hrows & _).
  - repeat constructor.
  - repeat constructor.
  - vm_compute. discriminate.
  - destruct (Hrows 0%nat 2%nat Hfirst) as [Hle Hgt].
    split; [exact Hrun|]. split; [exact Hfirst|]. split.
    + apply Hle. lia.
    + apply Hgt. cbn. lia.
Defined.

Lemma generate_step_mask_monotonic_witness :
  @generate_step Symbolic.bart (spec_sampler Symbolic.pick7)
    Symbolic.demo_inputs (Some 7) []
  = Ok (Symbolic.demo_outputs, Symbolic.demo_history) /\
  monotonic [true; true; true; false; false].
Proof.
  assert (Hrun : @generate_step Symbolic.bart (spec_sampler Symbolic.pick7)
                   Symbolic.demo_inputs (Some 7) []
                 = Ok (Symbolic.demo_outputs, Symbolic.demo_history))
    by (vm_compute; reflexivity).
  split; [exact Hrun|].
  apply (@generate_step_mask_monotonic Symbolic.bart
           (spec_sampler Symbolic.pick7) Symbolic.demo_inputs (Some 7) []
           Symbolic.demo_outputs Symbolic.demo_history Hrun).
  - repeat constructor.
  - vm_compute. discriminate.
  - left. reflexivity.
Defined.

(** ** The decoder forward pass *)

Section DecoderFacts.
Context {B : Backbone}.

Lemma decoder_layer_step_Ok ehs m si ci x scs ccs i :
  (i < length scs)%nat -> (i < length ccs)%nat ->
  exists x' scs' ccs',
    decoder_layer_step ehs m si ci (x, scs, ccs) i = Ok (x', scs', ccs') /\
    length scs' = length scs /\ length ccs' = length ccs.
Proof.
  intros Hs Hc. unfold decoder_layer_step.
  destruct (lookup_lt_is_Some_2 scs i Hs) as [s ->].
  destruct (lookup_lt_is_Some_2 ccs i Hc) as [c ->].
  destruct (transformer_decoder_layer i x ehs m s si c ci) as [[x' ns] nc].
  eexists _, _, _. split; [reflexivity|].
  split; [destruct si|destruct ci]; now rewrite ?length_insert.
Qed.

Lemma for_each_layers_Ok ehs m si ci l x scs ccs :
  Forall (fun i => (i < length scs)%nat /\ (i < length ccs)%nat) l ->
  exists x' scs' ccs',
    for_each (decoder_layer_step ehs m si ci) l (x, scs, ccs)
    = Ok (x', scs', ccs') /\
    length scs' = length scs /\ length ccs' = length ccs.
Proof.
  revert x scs ccs. induction l as [|i l IH]; intros x scs ccs Hall.
  - now exists x, scs, ccs.
  - inversion Hall as [|? ? [Hs Hc] Hl]; subst. cbn [for_each].
    destruct (decoder_layer_step_Ok ehs m si ci x scs ccs i Hs Hc)
      as (x1 & scs1 & ccs1 & -> & Hls & Hlc).
    cbn [rbind]. destruct (IH x1 scs1 ccs1) as (x' & scs' & ccs' & -> & ? & ?).
    + rewrite Hls, Hlc. exact Hl.
    + exists x', scs', ccs'. repeat split; congruence.
Qed.

(** The forward pass succeeds when both caches hold a slot for every
    decoder layer; a cache that is updated comes back as a stack of as
    many slots, one that is not comes back as it was. *)
Lemma decoder_forward_total (c : DecoderCall) :
  (num_layers <= length (tf_unstack1 (dc_self_attention_cache c)))%nat ->
  (num_layers <= length (tf_unstack1 (dc_cross_attention_cache c)))%nat ->
  exists lg hs sc cc, decoder_forward c = Ok (lg, hs, sc, cc) /\
    (forall i, dc_self_attention_cache_update_index c = Some i ->
       exists l, sc = tf_stack1 l /\
         length l = length (tf_unstack1 (dc_self_attention_cache c))) /\
    (dc_self_attention_cache_update_index c = None ->
       sc = dc_self_attention_cache c) /\
    (forall i, dc_cross_attention_cache_update_index c = Some i ->
       exists l, cc = tf_stack1 l /\
         length l = length (tf_unstack1 (dc_cross_attention_cache c))) /\
    (dc_cross_attention_cache_update_index c = None ->
       cc = dc_cross_attention_cache c).
Proof.
  intros Hs Hc. unfold decoder_forward.
  match goal with
  | |- context [for_each ?f ?l (?x, ?a, ?b)] =>
    destruct (for_each_layers_Ok (dc_encoder_hidden_states c)
                (dc_encoder_padding_mask c)
                (dc_self_attention_cache_update_index c)
                (dc_cross_attention_cache_update_index c) l x a b)
      as (x' & scs' & ccs' & -> & Hls & Hlc)
  end.
  - rewrite Forall_forall. intros i Hi.
    apply list_elem_of_In, in_seq in Hi. lia.
  - cbn [rbind]. eexists _, _, _, _. split; [reflexivity|].
    repeat split.
    + intros i ->. now exists scs'.
    + now intros ->.
    + intros i ->. now exists ccs'.
    + now intros ->.
Qed.

Lemma call_decoder_with_cache_run ehs m ids sc si cc ci h :
  call_decoder_with_cache ehs m ids sc si cc ci h
  = match decoder_forward
            {| dc_encoder_hidden_states := ehs;
               dc_encoder_padding_mask := m;
               dc_decoder_token_ids := ids;
               dc_self_attention_cache := sc;
               dc_self_attention_cache_update_index := si;
               dc_cross_attention_cache := cc;
               dc_cross_attention_cache_update_index := ci |} with
    | Ok r =>
      Ok (r, h ++ [DecoderPass
                     {| dc_encoder_hidden_states := ehs;
                        dc_encoder_padding_mask := m;
                        dc_decoder_token_ids := ids;
                        dc_self_attention_cache := sc;
                        dc_self_attention_cache_update_index := si;
                        dc_cross_attention_cache := cc;
                        dc_cross_attention_cache_update_index := ci |}])
    | Raise e => Raise e
    end.
Proof. reflexivity. Qed.

End DecoderFacts.

(** ** [call_decoder_with_cache] over layers that hold state *)

Section StatefulFacts.
Context {B : Backbone} {LayerState : Type}.

Local Abbreviation M := (Stateful.M LayerState).
Local Abbreviation frame := Stateful.frame.








Lemma inference_layers_read_only :
  Stateful.read_only (Stateful.inference_layers B LayerState).
Proof. constructor; intros; intros s; reflexivity. Qed.

Lemma for_each_inference ehs m si ci l st (s : LayerState) :
  Stateful.for_each
    (Stateful.decoder_layer_step (Stateful.inference_layers B LayerState)
       ehs m si ci) l st s
  = (for_each (decoder_layer_step ehs m si ci) l st, s).
Proof.
  revert st. induction l as [|i l IH]; intros st; [reflexivity|].
  cbn [Stateful.for_each for_each]. unfold Stateful.bind at 1.
  destruct st as [[x sacs] cacs].
  unfold Stateful.decoder_layer_step at 1, decoder_layer_step at 1.
  destruct (sacs !! i) as [cs|]; [|reflexivity].
  destruct (cacs !! i) as [cc|]; [|reflexivity].
  cbn [Stateful.inference_layers Stateful.layer_transformer_decoder_layer].
  unfold Stateful.bind at 1, Stateful.ret at 1.
  destruct (transformer_decoder_layer i x ehs m cs si cc ci)
    as [[x' ns] nc].
  unfold Stateful.ret at 1. cbn [rbind]. apply IH.
Qed.

(** Over the layers of a backbone of the interface, the pass is the
    forward pass [decoder_forward] and the state is not touched. *)
Lemma call_decoder_with_cache_inference (c : DecoderCall) (s : LayerState) :
  Stateful.call_decoder_with_cache (Stateful.inference_layers B LayerState) c s
  = (decoder_forward c, s).
Proof.
  unfold Stateful.call_decoder_with_cache, decoder_forward.
  cbn [Stateful.inference_layers Stateful.layer_token_embedding
       Stateful.layer_decoder_position_embedding
       Stateful.layer_decoder_embeddings_add
       Stateful.layer_decoder_embeddings_layer_norm
       Stateful.layer_decoder_embeddings_dropout
       Stateful.layer_token_embedding_embeddings].
  unfold Stateful.bind, Stateful.ret, Stateful.read.
  rewrite for_each_inference.
  destruct (for_each _ _ _) as [[[x sacs] cacs]|e]; reflexivity.
Qed.


End StatefulFacts.


(** The hypothesis on the layers is needed: when the embedding dropout
    draws its mask from a seed that it moves on, the pass leaves another
    state than it found, and the same invocation made again returns other
    hidden states. *)
Lemma training_dropout_not_repeatable :
  snd (Stateful.call_decoder_with_cache training_layers demo_step 0) = 1 /\
  fst (Stateful.call_decoder_with_cache training_layers demo_step
         (snd (Stateful.call_decoder_with_cache training_layers demo_step 0)))
  <> fst (Stateful.call_decoder_with_cache training_layers demo_step 0).
Proof. split; [reflexivity|]. vm_compute. intros H. discriminate H. Qed.

(** ** The [next] closure *)

Section NextFacts.
Context {B : Backbone}.

Lemma slice_column_shape {A} (t w : Tensor2 A) j :
  Tf.slice_column t j = Ok w -> dim0 w = dim0 t /\ dim1 w = 1%nat.
Proof.
  unfold Tf.slice_column. destruct (_ && _); [|discriminate].
  intros H. inversion H. unfold dim0. cbn. now rewrite length_map.
Qed.

Lemma shape_Ok {A} (t : Tensor2 A) n d :
  Tf.shape t = Ok (n, d) -> n = Z.of_nat (dim0 t) /\ d = Z.of_nat (dim1 t).
Proof.
  unfold Tf.shape. destruct (_ && _); [|discriminate].
  intros H. now inversion H.
Qed.

Lemma shape_fits {A} (t : Tensor2 A) :
  Z.of_nat (dim0 t) <= Int32.max_signed ->
  Z.of_nat (dim1 t) <= Int32.max_signed ->
  Tf.shape t = Ok (Z.of_nat (dim0 t), Z.of_nat (dim1 t)).
Proof.
  intros H0 H1. unfold Tf.shape.
  assert (Int32.fits (Z.of_nat (dim0 t)) = true) as ->.
  { apply Int32_fits_in_range. unfold Int32.in_range, Int32.min_signed. lia. }
  assert (Int32.fits (Z.of_nat (dim1 t)) = true) as ->.
  { apply Int32_fits_in_range. unfold Int32.in_range, Int32.min_signed. lia. }
  reflexivity.
Qed.

(** What a returning call of [next] has done. *)
Lemma next_Ok bs ehs m cc prompt cache index r h h' :
  next bs ehs m cc prompt cache index h = Ok (r, h') ->
  exists w ehs' m' cc' lg hs c' cco,
    Tf.slice_column prompt (Int32.sub index 1) = Ok w /\
    repeat_tensor (Z.of_nat (dim0 prompt)) bs ehs = Ok ehs' /\
    repeat_tensor_mask (Z.of_nat (dim0 prompt)) bs m = Ok m' /\
    repeat_tensor (Z.of_nat (dim0 prompt)) bs cc = Ok cc' /\
    decoder_forward (step_call ehs' m' w cache (Int32.sub index 1) cc')
    = Ok (lg, hs, c', cco) /\
    r = (tf_squeeze1 lg, tf_squeeze1 hs, c') /\
    h' = h ++ [DecoderPass
                 (step_call ehs' m' w cache (Int32.sub index 1) cc')].
Proof.
  unfold next. intros H.
  apply bind_Ok in H as (w & h0 & Hw & H). apply lift_Ok in Hw as [Hw ->].
  apply bind_Ok in H as ([n d] & h0 & Hn & H). apply lift_Ok in Hn as [Hn ->].
  apply shape_Ok in Hn as [-> _].
  destruct (slice_column_shape _ _ _ Hw) as [Hd0 _]. rewrite Hd0 in H.
  apply bind_Ok in H as (ehs' & h0 & He & H). apply lift_Ok in He as [He ->].
  apply bind_Ok in H as (m' & h0 & Hm & H). apply lift_Ok in Hm as [Hm ->].
  apply bind_Ok in H as (cc' & h0 & Hc & H). apply lift_Ok in Hc as [Hc ->].
  apply bind_Ok in H as ([[[lg hs] c'] cco] & h0 & Hd & H).
  apply ret_Ok in H as [-> ->].
  rewrite call_decoder_with_cache_run in Hd.
  fold (step_call ehs' m' w cache (Int32.sub index 1) cc') in Hd.
  destruct (decoder_forward _) as [r0|] eqn:Hf; [|discriminate].
  inversion Hd; subst. now exists w, ehs', m', cc', lg, hs, c', cco.
Qed.

(** The outcome of [next] once its slice and its three [repeat_tensor]
    calls are known to succeed. *)
Lemma next_run bs ehs m cc prompt cache index h w ehs' m' cc' :
  Tf.slice_column prompt (Int32.sub index 1) = Ok w ->
  Z.of_nat (dim0 prompt) <= Int32.max_signed ->
  repeat_tensor (Z.of_nat (dim0 prompt)) bs ehs = Ok ehs' ->
  repeat_tensor_mask (Z.of_nat (dim0 prompt)) bs m = Ok m' ->
  repeat_tensor (Z.of_nat (dim0 prompt)) bs cc = Ok cc' ->
  next bs ehs m cc prompt cache index h
  = match decoder_forward
            (step_call ehs' m' w cache (Int32.sub index 1) cc') with
    | Ok (logits, hidden_states, cache', _) =>
      Ok ((tf_squeeze1 logits, tf_squeeze1 hidden_states, cache'),
          h ++ [DecoderPass
                  (step_call ehs' m' w cache (Int32.sub index 1) cc')])
    | Raise e => Raise e
    end.
Proof.
  intros Hw Hfit He Hm Hc. unfold next, bind at 1. rewrite Hw. cbn [lift].
  destruct (slice_column_shape _ _ _ Hw) as [Hd0 Hd1].
  unfold bind at 1. rewrite shape_fits; rewrite ?Hd0, ?Hd1; [|lia|vm_compute; discriminate].
  cbn [lift]. unfold bind at 1. rewrite He. cbn [lift].
  unfold bind at 1. rewrite Hm. cbn [lift].
  unfold bind at 1. rewrite Hc. cbn [lift].
  unfold bind at 1. rewrite call_decoder_with_cache_run.
  fold (step_call ehs' m' w cache (Int32.sub index 1) cc').
  destruct (decoder_forward _) as [[[[lg hs] c'] cco]|e]; reflexivity.
Qed.

Lemma slice_column_window (prompt : Tensor2 Z) (j : Z) :
  wf prompt -> 0 <= j < Z.of_nat (dim1 prompt) ->
  exists w, Tf.slice_column prompt j = Ok w /\
            single_token_window prompt (Z.to_nat j) w.
Proof.
  intros Hwf Hj. unfold Tf.slice_column.
  assert ((0 <=? j) && (j + 1 <=? Z.of_nat (dim1 prompt)) = true) as ->.
  { apply andb_true_iff. rewrite !Z.leb_le. lia. }
  eexists. split; [reflexivity|]. unfold single_token_window, dim0.
  cbn [dim1 rows]. rewrite length_map. repeat split.
  intros i Hi. destruct (lookup_lt_is_Some_2 (rows prompt) i Hi) as [r Hr].
  assert (Hlen : length r = dim1 prompt).
  { unfold wf in Hwf. rewrite Forall_forall in Hwf. apply Hwf.
    now apply list_elem_of_lookup_2 in Hr. }
  destruct (lookup_lt_is_Some_2 r (Z.to_nat j)) as [t Ht]; [lia|].
  exists t. unfold entry. rewrite Hr. split; [exact Ht|].
  change (map ?f ?l) with (f <$> l). rewrite list_lookup_fmap, Hr. cbn.
  f_equal. apply list_eq. intros [|k].
  - rewrite lookup_take_lt, lookup_drop by lia.
    rewrite Nat.add_0_r. exact Ht.
  - rewrite lookup_take_ge by lia. reflexivity.
Qed.

(** C1.  An invocation of [next] on a prompt buffer and an index slices
    the one column at position [index - 1], calls
    [call_decoder_with_cache] once on that single-token window with the
    self-attention update index [index - 1] and no cross-attention update
    index, and returns the squeezed logits, the squeezed hidden states and
    the updated self-attention cache. *)
Theorem next_single_token bs ehs m cc prompt cache index h ehs' m' cc' :
  wf prompt ->
  1 <= index <= Z.of_nat (dim1 prompt) ->
  Z.of_nat (dim1 prompt) <= Int32.max_signed ->
  Z.of_nat (dim0 prompt) <= Int32.max_signed ->
  repeat_tensor (Z.of_nat (dim0 prompt)) bs ehs = Ok ehs' ->
  repeat_tensor_mask (Z.of_nat (dim0 prompt)) bs m = Ok m' ->
  repeat_tensor (Z.of_nat (dim0 prompt)) bs cc = Ok cc' ->
  exists w,
    single_token_window prompt (Z.to_nat (index - 1)) w /\
    next bs ehs m cc prompt cache index h
    = match decoder_forward
              {| dc_encoder_hidden_states := ehs';
                 dc_encoder_padding_mask := m';
                 dc_decoder_token_ids := w;
                 dc_self_attention_cache := cache;
                 dc_self_attention_cache_update_index := Some (index - 1);
                 dc_cross_attention_cache := cc';
                 dc_cross_attention_cache_update_index := None |} with
      | Ok (logits, hidden_states, cache', _) =>
        Ok ((tf_squeeze1 logits, tf_squeeze1 hidden_states, cache'),
            h ++ [DecoderPass
                    {| dc_encoder_hidden_states := ehs';
                       dc_encoder_padding_mask := m';
                       dc_decoder_token_ids := w;
                       dc_self_attention_cache := cache;
                       dc_self_attention_cache_update_index :=
                         Some (index - 1);
                       dc_cross_attention_cache := cc';
                       dc_cross_attention_cache_update_index := None |}])
      | Raise e => Raise e
      end.
Proof.
  intros Hwf Hi Hd1 Hd0 He Hm Hc.
  assert (Hsub : Int32.sub index 1 = index - 1).
  { apply Int32_wrap_small. unfold Int32.in_range, Int32.min_signed. lia. }
  destruct (slice_column_window prompt (index - 1) Hwf) as (w & Hw & Hwin);
    [lia|].
  exists w. split; [exact Hwin|].
  rewrite (next_run bs ehs m cc prompt cache index h w ehs' m' cc');
    rewrite ?Hsub; auto.
Qed.

(** C6.  A decoder pass without a cross-attention update index returns
    the cross-attention cache it was given, and one without a
    self-attention update index returns the self-attention cache it was
    given.  Every pass [next] makes has no cross-attention update index,
    reads the cross-attention cache that [generate_step] obtained from
    [_build_cache] (repeated along the batch axis when the sampler has
    widened the batch, the very same tensor otherwise) and drops the
    cross-attention cache the pass returns. *)
Theorem cross_attention_cache_frozen ehs m ids sc si cc ci h :
  match call_decoder_with_cache ehs m ids sc si cc None h with
  | Ok ((_, _, _, cc'), _) => cc' = cc
  | Raise _ => True
  end
  /\
  match call_decoder_with_cache ehs m ids sc None cc ci h with
  | Ok ((_, _, sc', _), _) => sc' = sc
  | Raise _ => True
  end
  /\
  forall bs prompt cache index,
    match next bs ehs m cc prompt cache index h with
    | Ok (_, h') =>
      exists c,
        h' = h ++ [DecoderPass c] /\
        dc_cross_attention_cache_update_index c = None /\
        repeat_tensor (Z.of_nat (dim0 prompt)) bs cc
        = Ok (dc_cross_attention_cache c) /\
        (tf_shape0 cc = Z.of_nat (dim0 prompt) ->
         dc_cross_attention_cache c = cc)
    | Raise _ => True
    end.
Proof.
  split; [|split].
  - rewrite call_decoder_with_cache_run. unfold decoder_forward.
    cbn [dc_cross_attention_cache_update_index dc_cross_attention_cache].
    destruct (for_each _ _ _) as [[[x scs] ccs]|]; cbn [rbind]; auto.
  - rewrite call_decoder_with_cache_run. unfold decoder_forward.
    cbn [dc_self_attention_cache_update_index dc_self_attention_cache].
    destruct (for_each _ _ _) as [[[x scs] ccs]|]; cbn [rbind]; auto.
  - intros bs prompt cache index.
    destruct (next bs ehs m cc prompt cache index h) as [[r h']|] eqn:Hn;
      [|exact I].
    apply next_Ok in Hn
      as (w & ehs' & m' & cc' & lg & hs & c' & cco & _ & _ & _ & Hc & _ & _ & ->).
    eexists. split; [reflexivity|]. cbn. split; [reflexivity|].
    split; [exact Hc|]. intros Hs. unfold repeat_tensor in Hc.
    rewrite Hs, Z.eqb_refl in Hc. now inversion Hc.
Qed.

End NextFacts.

(** The first step on [Symbolic.demo_inputs]: index 2 reads column 1. *)
Lemma next_single_token_witness :
  exists w,
    single_token_window (decoder_token_ids Symbolic.demo_inputs) 1 w /\
    @next Symbolic.bart 2 Symbolic.demo_encoder_hidden_states
      (encoder_padding_mask Symbolic.demo_inputs)
      Symbolic.demo_cross_attention_cache
      (decoder_token_ids Symbolic.demo_inputs) Symbolic.demo_cache 2 []
    = match decoder_forward
              {| dc_encoder_hidden_states :=
                   Symbolic.demo_encoder_hidden_states;
                 dc_encoder_padding_mask :=
                   encoder_padding_mask Symbolic.demo_inputs;
                 dc_decoder_token_ids := w;
                 dc_self_attention_cache := Symbolic.demo_cache;
                 dc_self_attention_cache_update_index := Some (2 - 1);
                 dc_cross_attention_cache :=
                   Symbolic.demo_cross_attention_cache;
                 dc_cross_attention_cache_update_index := None |} with
      | Ok (logits, hidden_states, cache', _) =>
        Ok ((tf_squeeze1 logits, tf_squeeze1 hidden_states, cache'),
            [] ++ [DecoderPass
                     {| dc_encoder_hidden_states :=
                          Symbolic.demo_encoder_hidden_states;
                        dc_encoder_padding_mask :=
                          encoder_padding_mask Symbolic.demo_inputs;
                        dc_decoder_token_ids := w;
                        dc_self_attention_cache := Symbolic.demo_cache;
                        dc_self_attention_cache_update_index :=
                          Some (2 - 1);
                        dc_cross_attention_cache :=
                          Symbolic.demo_cross_attention_cache;
                        dc_cross_attention_cache_update_index := None |}])
      | Raise e => Raise e
      end.
Proof.
  apply (@next_single_token Symbolic.bart 2
           Symbolic.demo_encoder_hidden_states
           (encoder_padding_mask Symbolic.demo_inputs)
           Symbolic.demo_cross_attention_cache
           (decoder_token_ids Symbolic.demo_inputs) Symbolic.demo_cache 2 []
           Symbolic.demo_encoder_hidden_states
           (encoder_padding_mask Symbolic.demo_inputs)
           Symbolic.demo_cross_attention_cache).
  - repeat constructor.
  - cbn. lia.
  - vm_compute. discriminate.
  - vm_compute. discriminate.
  - reflexivity.
  - reflexivity.
  - reflexivity.
Defined.

(** ** Cache construction *)

#[export] Instance symbolic_laws layers heads hidden :
  TfLaws (Symbolic.backbone layers heads hidden).
Proof.
  split.
  - intros b l rest Hl. cbn. apply length_replicate.
  - intros l _. reflexivity.
  - intros n x. cbn. apply length_map.
Qed.

Section BuildCacheFacts.
Context {B : Backbone}.

Lemma initialize_cache_run (enc_ids dec_ids : Tensor2 Z) :
  int32_dims enc_ids -> int32_dims dec_ids -> num_heads <> 0 ->
  _initialize_cache enc_ids dec_ids
  = Ok (tf_zeros [Z.of_nat (dim0 enc_ids); Z.of_nat num_layers; 2;
                  Z.of_nat (dim1 dec_ids); num_heads; hidden_dim / num_heads],
        tf_zeros [Z.of_nat (dim0 enc_ids); Z.of_nat num_layers; 2;
                  Z.of_nat (dim1 enc_ids); num_heads; hidden_dim / num_heads]).
Proof.
  intros [He0 He1] [Hd0 Hd1] Hh. unfold _initialize_cache.
  rewrite !shape_fits by assumption. cbn [rbind].
  unfold py_floordiv. apply Z.eqb_neq in Hh. rewrite Hh. reflexivity.
Qed.

Lemma build_cache_run (enc_ids : Tensor2 Z) enc_mask (dec_ids : Tensor2 Z) h :
  int32_dims enc_ids -> int32_dims dec_ids -> num_heads <> 0 ->
  _build_cache enc_ids enc_mask dec_ids h
  = match decoder_forward (seed_call enc_ids enc_mask dec_ids) with
    | Ok (_, hidden_states, self_attention_cache, cross_attention_cache) =>
      Ok ((hidden_states, encoder_forward enc_ids enc_mask,
           self_attention_cache, cross_attention_cache),
          h ++ [EncoderPass enc_ids enc_mask;
                DecoderPass (seed_call enc_ids enc_mask dec_ids)])
    | Raise e => Raise e
    end.
Proof.
  intros He Hd Hh. unfold _build_cache, bind at 1.
  unfold call_encoder, bind at 1, record, ret.
  unfold bind at 1. rewrite initialize_cache_run by assumption. cbn [lift].
  unfold bind at 1. rewrite call_decoder_with_cache_run.
  fold (seed_call enc_ids enc_mask dec_ids).
  destruct (decoder_forward _) as [[[[lg hs] sc] cc]|e]; [|reflexivity].
  unfold ret. now rewrite <- app_assoc.
Qed.

Lemma seed_call_slots {L : TfLaws B} (enc_ids : Tensor2 Z) enc_mask dec_ids :
  length (tf_unstack1
            (dc_self_attention_cache (seed_call enc_ids enc_mask dec_ids)))
  = num_layers /\
  length (tf_unstack1
            (dc_cross_attention_cache (seed_call enc_ids enc_mask dec_ids)))
  = num_layers.
Proof.
  cbn. rewrite !unstack_zeros by lia. now rewrite Nat2Z.id.
Qed.

(** C5.  [_build_cache] runs the encoder once, allocates the two caches
    as zeros of shape [batch, num_layers, 2, length, num_heads, head_dim]
    (the decoder length for self-attention, the encoder length for
    cross-attention), makes one call of [call_decoder_with_cache] over
    the whole decoder prompt with both update indices [0], and returns
    the hidden states and the two caches of that call together with the
    encoder hidden states. *)
Theorem build_cache_single_pass {L : TfLaws B}
    (enc_ids : Tensor2 Z) enc_mask (dec_ids : Tensor2 Z) h :
  int32_dims enc_ids -> int32_dims dec_ids -> num_heads <> 0 ->
  exists logits hidden_states self_attention_cache cross_attention_cache,
    decoder_forward
      {| dc_encoder_hidden_states := encoder_forward enc_ids enc_mask;
         dc_encoder_padding_mask := enc_mask;
         dc_decoder_token_ids := dec_ids;
         dc_self_attention_cache :=
           tf_zeros [Z.of_nat (dim0 enc_ids); Z.of_nat num_layers; 2;
                     Z.of_nat (dim1 dec_ids); num_heads;
                     hidden_dim / num_heads];
         dc_self_attention_cache_update_index := Some 0;
         dc_cross_attention_cache :=
           tf_zeros [Z.of_nat (dim0 enc_ids); Z.of_nat num_layers; 2;
                     Z.of_nat (dim1 enc_ids); num_heads;
                     hidden_dim / num_heads];
         dc_cross_attention_cache_update_index := Some 0 |}
    = Ok (logits, hidden_states, self_attention_cache,
          cross_attention_cache) /\
    _build_cache enc_ids enc_mask dec_ids h
    = Ok ((hidden_states, encoder_forward enc_ids enc_mask,
           self_attention_cache, cross_attention_cache),
          h ++ [EncoderPass enc_ids enc_mask;
                DecoderPass
                  {| dc_encoder_hidden_states :=
                       encoder_forward enc_ids enc_mask;
                     dc_encoder_padding_mask := enc_mask;
                     dc_decoder_token_ids := dec_ids;
                     dc_self_attention_cache :=
                       tf_zeros [Z.of_nat (dim0 enc_ids);
                                 Z.of_nat num_layers; 2;
                                 Z.of_nat (dim1 dec_ids); num_heads;
                                 hidden_dim / num_heads];
                     dc_self_attention_cache_update_index := Some 0;
                     dc_cross_attention_cache :=
                       tf_zeros [Z.of_nat (dim0 enc_ids);
                                 Z.of_nat num_layers; 2;
                                 Z.of_nat (dim1 enc_ids); num_heads;
                                 hidden_dim / num_heads];
                     dc_cross_attention_cache_update_index := Some 0 |}]).
Proof.
  intros He Hd Hh.
  fold (seed_call enc_ids enc_mask dec_ids).
  destruct (seed_call_slots enc_ids enc_mask dec_ids) as [Hs Hc].
  destruct (decoder_forward_total (seed_call enc_ids enc_mask dec_ids))
    as (lg & hs & sc & cc & Hf & _); [lia..|].
  exists lg, hs, sc, cc. split; [exact Hf|].
  rewrite build_cache_run by assumption. now rewrite Hf.
Qed.

End BuildCacheFacts.

Lemma build_cache_single_pass_witness :
  exists logits hidden_states self_attention_cache cross_attention_cache,
    @decoder_forward Symbolic.bart
      (seed_call (encoder_token_ids Symbolic.demo_inputs)
         (encoder_padding_mask Symbolic.demo_inputs)
         (decoder_token_ids Symbolic.demo_inputs))
    = Ok (logits, hidden_states, self_attention_cache,
          cross_attention_cache) /\
    @_build_cache Symbolic.bart (encoder_token_ids Symbolic.demo_inputs)
      (encoder_padding_mask Symbolic.demo_inputs)
      (decoder_token_ids Symbolic.demo_inputs) []
    = Ok ((hidden_states,
           encoder_forward (encoder_token_ids Symbolic.demo_inputs)
             (encoder_padding_mask Symbolic.demo_inputs),
           self_attention_cache, cross_attention_cache),
          [] ++ [EncoderPass (encoder_token_ids Symbolic.demo_inputs)
                   (encoder_padding_mask Symbolic.demo_inputs);
                 DecoderPass
                   (seed_call (encoder_token_ids Symbolic.demo_inputs)
                      (encoder_padding_mask Symbolic.demo_inputs)
                      (decoder_token_ids Symbolic.demo_inputs))]).
Proof.
  apply (@build_cache_single_pass Symbolic.bart (symbolic_laws 2 4 8)
           (encoder_token_ids Symbolic.demo_inputs)
           (encoder_padding_mask Symbolic.demo_inputs)
           (decoder_token_ids Symbolic.demo_inputs) []).
  - split; vm_compute; discriminate.
  - split; vm_compute; discriminate.
  - cbn. discriminate.
Defined.

(** ** Generation under the sampling loop *)

Section NoEndToken.
Context {B : Backbone} {L : TfLaws B}.


Lemma write_column_dims prompt mask index tokens :
  dim0 (write_column prompt mask index tokens) = dim0 prompt /\
  dim1 (write_column prompt mask index tokens) = dim1 prompt.
Proof. unfold write_column, dim0. cbn. now rewrite length_imap. Qed.









(** With the sampling loop of the spec, with or without an end token:
    every decoder pass of the loop has no cross-attention update index and
    reads the cross-attention cache the closure holds. *)
Lemma sampler_loop_history g bs ehs m cc mask e fuel :
  forall prompt cache index h ids h',
  sampler_loop g (next bs ehs m cc) mask e fuel prompt cache index h
  = Ok (ids, h') ->
  exists steps,
    h' = h ++ map DecoderPass steps /\
    Forall (fun c =>
              dc_cross_attention_cache_update_index c = None /\
              repeat_tensor (Z.of_nat (dim0 prompt)) bs cc
              = Ok (dc_cross_attention_cache c)) steps.
Proof.
  induction fuel as [|fuel IH]; intros prompt cache index h ids h' Hrun;
    cbn [sampler_loop] in Hrun.
  - apply ret_Ok in Hrun as [_ ->]. exists []. cbn. now rewrite app_nil_r.
  - destruct (all_rows_done e prompt mask).
    + apply ret_Ok in Hrun as [_ ->]. exists []. cbn. now rewrite app_nil_r.
    + apply bind_Ok in Hrun as ([[lg hs] c'] & h1 & Hn & Hrun).
      apply next_Ok in Hn
        as (w & ehs' & m' & cc' & lg0 & hs0 & c0 & cco & _ & _ & _ & Hc & _ & _
            & ->).
      apply IH in Hrun as (steps & -> & Hall).
      destruct (write_column_dims prompt mask (Z.to_nat index) (g lg))
        as [Hd0 _].
      rewrite Hd0 in Hall.
      exists (step_call ehs' m' w cache (Int32.sub index 1) cc' :: steps).
      cbn [map]. rewrite <- app_assoc. split; [reflexivity|].
      constructor; [now split|exact Hall].
Qed.

(** The cross-attention cache seeded by [_build_cache] serves the whole
    generation: every decoder pass after the seeding pass leaves it
    alone. *)
Corollary generate_step_cross_attention_cache g inputs e h out h' :
  generate_step (spec_sampler g) inputs e h = Ok (out, h') ->
  exists hs ehs sc cc hb steps,
    _build_cache (encoder_token_ids inputs) (encoder_padding_mask inputs)
      (decoder_token_ids inputs) h = Ok ((hs, ehs, sc, cc), hb) /\
    h' = hb ++ map DecoderPass steps /\
    Forall (fun c =>
              dc_cross_attention_cache_update_index c = None /\
              (tf_shape0 cc = Z.of_nat (dim0 (decoder_token_ids inputs)) ->
               dc_cross_attention_cache c = cc)) steps.
Proof.
  intros Hgen.
  apply generate_step_Ok in Hgen
    as (bs & d & hs & ehs & sc & cc & hb & _ & Hb & Hsam & _).
  apply sampler_loop_history in Hsam as (steps & -> & Hall).
  exists hs, ehs, sc, cc, hb, steps. split; [exact Hb|].
  split; [reflexivity|].
  eapply Forall_impl; [exact Hall|]. cbn beta. intros c [Hnone Hrep].
  split; [exact Hnone|]. intros Hs. unfold repeat_tensor in Hrep.
  rewrite Hs, Z.eqb_refl in Hrep. now inversion Hrep.
Qed.


End NoEndToken.


(** ** The compiled-function cache *)

Section LifecycleFacts.
Import Lifecycle.
Context {SamplerArg SamplerObj TrainingArgs : Type}.
Context (get_sampler : SamplerArg -> SamplerObj).
Context (is_xla_compatible has_jit_compile : bool).

Local Abbreviation Model := (@Model SamplerObj TrainingArgs).
Local Abbreviation compile :=
  (@compile SamplerArg SamplerObj TrainingArgs get_sampler is_xla_compatible
     has_jit_compile).

Lemma same_function_refl (f : @GenerateFunction SamplerObj) :
  same_function f f = true.
Proof. destruct f as [|[] ?]; reflexivity. Qed.

Lemma fresh_compile a (m : Model) : fresh (compile a m).
Proof. exact I. Qed.

Lemma make_generate_function_stored (m : Model) f :
  generate_function m = Some f -> make_generate_function m = (f, m).
Proof. unfold make_generate_function. now intros ->. Qed.

Lemma make_generate_function_fresh (m : Model) :
  fresh m ->
  fresh (snd (make_generate_function m)) /\
  generate_function (snd (make_generate_function m))
  = Some (fst (make_generate_function m)) /\
  same_function (fst (make_generate_function m)) (build_generate_function m)
  = true /\
  _sampler (snd (make_generate_function m)) = _sampler m /\
  build_generate_function (snd (make_generate_function m))
  = build_generate_function m.
Proof.
  unfold make_generate_function, fresh.
  destruct (generate_function m) as [f|] eqn:Hf; cbn [fst snd].
  - rewrite Hf. intros [Hs Ht]. auto.
  - intros _. cbn [generate_function _sampler].
    change (build_generate_function
              {| training := training m; run_eagerly := run_eagerly m;
                 jit_compile := jit_compile m; _sampler := _sampler m;
                 generate_function := Some (build_generate_function m) |})
      with (build_generate_function m).
    rewrite same_function_refl. repeat split.
    unfold build_generate_function. now destruct (run_eagerly m).
Qed.

Lemma call_generate_function_fresh (m : Model) f :
  fresh m -> generate_function m = Some f ->
  fst (call_generate_function f m) = _sampler m /\
  fresh (snd (call_generate_function f m)).
Proof.
  unfold fresh. intros Hfr Hf. rewrite Hf in Hfr. destruct Hfr as [Hs Ht].
  destruct f as [|j [s|]]; cbn.
  - split; [reflexivity|]. now rewrite Hf.
  - split; [congruence|]. now rewrite Hf.
  - split; [reflexivity|]. split; [|reflexivity].
    unfold build_generate_function in *. cbn.
    destruct (run_eagerly m); [discriminate|]. exact Hs.
Qed.

Lemma run_up_to_date ops : forall m : Model,
  fresh m -> Forall up_to_date (fst (run get_sampler is_xla_compatible
                                       has_jit_compile ops m)).
Proof.
  induction ops as [|[a|] ops IH]; intros m Hfr; cbn [run].
  - constructor.
  - apply IH, fresh_compile.
  - destruct (make_generate_function_fresh m Hfr)
      as (Hfr1 & Hst & Hsame & Hsam & _).
    destruct (make_generate_function m) as [f m1]. cbn [fst snd] in *.
    destruct (call_generate_function_fresh m1 f Hfr1 Hst) as [Hused Hfr2].
    destruct (call_generate_function f m1) as [used m2]. cbn [fst snd] in *.
    specialize (IH m2 Hfr2).
    destruct (run _ _ _ ops m2) as [log m3]. cbn [fst] in *.
    constructor; [|exact IH]. split; cbn; [congruence|exact Hsame].
Qed.

Lemma make_repeatedly_stored n : forall (m : Model) f,
  generate_function m = Some f ->
  make_repeatedly n m = (replicate n f, m).
Proof.
  induction n as [|n IH]; intros m f Hf; cbn [make_repeatedly replicate];
    [reflexivity|].
  rewrite (make_generate_function_stored m f Hf), (IH m f Hf). reflexivity.
Qed.

(** C10.  [compile] clears [self.generate_function].  The next
    [make_generate_function] builds the function from the configuration
    [compile] left and stores it, and every later call returns that stored
    function and leaves the model as it is, until [compile] runs again.
    In any sequence of [compile] and [generate] calls, every [generate]
    after a [compile] runs a function of the kind a rebuild would give,
    with the sampler the latest [compile] installed. *)
Theorem compile_invalidates_generate_function (a : CompileArgs) (m : Model) :
  generate_function (compile a m) = None
  /\
  _sampler (compile a m) = Some (get_sampler (ca_sampler a))
  /\
  (forall n,
     make_repeatedly (S n) (compile a m)
     = (replicate (S n) (build_generate_function (compile a m)),
        snd (make_generate_function (compile a m))))
  /\
  generate_function (snd (make_generate_function (compile a m)))
  = Some (build_generate_function (compile a m))
  /\
  (forall f (m' : Model),
     make_generate_function
       {| training := training m'; run_eagerly := run_eagerly m';
          jit_compile := jit_compile m'; _sampler := _sampler m';
          generate_function := Some f |}
     = (f, {| training := training m'; run_eagerly := run_eagerly m';
              jit_compile := jit_compile m'; _sampler := _sampler m';
              generate_function := Some f |}))
  /\
  (forall ops,
     Forall up_to_date
       (fst (run get_sampler is_xla_compatible has_jit_compile
               (OpCompile a :: ops) m))).
Proof.
  split; [reflexivity|]. split; [reflexivity|]. split; [|split; [|split]].
  - intros n.
    pose proof (make_repeatedly_stored n
                  (snd (make_generate_function (compile a m)))
                  (build_generate_function (compile a m)) eq_refl) as Hn.
    cbn [make_repeatedly replicate].
    change (make_generate_function (compile a m))
      with (build_generate_function (compile a m),
            snd (make_generate_function (compile a m))).
    cbv iota beta. now rewrite Hn.
  - reflexivity.
  - reflexivity.
  - intros ops. cbn [run]. apply run_up_to_date, fresh_compile.
Qed.

End LifecycleFacts.

(** ** Input and output normalisation *)

Section NormalizeFacts.
Import Py.

Lemma pack_Arr ts t : pack ts = Ok t -> exists xs, data t = Arr xs.
Proof.
  unfold pack. destruct ts as [|u ts].
  - intros H. inversion H. now eexists.
  - destruct (forallb _ _); [|discriminate]. intros H. inversion H.
    now eexists.
Qed.

Lemma normalize_input_list xs :
  normalize_input (PyList xs)
  = match convert_to_tensor (PyList xs) with
    | Ok t => Ok (PyTensor t, false)
    | Raise e => Raise e
    end.
Proof.
  unfold normalize_input.
  destruct (convert_to_tensor (PyList xs)) as [t|e] eqn:Hc; [|reflexivity].
  cbn [rbind]. cbn [convert_to_tensor] in Hc.
  apply rbind_Ok in Hc as (ts & _ & Hp).
  apply pack_Arr in Hp as [ys ->]. reflexivity.
Qed.

Lemma normalize_items_scalar kvs flag :
  normalize_items
    (map (fun '(k, (dt, a)) => (k, PyTensor (rank0 dt a))) kvs) flag
  = Ok (map (fun '(k, (dt, a)) => (k, PyTensor (batched dt [Sc a]))) kvs,
        match kvs with [] => flag | _ :: _ => true end).
Proof.
  revert flag. induction kvs as [|[k [dt a]] kvs IH]; intros flag;
    [reflexivity|].
  cbn [map normalize_items]. cbn [normalize_input rank0 data rbind].
  rewrite IH. cbn [rbind]. destruct kvs; reflexivity.
Qed.

Lemma normalize_items_batched kvs :
  normalize_items
    (map (fun '(k, (dt, xs)) => (k, PyTensor (batched dt xs))) kvs) false
  = Ok (map (fun '(k, (dt, xs)) => (k, PyTensor (batched dt xs))) kvs, false).
Proof.
  induction kvs as [|[k [dt xs]] kvs IH]; [reflexivity|].
  cbn [map normalize_items]. cbn [normalize_input batched data rbind].
  rewrite IH. reflexivity.
Qed.

Lemma normalize_scalar_input (x : ScalarInput) :
  _normalize_generate_inputs (scalar_value x)
  = Ok (PyList [with_batch_axis x], true).
Proof.
  destruct x as [s|dt a|kv kvs]; [reflexivity..|].
  unfold _normalize_generate_inputs, scalar_value, with_batch_axis.
  rewrite normalize_items_scalar. reflexivity.
Qed.

Lemma normalize_batched_input (y : BatchedInput) :
  _normalize_generate_inputs (batched_value y)
  = Ok (PyList [batched_value y], false).
Proof.
  destruct y as [dt xs|kvs]; [reflexivity|].
  unfold _normalize_generate_inputs, batched_value.
  rewrite normalize_items_batched. reflexivity.
Qed.

(** [generate] on an input that normalises to a single batch. *)
Lemma generate_single_batch preprocessor gf inputs max_length b flag out :
  _normalize_generate_inputs inputs = Ok (PyList [b], flag) ->
  passes preprocessor gf max_length b = Ok out ->
  generate preprocessor gf inputs max_length
  = _normalize_generate_outputs [out] flag.
Proof.
  intros Hn Hp. unfold generate. rewrite Hn.
  cbn [rbind batches_of map sequence]. unfold passes in Hp.
  destruct preprocessor as [p|].
  - apply rbind_Ok in Hp as (pre & -> & Hp).
    apply rbind_Ok in Hp as (o & Hg & Hpost).
    cbn [rbind map sequence]. rewrite Hg. cbn [rbind map sequence].
    rewrite Hpost. reflexivity.
  - cbn [rbind map sequence]. rewrite Hp. reflexivity.
Qed.

(** Without a preprocessor [generate] calls the generate function with
    no end token and nothing else. *)
Lemma generate_without_preprocessor gf gf' inputs max_length :
  (forall x, gf x None = gf' x None) ->
  generate None gf inputs max_length = generate None gf' inputs max_length.
Proof.
  intros Hext. unfold generate.
  destruct (_normalize_generate_inputs inputs) as [[inp flag]|]; [|reflexivity].
  cbn [rbind]. destruct (batches_of inp) as [bs|]; [|reflexivity].
  cbn [rbind]. destruct (sequence (map (fun x => Ok x) bs)) as [bs'|];
    [|reflexivity].
  cbn [rbind]. now rewrite (map_ext _ _ Hext).
Qed.

(** C9.  A rank-0 input to [generate] (a string, a rank-0 tensor, a
    dictionary of rank-0 tensors) gets a batch axis of size one on the way
    in and loses it on the way out, so that the result is a single
    non-batched value, and a single string when the passes return a
    string; an input that already has a batch axis gets no axis added and
    none removed. *)
Theorem generate_scalar_in_scalar_out
    (preprocessor : option Preprocessor)
    (generate_function : PyValue -> option Z -> Result PyValue)
    (max_length : option Z)
    (x : ScalarInput) (dt : DType) (d : Nd)
    (y : BatchedInput) (t : TfTensor) :
  passes preprocessor generate_function max_length (with_batch_axis x)
  = Ok (PyTensor (batched dt [d])) ->
  passes preprocessor generate_function max_length (batched_value y)
  = Ok (PyTensor t) ->
  (* a rank-0 input: one axis is added and the flag is set *)
  _normalize_generate_inputs (scalar_value x)
  = Ok (PyList [with_batch_axis x], true)
  /\
  (* with the flag set the axis is removed from the result *)
  _normalize_generate_outputs [PyTensor (batched dt [d])] true
  = Ok (to_python {| dtype := dt; data := d |})
  /\
  generate preprocessor generate_function (scalar_value x) max_length
  = Ok (to_python {| dtype := dt; data := d |})
  /\
  (forall s', to_python (rank0 tf_string (AStr s')) = PyStr s')
  /\
  (* a batched input: no axis is added, the flag stays clear *)
  _normalize_generate_inputs (batched_value y)
  = Ok (PyList [batched_value y], false)
  /\
  (forall xs,
     _normalize_generate_inputs (PyList xs)
     = match convert_to_tensor (PyList xs) with
       | Ok t => Ok (PyList [PyTensor t], false)
       | Raise e => Raise e
       end)
  /\
  (forall bs,
     _normalize_generate_inputs (PyDataset bs) = Ok (PyDataset bs, false))
  /\
  (* with the flag clear nothing is removed from the result *)
  _normalize_generate_outputs [PyTensor t] false = Ok (to_python t)
  /\
  generate preprocessor generate_function (batched_value y) max_length
  = Ok (to_python t).
Proof.
  intros Hx Hy.
  split; [apply normalize_scalar_input|].
  split; [reflexivity|]. split.
  { rewrite (generate_single_batch _ _ _ _ _ _ _
               (normalize_scalar_input x) Hx). reflexivity. }
  split; [reflexivity|].
  split; [apply normalize_batched_input|]. split.
  { intros xs. unfold _normalize_generate_inputs.
    rewrite normalize_input_list.
    now destruct (convert_to_tensor (PyList xs)). }
  split; [reflexivity|]. split; [reflexivity|].
  rewrite (generate_single_batch _ _ _ _ _ _ _
             (normalize_batched_input y) Hy). reflexivity.
Qed.

End NormalizeFacts.

(** The string ["fox"] and the batch ["fox"; "dog"] through a
    preprocessor that changes nothing. *)
Lemma generate_scalar_in_scalar_out_witness :
  Py.generate (Some Symbolic.identity_preprocessor) (fun x _ => Ok x)
    (Py.PyStr "fox") None
  = Ok (Py.PyStr "fox") /\
  Py.generate (Some Symbolic.identity_preprocessor) (fun x _ => Ok x)
    (Py.PyTensor
       (Py.batched Py.tf_string
          [Py.Sc (Py.AStr "fox"); Py.Sc (Py.AStr "dog")])) None
  = Ok (Py.PyList [Py.PyStr "fox"; Py.PyStr "dog"]).
Proof.
  destruct (generate_scalar_in_scalar_out
              (Some Symbolic.identity_preprocessor) (fun x _ => Ok x) None
              (Py.SStr "fox") Py.tf_string (Py.Sc (Py.AStr "fox"))
              (Py.BTensor Py.tf_string
                 [Py.Sc (Py.AStr "fox"); Py.Sc (Py.AStr "dog")])
              (Py.batched Py.tf_string
                 [Py.Sc (Py.AStr "fox"); Py.Sc (Py.AStr "dog")])
              eq_refl eq_refl)
    as (_ & _ & Hs & _ & _ & _ & _ & _ & Hb).
  split; [exact Hs|exact Hb].
Defined.

(** ** Concrete runs *)

Section Runs.
Import Symbolic.

Example start_index_demo : start_index (decoder_padding_mask demo_inputs) = 2.
Proof. reflexivity. Qed.

Example output_padding_mask_demo :
  output_padding_mask (Some 7)
    (T2 5 [[0; 21; 7; 9; 7]; [0; 7; 23; 24; 1]])
    (decoder_padding_mask demo_inputs)
  = Ok (T2 5 [[true; true; true; false; false];
              [true; true; true; true; true]]).
Proof. reflexivity. Qed.

Example generate_step_demo :
  @generate_step bart (spec_sampler pick7) demo_inputs (Some 7) []
  = Ok (demo_outputs, demo_history).
Proof. vm_compute. reflexivity. Qed.

(** At index 0 the column [index - 1] does not exist and the slice is
    rejected. *)
Example next_at_index_zero :
  @next bart 2 demo_encoder_hidden_states (encoder_padding_mask demo_inputs)
    demo_cross_attention_cache (decoder_token_ids demo_inputs) demo_cache 0 []
  = Raise InvalidArgumentError.
Proof. reflexivity. Qed.

(** A cache with fewer layer slots than the backbone has layers. *)
Example decoder_forward_missing_layer :
  @decoder_forward bart
    (step_call demo_encoder_hidden_states (encoder_padding_mask demo_inputs)
       (T2 1 [[21]; [22]]) (Zeros [2; 1; 2; 5; 4; 2]) 1
       demo_cross_attention_cache)
  = Raise IndexError.
Proof. reflexivity. Qed.

Example normalize_string :
  Py._normalize_generate_inputs (Py.PyStr "fox")
  = Ok (Py.PyList
          [Py.PyTensor (Py.batched Py.tf_string [Py.Sc (Py.AStr "fox")])],
        true).
Proof. reflexivity. Qed.

Example normalize_list_of_strings :
  Py._normalize_generate_inputs (Py.PyList [Py.PyStr "fox"; Py.PyStr "dog"])
  = Ok (Py.PyList
          [Py.PyTensor
             (Py.batched Py.tf_string
                [Py.Sc (Py.AStr "fox"); Py.Sc (Py.AStr "dog")])],
        false).
Proof. reflexivity. Qed.

(** In a dictionary the flag is the one of the last key. *)
Example normalize_mixed_dictionary :
  Py._normalize_generate_inputs
    (Py.PyDict [("encoder_text"%string, Py.PyStr "fox");
                ("decoder_text"%string, Py.PyList [Py.PyStr "dog"])])
  = Ok (Py.PyList
          [Py.PyDict
             [("encoder_text"%string,
               Py.PyTensor (Py.batched Py.tf_string [Py.Sc (Py.AStr "fox")]));
              ("decoder_text"%string,
               Py.PyTensor (Py.batched Py.tf_string [Py.Sc (Py.AStr "dog")]))]],
        false).
Proof. reflexivity. Qed.

(** Two samplers installed one after the other: each [generate] runs
    with the one installed last, eagerly or through a [tf.function]. *)
Example recompile_demo :
  map Lifecycle.used_sampler
    (fst (Lifecycle.run (fun name : string => name) true true
            [Lifecycle.OpCompile
               {| Lifecycle.ca_args := tt; Lifecycle.ca_run_eagerly := false;
                  Lifecycle.ca_jit_compile := true;
                  Lifecycle.ca_sampler := "top_k"%string |};
             Lifecycle.OpGenerate; Lifecycle.OpGenerate;
             Lifecycle.OpCompile
               {| Lifecycle.ca_args := tt; Lifecycle.ca_run_eagerly := false;
                  Lifecycle.ca_jit_compile := true;
                  Lifecycle.ca_sampler := "greedy"%string |};
             Lifecycle.OpGenerate]
            (Lifecycle.init (fun name : string => name) true true tt
               "top_k"%string)))
  = [Some "top_k"%string; Some "top_k"%string; Some "greedy"%string].
Proof. reflexivity. Qed.

End Runs.

(** * Further properties *)

(** ** The layer loop of [call_decoder_with_cache] *)

Section LayerLoop.
Context {B : Backbone}.

Lemma for_each_app {S} (body : S -> nat -> Result S) l1 l2 st :
  for_each body (l1 ++ l2) st
  = rbind (for_each body l1 st) (for_each body l2).
Proof.
  revert st. induction l1 as [|i l1 IH]; intros st; cbn [for_each app rbind].
  - reflexivity.
  - destruct (body st i) as [st'|e]; cbn [rbind]; [apply IH|reflexivity].
Qed.

(** The loop stops with [IndexError] at the first layer without a slot. *)
Lemma for_each_layers_short ehs m si ci n : forall a x scs ccs,
  (0 < n)%nat ->
  (length scs < a + n \/ length ccs < a + n)%nat ->
  for_each (decoder_layer_step ehs m si ci) (seq a n) (x, scs, ccs)
  = Raise IndexError.
Proof.
  induction n as [|n IH]; intros a x scs ccs Hn Hshort; [lia|].
  cbn [seq for_each].
  destruct (scs !! a) as [s|] eqn:Hs.
  2:{ unfold decoder_layer_step. now rewrite Hs. }
  destruct (ccs !! a) as [r|] eqn:Hr.
  2:{ unfold decoder_layer_step. now rewrite Hs, Hr. }
  apply lookup_lt_Some in Hs as Hls. apply lookup_lt_Some in Hr as Hlr.
  destruct (decoder_layer_step_Ok ehs m si ci x scs ccs a Hls Hlr)
    as (x' & scs' & ccs' & -> & Hl1 & Hl2).
  cbn [rbind]. apply IH; lia.
Qed.

(** X1.  A cache that unstacks into fewer slots than the backbone has
    decoder layers makes the forward pass of [call_decoder_with_cache]
    raise, whatever the two update indices are, also when neither cache
    is to be written: the pass returns only when both caches hold a slot
    for every layer. *)
Theorem decoder_forward_needs_layer_slots (c : DecoderCall) :
  (length (tf_unstack1 (dc_self_attention_cache c)) < num_layers \/
   length (tf_unstack1 (dc_cross_attention_cache c)) < num_layers)%nat ->
  exists e, decoder_forward c = Raise e.
Proof.
  intros Hshort. exists IndexError. unfold decoder_forward.
  rewrite for_each_layers_short; [reflexivity|lia|cbn; exact Hshort].
Qed.

(** After the first [n] layers the loop holds the input of layer [n],
    the caches returned by the layers below [n] in their slots and the
    slots from [n] on as they were passed in. *)
Lemma for_each_layers_prefix (c : DecoderCall) (n : nat) : forall x scs ccs,
  for_each
    (decoder_layer_step (dc_encoder_hidden_states c)
       (dc_encoder_padding_mask c)
       (dc_self_attention_cache_update_index c)
       (dc_cross_attention_cache_update_index c))
    (seq 0 n)
    (embedded c, tf_unstack1 (dc_self_attention_cache c),
     tf_unstack1 (dc_cross_attention_cache c))
  = Ok (x, scs, ccs) ->
  layer_input c n = Some x /\
  length scs = length (tf_unstack1 (dc_self_attention_cache c)) /\
  length ccs = length (tf_unstack1 (dc_cross_attention_cache c)) /\
  (forall i,
     scs !! i
     = match dc_self_attention_cache_update_index c with
       | Some _ =>
         if (i <? n)%nat
         then match layer_output c i with
              | Some (_, s, _) => Some s
              | None => None
              end
         else tf_unstack1 (dc_self_attention_cache c) !! i
       | None => tf_unstack1 (dc_self_attention_cache c) !! i
       end) /\
  (forall i,
     ccs !! i
     = match dc_cross_attention_cache_update_index c with
       | Some _ =>
         if (i <? n)%nat
         then match layer_output c i with
              | Some (_, _, r) => Some r
              | None => None
              end
         else tf_unstack1 (dc_cross_attention_cache c) !! i
       | None => tf_unstack1 (dc_cross_attention_cache c) !! i
       end).
Proof.
  induction n as [|n IH]; intros x scs ccs Hrun.
  - cbn in Hrun. inversion Hrun; subst. cbn [layer_input].
    repeat split; intros i;
      [destruct (dc_self_attention_cache_update_index c)
      |destruct (dc_cross_attention_cache_update_index c)]; reflexivity.
  - rewrite seq_S, for_each_app in Hrun. cbn [Nat.add] in Hrun.
    apply rbind_Ok in Hrun as ([[x1 scs1] ccs1] & Hpre & Hstep).
    destruct (IH x1 scs1 ccs1 Hpre) as (Hin & Hl1 & Hl2 & Hs & Hc).
    cbn [for_each rbind] in Hstep.
    apply rbind_Ok in Hstep as (st & Hstep & Hst). inversion Hst; subst st.
    clear Hst. unfold decoder_layer_step in Hstep.
    pose proof (Hs n) as Hsn. pose proof (Hc n) as Hcn.
    rewrite Nat.ltb_irrefl in Hsn, Hcn.
    assert (Hsn' : scs1 !! n = tf_unstack1 (dc_self_attention_cache c) !! n)
      by (destruct (dc_self_attention_cache_update_index c); exact Hsn).
    assert (Hcn' : ccs1 !! n = tf_unstack1 (dc_cross_attention_cache c) !! n)
      by (destruct (dc_cross_attention_cache_update_index c); exact Hcn).
    clear Hsn Hcn.
    destruct (scs1 !! n) as [s|] eqn:Hs1; [|discriminate].
    destruct (ccs1 !! n) as [r|] eqn:Hr1; [|discriminate].
    assert (Hout : layer_output c n
                   = Some (transformer_decoder_layer n x1
                             (dc_encoder_hidden_states c)
                             (dc_encoder_padding_mask c)
                             s (dc_self_attention_cache_update_index c)
                             r (dc_cross_attention_cache_update_index c))).
    { unfold layer_output, layer_on_input_slots.
      now rewrite Hin, <- Hsn', <- Hcn'. }
    destruct (transformer_decoder_layer n x1 _ _ s _ r _) as [[x' ns] nr]
      eqn:Hlayer.
    inversion Hstep; subst x scs ccs; clear Hstep.
    apply lookup_lt_Some in Hs1 as Hlt1. apply lookup_lt_Some in Hr1 as Hlt2.
    split.
    { cbn [layer_input]. rewrite Hin. unfold layer_output in Hout.
      rewrite Hin in Hout. now rewrite Hout. }
    split.
    { destruct (dc_self_attention_cache_update_index c);
        now rewrite ?length_insert. }
    split.
    { destruct (dc_cross_attention_cache_update_index c);
        now rewrite ?length_insert. }
    split.
    + intros i. specialize (Hs i).
      destruct (dc_self_attention_cache_update_index c) as [j|]; [|exact Hs].
      destruct (Nat.eq_dec i n) as [->|Hne].
      * rewrite list_lookup_insert_eq by assumption.
        assert ((n <? S n)%nat = true) as -> by (apply Nat.ltb_lt; lia).
        now rewrite Hout.
      * rewrite list_lookup_insert_ne by congruence. rewrite Hs.
        destruct (Nat.ltb_spec i n), (Nat.ltb_spec i (S n));
          try reflexivity; lia.
    + intros i. specialize (Hc i).
      destruct (dc_cross_attention_cache_update_index c) as [j|]; [|exact Hc].
      destruct (Nat.eq_dec i n) as [->|Hne].
      * rewrite list_lookup_insert_eq by assumption.
        assert ((n <? S n)%nat = true) as -> by (apply Nat.ltb_lt; lia).
        now rewrite Hout.
      * rewrite list_lookup_insert_ne by congruence. rewrite Hc.
        destruct (Nat.ltb_spec i n), (Nat.ltb_spec i (S n));
          try reflexivity; lia.
Qed.

(** X2.  In a returning forward pass every decoder layer reads its own
    slot of the two caches as they were passed in, not a slot another
    layer has written: the hidden states are the output of the last
    layer of the chain, the logits their product with the embedding
    matrix, and an updated cache is the stack whose slot [i] is the cache
    layer [i] returned, with the slots beyond the layers of the backbone
    left as they were. *)
Theorem decoder_forward_layers (c : DecoderCall) lg hs sc cc :
  decoder_forward c = Ok (lg, hs, sc, cc) ->
  layer_input c num_layers = Some hs /\
  lg = tf_matmul_transpose_b hs token_embedding_embeddings /\
  match dc_self_attention_cache_update_index c with
  | Some _ =>
    exists l, sc = tf_stack1 l /\
      length l = length (tf_unstack1 (dc_self_attention_cache c)) /\
      forall i, l !! i = self_slot_after c i
  | None => sc = dc_self_attention_cache c
  end /\
  match dc_cross_attention_cache_update_index c with
  | Some _ =>
    exists l, cc = tf_stack1 l /\
      length l = length (tf_unstack1 (dc_cross_attention_cache c)) /\
      forall i, l !! i = cross_slot_after c i
  | None => cc = dc_cross_attention_cache c
  end.
Proof.
  unfold decoder_forward. intros H.
  apply rbind_Ok in H as ([[x scs] ccs] & Hrun & H).
  apply for_each_layers_prefix in Hrun as (Hin & Hl1 & Hl2 & Hs & Hc).
  unfold self_slot_after, cross_slot_after.
  destruct (dc_self_attention_cache_update_index c) as [j|];
    destruct (dc_cross_attention_cache_update_index c) as [k|];
    inversion H; subst; clear H; (split; [exact Hin|]);
    (split; [reflexivity|]); split; eauto.
Qed.

End LayerLoop.

(** A self-attention cache of one slot under the two layers of
    [Symbolic.bart]. *)
Lemma decoder_forward_needs_layer_slots_witness :
  exists e,
    @decoder_forward Symbolic.bart
      (step_call Symbolic.demo_encoder_hidden_states
         (encoder_padding_mask Symbolic.demo_inputs)
         (T2 1 [[21]; [22]]) (Symbolic.Zeros [2; 1; 2; 5; 4; 2]) 1
         Symbolic.demo_cross_attention_cache)
    = Raise e.
Proof.
  apply (@decoder_forward_needs_layer_slots Symbolic.bart).
  left. apply Nat.ltb_lt. reflexivity.
Defined.

(** The seeding pass on [Symbolic.demo_inputs]. *)
Lemma decoder_forward_layers_witness :
  exists lg hs sc cc,
    @decoder_forward Symbolic.bart
      (seed_call (encoder_token_ids Symbolic.demo_inputs)
         (encoder_padding_mask Symbolic.demo_inputs)
         (decoder_token_ids Symbolic.demo_inputs))
    = Ok (lg, hs, sc, cc) /\
    layer_input
      (seed_call (encoder_token_ids Symbolic.demo_inputs)
         (encoder_padding_mask Symbolic.demo_inputs)
         (decoder_token_ids Symbolic.demo_inputs)) 2
    = Some hs.
Proof.
  destruct (@decoder_forward Symbolic.bart
              (seed_call (encoder_token_ids Symbolic.demo_inputs)
                 (encoder_padding_mask Symbolic.demo_inputs)
                 (decoder_token_ids Symbolic.demo_inputs)))
    as [[[[lg hs] sc] cc]|e] eqn:H.
  - exists lg, hs, sc, cc. split; [reflexivity|].
    exact (proj1 (@decoder_forward_layers Symbolic.bart _ lg hs sc cc H)).
  - vm_compute in H. discriminate H.
Defined.

(** ** Cache allocation and the start of [generate_step] *)

Section SeedingFacts.
Context {B : Backbone}.

Lemma shape_Ok_dims {A} (t : Tensor2 A) r :
  Tf.shape t = Ok r -> int32_dims t.
Proof.
  unfold Tf.shape, int32_dims.
  destruct (Int32.fits (Z.of_nat (dim0 t))) eqn:H0; [|discriminate].
  destruct (Int32.fits (Z.of_nat (dim1 t))) eqn:H1; [|discriminate].
  intros _. apply Int32_fits_in_range in H0, H1.
  unfold Int32.in_range in *. lia.
Qed.

Lemma shape_not_fits {A} (t : Tensor2 A) :
  ~ int32_dims t -> Tf.shape t = Raise InvalidArgumentError.
Proof.
  intros Hn. destruct (Tf.shape t) as [r|e] eqn:Hs.
  - exfalso. apply Hn. eapply shape_Ok_dims. exact Hs.
  - unfold Tf.shape in Hs. destruct (_ && _); [discriminate|].
    now inversion Hs.
Qed.

Lemma int32_dims_dec {A} (t : Tensor2 A) : int32_dims t \/ ~ int32_dims t.
Proof. unfold int32_dims. lia. Qed.

(** X3.  For a backbone with a positive number of heads and a
    non-negative hidden dimension, [_initialize_cache] returns exactly
    when the dimensions of both token tensors fit [tf.shape]'s int32, and
    raises [InvalidArgumentError] otherwise; what it returns are two
    zero tensors that differ in the length axis alone, the decoder length
    for the self-attention cache and the encoder length for the
    cross-attention cache, with the batch size of the encoder ids.  With
    zero heads the head dimension [hidden_dim // num_heads] raises
    [ZeroDivisionError] once the shapes have been read. *)
Theorem initialize_cache_outcome (enc_ids dec_ids : Tensor2 Z) :
  (0 < num_heads -> 0 <= hidden_dim ->
   (int32_dims enc_ids /\ int32_dims dec_ids ->
    _initialize_cache enc_ids dec_ids
    = Ok (tf_zeros [Z.of_nat (dim0 enc_ids); Z.of_nat num_layers; 2;
                    Z.of_nat (dim1 dec_ids); num_heads;
                    hidden_dim / num_heads],
          tf_zeros [Z.of_nat (dim0 enc_ids); Z.of_nat num_layers; 2;
                    Z.of_nat (dim1 enc_ids); num_heads;
                    hidden_dim / num_heads])) /\
   (~ (int32_dims enc_ids /\ int32_dims dec_ids) ->
    _initialize_cache enc_ids dec_ids = Raise InvalidArgumentError))
  /\
  (num_heads = 0 ->
   (int32_dims enc_ids /\ int32_dims dec_ids ->
    _initialize_cache enc_ids dec_ids = Raise ZeroDivisionError) /\
   (~ (int32_dims enc_ids /\ int32_dims dec_ids) ->
    _initialize_cache enc_ids dec_ids = Raise InvalidArgumentError)).
Proof.
  assert (Hbad : ~ (int32_dims enc_ids /\ int32_dims dec_ids) ->
                 _initialize_cache enc_ids dec_ids
                 = Raise InvalidArgumentError).
  { intros Hn. destruct (int32_dims_dec enc_ids) as [He|He].
    - destruct (int32_dims_dec dec_ids) as [Hd|Hd]; [tauto|].
      unfold _initialize_cache. destruct He as [He0 He1].
      rewrite !shape_fits by assumption. cbn [rbind].
      now rewrite (shape_not_fits _ Hd).
    - unfold _initialize_cache. now rewrite (shape_not_fits _ He). }
  split.
  - intros Hh _. split; [|exact Hbad].
    intros [[He0 He1] [Hd0 Hd1]]. unfold _initialize_cache.
    rewrite !shape_fits by assumption. cbn [rbind]. unfold py_floordiv.
    destruct (Z.eqb_spec num_heads 0) as [Hz|_]; [lia|]. reflexivity.
  - intros Hz. split; [|exact Hbad].
    intros [[He0 He1] [Hd0 Hd1]]. unfold _initialize_cache.
    rewrite !shape_fits by assumption. cbn [rbind]. unfold py_floordiv.
    now rewrite Hz.
Qed.

Lemma initialize_cache_Ok (enc_ids dec_ids : Tensor2 Z) r :
  _initialize_cache enc_ids dec_ids = Ok r ->
  int32_dims enc_ids /\ int32_dims dec_ids /\ num_heads <> 0.
Proof.
  intros H. destruct (int32_dims_dec enc_ids) as [He|He].
  2:{ unfold _initialize_cache in H. rewrite (shape_not_fits _ He) in H.
      discriminate. }
  destruct (int32_dims_dec dec_ids) as [Hd|Hd].
  2:{ unfold _initialize_cache in H. destruct He as [He0 He1].
      rewrite !shape_fits in H by assumption. cbn [rbind] in H.
      rewrite (shape_not_fits _ Hd) in H. discriminate. }
  split; [exact He|]. split; [exact Hd|]. intros Hz.
  unfold _initialize_cache in H.
  destruct He as [He0 He1], Hd as [Hd0 Hd1].
  rewrite !shape_fits in H by assumption. cbn [rbind] in H.
  unfold py_floordiv in H. rewrite Hz in H. discriminate.
Qed.

(** X4.  A returning [generate_step] has run the encoder and the seeding
    decoder pass, in this order and once each, before it calls the
    sampler; the sampler is handed the prompt and the mask of the inputs
    as they are, the self-attention cache and the hidden states of the
    seeding pass and the starting index, and what it returns is the
    [decoder_token_ids] of the result. *)
Theorem generate_step_seeds_then_samples (sampler : Sampler) inputs e h out h' :
  generate_step sampler inputs e h = Ok (out, h') ->
  int32_dims (encoder_token_ids inputs) /\
  int32_dims (decoder_token_ids inputs) /\
  num_heads <> 0 /\
  exists logits hidden_states self_attention_cache cross_attention_cache,
    decoder_forward
      (seed_call (encoder_token_ids inputs) (encoder_padding_mask inputs)
         (decoder_token_ids inputs))
    = Ok (logits, hidden_states, self_attention_cache,
          cross_attention_cache) /\
    sampler
      (next (Z.of_nat (dim0 (encoder_token_ids inputs)))
         (encoder_forward (encoder_token_ids inputs)
            (encoder_padding_mask inputs))
         (encoder_padding_mask inputs) cross_attention_cache)
      (decoder_token_ids inputs) self_attention_cache
      (start_index (decoder_padding_mask inputs))
      (decoder_padding_mask inputs) e hidden_states
      (h ++ [EncoderPass (encoder_token_ids inputs)
               (encoder_padding_mask inputs);
             DecoderPass
               (seed_call (encoder_token_ids inputs)
                  (encoder_padding_mask inputs) (decoder_token_ids inputs))])
    = Ok (out_decoder_token_ids out, h').
Proof.
  intros Hgen.
  apply generate_step_Ok in Hgen
    as (bs & d & hs & ehs & sc & cc & hb & Hshape & Hb & Hsam & _).
  pose proof (shape_Ok_dims _ _ Hshape) as He.
  apply shape_Ok in Hshape as [-> _].
  assert (Hinit : exists r,
             _initialize_cache (encoder_token_ids inputs)
               (decoder_token_ids inputs) = Ok r).
  { unfold _build_cache in Hb.
    apply bind_Ok in Hb as (x & h1 & _ & Hb).
    apply bind_Ok in Hb as (r & h2 & Hi & _).
    apply lift_Ok in Hi as [Hi _]. now exists r. }
  destruct Hinit as [r Hinit].
  apply initialize_cache_Ok in Hinit as (_ & Hd & Hh).
  rewrite build_cache_run in Hb by assumption.
  destruct (decoder_forward _) as [[[[lg hs0] sc0] cc0]|x] eqn:Hf;
    [|discriminate].
  inversion Hb; subst; clear Hb.
  split; [exact He|]. split; [exact Hd|]. split; [exact Hh|].
  now exists lg, hs, sc, cc.
Qed.

End SeedingFacts.

(** The caches of [Symbolic.demo_inputs]: four heads of dimension two. *)
Lemma initialize_cache_outcome_witness :
  @_initialize_cache Symbolic.bart
    (encoder_token_ids Symbolic.demo_inputs)
    (decoder_token_ids Symbolic.demo_inputs)
  = Ok (Symbolic.Zeros [2; 2; 2; 5; 4; 2], Symbolic.Zeros [2; 2; 2; 3; 4; 2]).
Proof.
  apply (proj1
           (proj1
              (@initialize_cache_outcome Symbolic.bart
                 (encoder_token_ids Symbolic.demo_inputs)
                 (decoder_token_ids Symbolic.demo_inputs))
              eq_refl ltac:(discriminate))).
  split; split; vm_compute; discriminate.
Defined.

Lemma generate_step_seeds_then_samples_witness :
  int32_dims (encoder_token_ids Symbolic.demo_inputs) /\
  int32_dims (decoder_token_ids Symbolic.demo_inputs) /\
  @num_heads Symbolic.bart <> 0.
Proof.
  destruct (@generate_step_seeds_then_samples Symbolic.bart
              (spec_sampler Symbolic.pick7) Symbolic.demo_inputs (Some 7) []
              Symbolic.demo_outputs Symbolic.demo_history)
    as (He & Hd & Hh & _).
  - vm_compute. reflexivity.
  - exact (conj He (conj Hd Hh)).
Defined.

(** ** The starting index and the output mask on right-padded prompts *)

Section KnownPrefix.
Context {B : Backbone}.

Lemma monotonic_tail b r : monotonic (b :: r) -> monotonic r.
Proof. intros H p q Hpq Hp Hq. apply (H (S p) (S q)); [lia|exact Hp|exact Hq]. Qed.

(** In a right-padded mask row the [true] entries come first. *)
Lemma monotonic_prefix r : forall p : nat,
  monotonic r -> Z.of_nat p < count_true r -> r !! p = Some true.
Proof.
  induction r as [|b r IH]; intros p Hmono Hp.
  - unfold count_true in Hp. cbn in Hp. lia.
  - rewrite count_true_cons in Hp. destruct b.
    + destruct p as [|p]; [reflexivity|]. cbn. apply IH.
      * eapply monotonic_tail. exact Hmono.
      * lia.
    + assert (Hz : count_true r = 0).
      { apply count_true_zero. intros q Hq.
        apply (Hmono 0%nat (S q)); [lia|reflexivity|exact Hq]. }
      lia.
Qed.

(** X5.  On a batch of right-padded prompts the starting index lies
    inside the known prefix of every row: every position before it holds
    a token the caller supplied, in every row. *)
Theorem start_index_known_prefix (mask : Tensor2 bool) (i p : nat) :
  wf mask ->
  Z.of_nat (dim1 mask) <= Int32.max_signed ->
  Forall monotonic (rows mask) ->
  (i < dim0 mask)%nat ->
  Z.of_nat p < start_index mask ->
  entry mask i p = Some true.
Proof.
  intros Hwf Hmax Hmono Hi Hp. unfold dim0 in Hi.
  destruct (lookup_lt_is_Some_2 (rows mask) i Hi) as [r Hr].
  unfold entry. rewrite Hr. apply monotonic_prefix.
  - rewrite Forall_forall in Hmono. apply Hmono.
    eapply list_elem_of_lookup_2. exact Hr.
  - unfold start_index in Hp. rewrite row_lengths_counts in Hp by assumption.
    assert (Hle : Tf.reduce_min (map count_true (rows mask)) <= count_true r).
    { apply reduce_min_le, in_map, list_elem_of_In.
      eapply list_elem_of_lookup_2. exact Hr. }
    lia.
Qed.

(** X6.  On right-padded prompts the padding mask [generate_step]
    returns never invalidates a token the caller supplied: a position
    that is [true] in the mask of the inputs is [true] in the mask of the
    result. *)
Theorem generate_step_keeps_known_tokens
    (sampler : Sampler) inputs e h out h' (i p : nat) :
  generate_step sampler inputs e h = Ok (out, h') ->
  wf (decoder_padding_mask inputs) ->
  wf (out_decoder_token_ids out) ->
  same_shape (out_decoder_token_ids out) (decoder_padding_mask inputs) = true ->
  Z.of_nat (dim1 (decoder_padding_mask inputs)) <= Int32.max_signed ->
  Forall monotonic (rows (decoder_padding_mask inputs)) ->
  entry (decoder_padding_mask inputs) i p = Some true ->
  entry (out_decoder_padding_mask out) i p = Some true.
Proof.
  intros Hgen Hwfm Hwfi Hshape Hmax Hmono Hp.
  apply generate_step_Ok in Hgen
    as (bs & d & hs & ehs & sc & cc & h1 & _ & _ & _ & Hout).
  set (ids := out_decoder_token_ids out) in *.
  set (mask := decoder_padding_mask inputs) in *.
  unfold same_shape in Hshape. apply andb_true_iff in Hshape as [Hd0 Hd1].
  apply Nat.eqb_eq in Hd0, Hd1.
  unfold entry in Hp.
  destruct (rows mask !! i) as [m|] eqn:Hm; [|discriminate].
  assert (Hi : (i < length (rows ids))%nat).
  { fold (dim0 ids). rewrite Hd0. unfold dim0.
    now apply lookup_lt_Some in Hm. }
  destruct (lookup_lt_is_Some_2 (rows ids) i Hi) as [r Hr].
  assert (Hlr : length r = dim1 ids) by (eapply wf_row; eassumption).
  assert (Hlm : length m = dim1 mask) by (eapply wf_row; eassumption).
  assert (Hpl : (p < dim1 mask)%nat).
  { rewrite <- Hlm. now apply lookup_lt_Some in Hp. }
  destruct e as [e|].
  - apply output_rows in Hout as (_ & _ & Hrows).
    unfold entry. rewrite Hrows.
    rewrite (proj2 (lookup_zip_with_Some (out_row e) (rows ids) (rows mask)
                      i (out_row e r m))); [|now exists r, m].
    assert (Hlen : length (end_row e r m) = dim1 mask).
    { rewrite length_end_row. lia. }
    apply out_row_true; [lia|lia|].
    intros q Hq [_ Hfalse].
    rewrite Forall_forall in Hmono.
    apply (Hmono m (list_elem_of_lookup_2 _ _ _ Hm) q p Hq Hfalse Hp).
  - cbn in Hout. inversion Hout as [Hout']. unfold entry, Tf.ones_like_bool.
    cbn [rows map2d].
    change (map ?f ?l) with (f <$> l). rewrite list_lookup_fmap, Hr. cbn.
    change (map ?f r) with (f <$> r). rewrite list_lookup_fmap.
    destruct (lookup_lt_is_Some_2 r p) as [t ->]; [lia|]. reflexivity.
Qed.

End KnownPrefix.

Lemma start_index_known_prefix_witness :
  entry (decoder_padding_mask Symbolic.demo_inputs) 1 1 = Some true.
Proof.
  apply (start_index_known_prefix
           (decoder_padding_mask Symbolic.demo_inputs) 1 1).
  - repeat constructor.
  - vm_compute. discriminate.
  - repeat constructor;
      intros [|[|[|[|[|p]]]]] [|[|[|[|[|q]]]]] Hpq Hp Hq;
      try discriminate Hp; try discriminate Hq; try lia.
  - cbn. lia.
  - vm_compute. reflexivity.
Defined.

Lemma generate_step_keeps_known_tokens_witness :
  entry (out_decoder_padding_mask Symbolic.demo_outputs) 1 3 = Some true.
Proof.
  apply (@generate_step_keeps_known_tokens Symbolic.bart
           (spec_sampler Symbolic.pick7) Symbolic.demo_inputs (Some 7) []
           Symbolic.demo_outputs Symbolic.demo_history 1 3).
  - vm_compute. reflexivity.
  - repeat constructor.
  - repeat constructor.
  - reflexivity.
  - vm_compute. discriminate.
  - repeat constructor;
      intros [|[|[|[|[|p]]]]] [|[|[|[|[|q]]]]] Hpq Hp Hq;
      try discriminate Hp; try discriminate Hq; try lia.
  - reflexivity.
Defined.

(** ** [repeat_tensor] on a widened batch *)

Section RepeatTensor.
Context {B : Backbone}.

Lemma lookup_concat_replicate {A} (k : nat) (l : list A) : forall j : nat,
  (0 < k)%nat ->
  concat (map (replicate k) l) !! j = l !! (j / k)%nat.
Proof.
  induction l as [|x l IH]; intros j Hk; cbn [map concat].
  - now rewrite !lookup_nil.
  - destruct (Nat.lt_ge_cases j k) as [Hlt|Hge].
    + rewrite lookup_app_l by (now rewrite length_replicate).
      rewrite Nat.div_small by assumption.
      now rewrite lookup_replicate_2.
    + rewrite lookup_app_r by (now rewrite length_replicate).
      rewrite length_replicate, IH by assumption.
      replace (j / k)%nat with (S ((j - k) / k)).
      * reflexivity.
      * replace j with ((j - k) + 1 * k)%nat at 2 by lia.
        rewrite Nat.div_add by lia. lia.
Qed.

Lemma length_concat_replicate {A} (k : nat) (l : list A) :
  length (concat (map (replicate k) l)) = (k * length l)%nat.
Proof.
  induction l as [|x l IH]; cbn [map concat length]; [lia|].
  rewrite length_app, length_replicate, IH. lia.
Qed.

(** X7.  When the sampler has widened the batch of [b] rows to [k * b]
    candidates, [repeat_tensor] turns the encoder padding mask into one
    of [k * b] rows in which every row of the mask stands [k] times in a
    row: candidate [j] gets the mask of row [j / k]. *)
Theorem repeat_tensor_mask_rows (m : Tensor2 bool) (k : nat) :
  (0 < k)%nat -> (0 < dim0 m)%nat ->
  Z.of_nat (k * dim0 m) <= Int32.max_signed ->
  Z.of_nat (dim1 m) <= Int32.max_signed ->
  exists m',
    repeat_tensor_mask (Z.of_nat (k * dim0 m)) (Z.of_nat (dim0 m)) m = Ok m' /\
    dim0 m' = (k * dim0 m)%nat /\ dim1 m' = dim1 m /\
    forall j : nat, rows m' !! j = rows m !! (j / k)%nat.
Proof.
  intros Hk Hb Hn Hd. unfold repeat_tensor_mask.
  rewrite shape_fits by (try assumption; nia). cbn [rbind].
  destruct (Z.eqb_spec (Z.of_nat (dim0 m)) (Z.of_nat (k * dim0 m))) as [Heq|Hne].
  - assert (k = 1)%nat as -> by nia.
    exists m. repeat split; [lia|]. intros j. now rewrite Nat.div_1_r.
  - unfold Tf.floordiv.
    assert (Hz : (Z.of_nat (dim0 m) =? 0) = false) by (apply Z.eqb_neq; lia).
    rewrite Hz. cbn [rbind].
    assert (Hdiv : Z.of_nat (k * dim0 m) / Z.of_nat (dim0 m) = Z.of_nat k).
    { rewrite Nat2Z.inj_mul. apply Z.div_mul. lia. }
    rewrite Hdiv.
    rewrite Int32_wrap_small
      by (unfold Int32.in_range, Int32.min_signed; nia).
    unfold Tf.repeat0.
    assert (Hk0 : (0 <=? Z.of_nat k) = true) by (apply Z.leb_le; lia).
    rewrite Hk0, Nat2Z.id. eexists. split; [reflexivity|].
    unfold dim0. cbn [rows dim1]. rewrite length_concat_replicate.
    repeat split. intros j. now apply lookup_concat_replicate.
Qed.

End RepeatTensor.

(** Two beams for each of the two rows of [Symbolic.demo_inputs]. *)
Lemma repeat_tensor_mask_rows_witness :
  exists m',
    repeat_tensor_mask 4 2 (encoder_padding_mask Symbolic.demo_inputs)
    = Ok m' /\
    dim0 m' = 4%nat /\
    dim1 m' = 3%nat /\
    forall j : nat,
      rows m' !! j
      = rows (encoder_padding_mask Symbolic.demo_inputs) !! (j / 2)%nat.
Proof.
  apply (repeat_tensor_mask_rows
           (encoder_padding_mask Symbolic.demo_inputs) 2).
  - lia.
  - cbn. lia.
  - vm_compute. discriminate.
  - vm_compute. discriminate.
Defined.

(** ** The function built after [compile] *)

Section LifecycleMore.
Import Lifecycle.
Context {SamplerArg SamplerObj TrainingArgs : Type}.
Context (get_sampler : SamplerArg -> SamplerObj).
Context (is_xla_compatible has_jit_compile : bool).

(** X8.  After [compile], [make_generate_function] returns the plain
    [generate_step] when the model runs eagerly and a [tf.function]
    otherwise; the [tf.function] is XLA-compiled exactly when that was
    requested and the environment is XLA compatible, or in any case when
    [keras.Model] has no [jit_compile] attribute to read.  The stored
    [jit_compile] is never true for a model that runs eagerly or in an
    environment that is not XLA compatible. *)
Theorem make_generate_function_after_compile
    (a : @CompileArgs SamplerArg TrainingArgs)
    (m : @Model SamplerObj TrainingArgs) :
  fst (make_generate_function
         (compile get_sampler is_xla_compatible has_jit_compile a m))
  = (if ca_run_eagerly a then BoundGenerateStep
     else TfFunction
            (if has_jit_compile
             then ca_jit_compile a && is_xla_compatible
             else true) None)
  /\
  (jit_compile (compile get_sampler is_xla_compatible has_jit_compile a m)
   = Some true ->
   run_eagerly (compile get_sampler is_xla_compatible has_jit_compile a m)
   = false /\ is_xla_compatible = true /\ ca_jit_compile a = true).
Proof.
  split.
  - unfold make_generate_function, build_generate_function, compile,
      super_compile. cbn.
    destruct (ca_run_eagerly a); [reflexivity|].
    destruct has_jit_compile; [|reflexivity].
    now rewrite andb_true_r.
  - unfold compile, super_compile. cbn.
    destruct has_jit_compile; [|discriminate].
    destruct (ca_jit_compile a), is_xla_compatible, (ca_run_eagerly a);
      cbn; intros H; try discriminate H; auto.
Qed.

End LifecycleMore.

Lemma make_generate_function_after_compile_witness :
  Lifecycle.run_eagerly
    (Lifecycle.compile (fun name : string => name) true true
       {| Lifecycle.ca_args := tt; Lifecycle.ca_run_eagerly := false;
          Lifecycle.ca_jit_compile := true;
          Lifecycle.ca_sampler := "top_k"%string |}
       (Lifecycle.init (fun name : string => name) true true tt
          "greedy"%string))
  = false.
Proof.
  apply (make_generate_function_after_compile (fun name : string => name)
           true true
           {| Lifecycle.ca_args := tt; Lifecycle.ca_run_eagerly := false;
              Lifecycle.ca_jit_compile := true;
              Lifecycle.ca_sampler := "top_k"%string |}
           (Lifecycle.init (fun name : string => name) true true tt
              "greedy"%string)).
  reflexivity.
Defined.

(** ** More on the normalisation of inputs and outputs *)

Section NormalizeMore.
Import Py.




(** X10.  [generate] on an empty dataset raises [IndexError], with or
    without a preprocessor: there is no first output to look at. *)
Theorem generate_empty_dataset preprocessor gf max_length :
  generate preprocessor gf (PyDataset []) max_length = Raise IndexError.
Proof. destruct preprocessor; reflexivity. Qed.

(** [generate] when every batch goes through the three passes. *)
Lemma sequence_passes {A C D E} (f : A -> Result C) (g : C -> Result D)
    (h : D -> Result E) bs outs :
  Forall2 (fun b out => rbind (f b) (fun x => rbind (g x) h) = Ok out)
    bs outs ->
  exists xs ys,
    sequence (map f bs) = Ok xs /\ sequence (map g xs) = Ok ys /\
    sequence (map h ys) = Ok outs.
Proof.
  induction 1 as [|b out bs outs Hb _ (xs & ys & Hx & Hy & Hz)].
  - now exists [], [].
  - apply rbind_Ok in Hb as (x & Hfx & Hb).
    apply rbind_Ok in Hb as (y & Hgy & Hhy).
    exists (x :: xs), (y :: ys). cbn [map sequence].
    now rewrite Hfx, Hx, Hgy, Hy, Hhy, Hz.
Qed.

Lemma sequence_map_Ok {A C} (f : A -> Result C) bs outs :
  Forall2 (fun b out => f b = Ok out) bs outs ->
  sequence (map f bs) = Ok outs.
Proof.
  induction 1 as [|b out bs outs Hb _ IH]; [reflexivity|].
  cbn [map sequence]. now rewrite Hb, IH.
Qed.

Lemma sequence_map_id {A} (l : list A) :
  sequence (map (fun x => Ok x) l) = Ok l.
Proof. induction l as [|x l IH]; [reflexivity|]. cbn. now rewrite IH. Qed.

Lemma generate_batches preprocessor gf inputs max_length inp flag bs outs :
  _normalize_generate_inputs inputs = Ok (inp, flag) ->
  batches_of inp = Ok bs ->
  Forall2 (fun b out => passes preprocessor gf max_length b = Ok out)
    bs outs ->
  generate preprocessor gf inputs max_length
  = _normalize_generate_outputs outs flag.
Proof.
  intros Hn Hb Hall. unfold generate. rewrite Hn. cbn [rbind].
  rewrite Hb. cbn [rbind]. destruct preprocessor as [p|].
  - unfold passes in Hall.
    destruct (sequence_passes _ _ _ _ _ Hall) as (xs & ys & Hx & Hy & Hz).
    replace (sequence (map (fun x => generate_preprocess p x max_length) bs))
      with (Ok (A:=list PyValue) xs) by (symmetry; exact Hx).
    cbn [rbind].
    replace (sequence
               (map (fun x => gf x (tokenizer_end_token_id p)) xs))
      with (Ok (A:=list PyValue) ys) by (symmetry; exact Hy).
    cbn [rbind].
    replace (sequence (map (fun x => generate_postprocess p x) ys))
      with (Ok (A:=list PyValue) outs) by (symmetry; exact Hz).
    reflexivity.
  - unfold passes in Hall. rewrite sequence_map_id. cbn [rbind].
    rewrite (sequence_map_Ok _ _ _ Hall). cbn [rbind].
    now rewrite sequence_map_id.
Qed.

(** Several batches of one dtype and of the same dimensions behind the
    batch axis are joined along the batch axis; a batch of other
    dimensions makes [tf.concat] raise. *)
Lemma dtype_eqb_refl dt : dtype_eqb dt dt = true.
Proof. destruct dt; reflexivity. Qed.

Lemma dims_eqb_eq a b : dims_eqb a b = true <-> a = b.
Proof.
  revert b. induction a as [|x a IH]; intros [|y b]; cbn [dims_eqb].
  - tauto.
  - split; discriminate.
  - split; discriminate.
  - rewrite andb_true_iff, Nat.eqb_eq, IH. split.
    + intros [-> ->]. reflexivity.
    + intros H. inversion H. tauto.
Qed.

Lemma rows_like_batched dt xs zs :
  row_dims zs = row_dims xs ->
  rows_like (batched dt xs) (batched dt zs) = Ok zs.
Proof.
  intros H. unfold rows_like, inner_dims, batched. cbn [data dtype].
  rewrite dtype_eqb_refl. cbn [andb]. unfold row_dims in H.
  now rewrite (proj2 (dims_eqb_eq _ _) H).
Qed.

Lemma rows_like_other_dims dt xs zs :
  row_dims zs <> row_dims xs ->
  rows_like (batched dt xs) (batched dt zs) = Raise InvalidArgumentError.
Proof.
  intros H. unfold rows_like, inner_dims, batched. cbn [data dtype].
  rewrite dtype_eqb_refl. cbn [andb]. unfold row_dims in H.
  destruct (dims_eqb _ _) eqn:E; [|reflexivity].
  apply dims_eqb_eq in E. contradiction.
Qed.

Lemma rows_like_cases t u :
  (exists l, rows_like t u = Ok l) \/
  rows_like t u = Raise InvalidArgumentError.
Proof.
  unfold rows_like. destruct (data u) as [a|l]; [now right|].
  destruct (_ && _); [left; now exists l|now right].
Qed.

Lemma sequence_rows_like dt xs xss :
  Forall (fun zs => row_dims zs = row_dims xs) xss ->
  sequence (map (rows_like (batched dt xs)) (map (batched dt) xss)) = Ok xss.
Proof.
  induction 1 as [|zs xss Hz _ IH]; [reflexivity|]. cbn [map sequence].
  now rewrite (rows_like_batched dt xs zs Hz), IH.
Qed.

Lemma sequence_rows_like_raise dt xs xss :
  Exists (fun zs => row_dims zs <> row_dims xs) xss ->
  sequence (map (rows_like (batched dt xs)) (map (batched dt) xss))
  = Raise InvalidArgumentError.
Proof.
  induction 1 as [zs xss Hz|zs xss _ IH]; cbn [map sequence].
  - now rewrite (rows_like_other_dims dt xs zs Hz).
  - rewrite IH.
    destruct (rows_like_cases (batched dt xs) (batched dt zs)) as [[l ->]| ->];
      reflexivity.
Qed.

Lemma concat0_batched dt xs xss :
  Forall (fun zs => row_dims zs = row_dims xs) xss ->
  concat0 (map (batched dt) (xs :: xss)) = Ok (batched dt (concat (xs :: xss))).
Proof.
  intros Hall. destruct xss as [|ys xss].
  - cbn. now rewrite app_nil_r.
  - change (concat0 (map (batched dt) (xs :: ys :: xss)))
      with (rbind
              (sequence
                 (map (rows_like (batched dt xs))
                    (map (batched dt) (xs :: ys :: xss))))
              (fun ls => Ok {| dtype := dt; data := Arr (concat ls) |})).
    rewrite sequence_rows_like; [reflexivity|].
    constructor; [reflexivity|exact Hall].
Qed.

Lemma concat0_other_dims dt xs xss :
  Exists (fun zs => row_dims zs <> row_dims xs) xss ->
  concat0 (map (batched dt) (xs :: xss)) = Raise InvalidArgumentError.
Proof.
  intros Hex. destruct xss as [|ys xss]; [inversion Hex|].
  change (concat0 (map (batched dt) (xs :: ys :: xss)))
    with (rbind
            (sequence
               (map (rows_like (batched dt xs))
                  (map (batched dt) (xs :: ys :: xss))))
            (fun ls => Ok {| dtype := dt; data := Arr (concat ls) |})).
  rewrite sequence_rows_like_raise; [reflexivity|].
  apply Exists_cons_tl. exact Hex.
Qed.

Lemma sequence_as_tensor dt xss :
  sequence (map as_tensor (map (fun xs => PyTensor (batched dt xs)) xss))
  = Ok (map (batched dt) xss).
Proof.
  induction xss as [|xs xss IH]; [reflexivity|].
  cbn [map sequence as_tensor rbind]. now rewrite IH.
Qed.

Lemma normalize_output_batched flag dt xs xss :
  Forall (fun zs => row_dims zs = row_dims xs) xss ->
  normalize_output flag (map (fun xs => PyTensor (batched dt xs)) (xs :: xss))
  = rbind (if flag then squeeze0 (batched dt (concat (xs :: xss)))
           else Ok (batched dt (concat (xs :: xss))))
      (fun x => Ok (to_python x)).
Proof.
  intros Hall. unfold normalize_output.
  rewrite sequence_as_tensor. cbn [rbind].
  rewrite concat0_batched by assumption.
  cbn [rbind]. destruct flag; [|reflexivity].
  destruct (squeeze0 _); reflexivity.
Qed.

Lemma normalize_output_other_dims flag dt xs xss :
  Exists (fun zs => row_dims zs <> row_dims xs) xss ->
  normalize_output flag (map (fun xs => PyTensor (batched dt xs)) (xs :: xss))
  = Raise InvalidArgumentError.
Proof.
  intros Hex. unfold normalize_output.
  rewrite sequence_as_tensor. cbn [rbind].
  now rewrite concat0_other_dims by assumption.
Qed.

(** X11.  [generate] on a dataset whose batches come back with the
    same dimensions behind the batch axis returns the outputs of the
    batches joined along the batch axis, in the order of the batches, and
    removes no axis; when a batch comes back with other dimensions than
    the first, [generate] raises [InvalidArgumentError] from
    [tf.concat]. *)
Theorem generate_dataset_concatenates
    preprocessor gf max_length bs dt xs xss :
  Forall2 (fun b zs =>
             passes preprocessor gf max_length b
             = Ok (PyTensor (batched dt zs))) bs (xs :: xss) ->
  (Forall (fun zs => row_dims zs = row_dims xs) xss ->
   generate preprocessor gf (PyDataset bs) max_length
   = Ok (to_python (batched dt (concat (xs :: xss)))))
  /\
  (Exists (fun zs => row_dims zs <> row_dims xs) xss ->
   generate preprocessor gf (PyDataset bs) max_length
   = Raise InvalidArgumentError).
Proof.
  intros Hall.
  assert (Hall' : Forall2 (fun b out =>
                             passes preprocessor gf max_length b = Ok out)
                    bs (map (fun zs => PyTensor (batched dt zs)) (xs :: xss))).
  { induction Hall; constructor; assumption. }
  rewrite (generate_batches preprocessor gf (PyDataset bs) max_length
             (PyDataset bs) false bs _ eq_refl eq_refl Hall').
  change (_normalize_generate_outputs
            (map (fun zs => PyTensor (batched dt zs)) (xs :: xss)) false)
    with (normalize_output false
            (map (fun zs => PyTensor (batched dt zs)) (xs :: xss))).
  split; intros H.
  - now rewrite normalize_output_batched by assumption.
  - now apply normalize_output_other_dims.
Qed.

(** X12.  A single example whose batch of one does not come back as a
    batch of one is an error: [generate] raises [InvalidArgumentError]
    from the squeeze instead of returning a batch. *)
Theorem generate_scalar_batch_mismatch
    preprocessor gf max_length (x : ScalarInput) dt xs :
  passes preprocessor gf max_length (with_batch_axis x)
  = Ok (PyTensor (batched dt xs)) ->
  length xs <> 1%nat ->
  generate preprocessor gf (scalar_value x) max_length
  = Raise InvalidArgumentError.
Proof.
  intros Hp Hlen.
  rewrite (generate_single_batch _ _ _ _ _ _ _ (normalize_scalar_input x) Hp).
  destruct xs as [|d [|d' xs]]; [reflexivity|cbn in Hlen; lia|reflexivity].
Qed.

(** X13.  When the batches come back as dictionaries whose token ids
    agree on the dimensions behind the batch axis, and whose masks do,
    the result is a dictionary of exactly [decoder_token_ids] and
    [decoder_padding_mask]: each is the join, along the batch axis and in
    the order of the batches, of the values under that key, and any other
    key of the outputs is dropped.  When the token ids of a batch have
    other dimensions than those of the first, such as another sequence
    length, the result is [InvalidArgumentError]. *)
Theorem normalize_dict_outputs outputs dti dtm ids mask
    (cols : list (list Nd * list Nd)) :
  Forall2 (fun o col => has_ids_and_mask o dti dtm (fst col) (snd col))
    outputs ((ids, mask) :: cols) ->
  (Forall (fun col => row_dims (fst col) = row_dims ids /\
                      row_dims (snd col) = row_dims mask) cols ->
   _normalize_generate_outputs outputs false
   = Ok (PyDict
           [("decoder_token_ids"%string,
             to_python (batched dti (concat (ids :: map fst cols))));
            ("decoder_padding_mask"%string,
             to_python (batched dtm (concat (mask :: map snd cols))))]))
  /\
  (Exists (fun col => row_dims (fst col) <> row_dims ids) cols ->
   _normalize_generate_outputs outputs false = Raise InvalidArgumentError).
Proof.
  intros Hall.
  assert (Hids : sequence (map (getitem "decoder_token_ids") outputs)
                 = Ok (map (fun xs => PyTensor (batched dti xs))
                         (map fst ((ids, mask) :: cols)))).
  { induction Hall as [|o col os cs [Hi _] _ IH]; [reflexivity|].
    cbn [map sequence]. now rewrite Hi, IH. }
  assert (Hmask : sequence (map (getitem "decoder_padding_mask") outputs)
                  = Ok (map (fun xs => PyTensor (batched dtm xs))
                          (map snd ((ids, mask) :: cols)))).
  { clear Hids. induction Hall as [|o col os cs [_ Hm] _ IH]; [reflexivity|].
    cbn [map sequence]. now rewrite Hm, IH. }
  change (map fst ((ids, mask) :: cols)) with (ids :: map fst cols) in Hids.
  change (map snd ((ids, mask) :: cols)) with (mask :: map snd cols) in Hmask.
  inversion Hall as [|o col os cs [Hi Hm] Hrest]; subst.
  destruct o as [| | | | |items|]; try discriminate Hi.
  unfold _normalize_generate_outputs.
  rewrite Hids. cbn [rbind]. split; intros H.
  - rewrite normalize_output_batched.
    2:{ rewrite Forall_forall in H. rewrite Forall_forall. intros zs Hz.
        apply list_elem_of_In, in_map_iff in Hz as (col & <- & Hc).
        apply list_elem_of_In in Hc. now destruct (H col Hc). }
    cbn [rbind]. rewrite Hmask. cbn [rbind].
    rewrite normalize_output_batched; [reflexivity|].
    rewrite Forall_forall in H. rewrite Forall_forall. intros zs Hz.
    apply list_elem_of_In, in_map_iff in Hz as (col & <- & Hc).
    apply list_elem_of_In in Hc. now destruct (H col Hc).
  - rewrite normalize_output_other_dims; [reflexivity|].
    apply Exists_exists in H as (col & Hc & Hd). apply Exists_exists.
    exists (fst col). split; [|exact Hd].
    apply list_elem_of_In. apply in_map. now apply list_elem_of_In.
Qed.

(** X14.  Normalising an input value twice adds no second axis: the
    value [normalize] returns is left as it is by [normalize], and is not
    flagged as a single example. *)
Theorem normalize_input_idempotent x v flag :
  normalize_input x = Ok (v, flag) -> normalize_input v = Ok (v, false).
Proof.
  intros H. destruct x as [s|z|xs|t|t|items|bs].
  - cbn in H. inversion H; subst. reflexivity.
  - cbn in H. inversion H; subst. reflexivity.
  - rewrite normalize_input_list in H.
    destruct (convert_to_tensor (PyList xs)) as [t|] eqn:Hc; [|discriminate].
    inversion H; subst. cbn [convert_to_tensor] in Hc.
    apply rbind_Ok in Hc as (ts & _ & Hp). apply pack_Arr in Hp as [ys Hy].
    unfold normalize_input. cbn [rbind]. now rewrite Hy.
  - unfold normalize_input in H. cbn [rbind] in H.
    destruct (data t) as [a|ys] eqn:Hd; inversion H; subst.
    + reflexivity.
    + unfold normalize_input. cbn [rbind]. now rewrite Hd.
  - cbn in H. inversion H; subst. reflexivity.
  - cbn in H. inversion H; subst. reflexivity.
  - cbn in H. inversion H; subst. reflexivity.
Qed.

(** X15.  [generate] calls the generate function with one end token
    only, the one of the preprocessor's tokenizer, or none when no
    preprocessor is attached: two generate functions that agree on that
    end token give the same result. *)
Theorem generate_end_token preprocessor gf gf' inputs max_length :
  (forall x, gf x (end_token_of preprocessor)
             = gf' x (end_token_of preprocessor)) ->
  generate preprocessor gf inputs max_length
  = generate preprocessor gf' inputs max_length.
Proof.
  intros Hext. unfold generate.
  destruct (_normalize_generate_inputs inputs) as [[inp flag]|]; [|reflexivity].
  cbn [rbind]. destruct (batches_of inp) as [bs|]; [|reflexivity].
  cbn [rbind]. destruct preprocessor as [p|]; cbn [end_token_of] in Hext.
  - destruct (sequence (map _ bs)) as [xs|]; [|reflexivity].
    cbn [rbind]. now rewrite (map_ext _ _ Hext).
  - destruct (sequence (map _ bs)) as [xs|]; [|reflexivity].
    cbn [rbind]. now rewrite (map_ext _ _ Hext).
Qed.

End NormalizeMore.


(** A dataset of a batch of one and a batch of two. *)
Lemma generate_dataset_concatenates_witness :
  Py.generate (Some Symbolic.identity_preprocessor) (fun x _ => Ok x)
    (Py.PyDataset
       [Py.PyTensor (Py.batched Py.tf_string [Py.Sc (Py.AStr "fox")]);
        Py.PyTensor
          (Py.batched Py.tf_string
             [Py.Sc (Py.AStr "dog"); Py.Sc (Py.AStr "cat")])]) None
  = Ok (Py.PyList [Py.PyStr "fox"; Py.PyStr "dog"; Py.PyStr "cat"]).
Proof.
  apply (proj1
           (generate_dataset_concatenates
              (Some Symbolic.identity_preprocessor) (fun x _ => Ok x) None
              [Py.PyTensor (Py.batched Py.tf_string [Py.Sc (Py.AStr "fox")]);
               Py.PyTensor
                 (Py.batched Py.tf_string
                    [Py.Sc (Py.AStr "dog"); Py.Sc (Py.AStr "cat")])]
              Py.tf_string
              [Py.Sc (Py.AStr "fox")]
              [[Py.Sc (Py.AStr "dog"); Py.Sc (Py.AStr "cat")]]
              ltac:(repeat constructor))).
  repeat constructor.
Defined.

(** Two batches of token ids of sequence lengths 2 and 3. *)
Example generate_dataset_other_length :
  Py.generate None (fun x _ => Ok x)
    (Py.PyDataset
       [Py.PyTensor
          (Py.batched Py.tf_int32 [Py.Arr [Py.Sc (Py.AInt 1); Py.Sc (Py.AInt 2)]]);
        Py.PyTensor
          (Py.batched Py.tf_int32
             [Py.Arr [Py.Sc (Py.AInt 3); Py.Sc (Py.AInt 4);
                      Py.Sc (Py.AInt 5)]])]) None
  = Raise InvalidArgumentError.
Proof. reflexivity. Qed.

(** A generate function that answers every batch with two rows. *)
Lemma generate_scalar_batch_mismatch_witness :
  Py.generate None
    (fun _ _ =>
       Ok (Py.PyTensor
             (Py.batched Py.tf_int32 [Py.Sc (Py.AInt 1); Py.Sc (Py.AInt 2)])))
    (Py.PyStr "fox") None
  = Raise InvalidArgumentError.
Proof.
  apply (generate_scalar_batch_mismatch None
           (fun _ _ =>
              Ok (Py.PyTensor
                    (Py.batched Py.tf_int32
                       [Py.Sc (Py.AInt 1); Py.Sc (Py.AInt 2)])))
           None (Py.SStr "fox") Py.tf_int32
           [Py.Sc (Py.AInt 1); Py.Sc (Py.AInt 2)]).
  - reflexivity.
  - cbn. lia.
Defined.

(** Two batch outputs with a key the result does not keep. *)
Lemma normalize_dict_outputs_witness :
  Py._normalize_generate_outputs
    [Py.PyDict
       [("decoder_token_ids"%string,
         Py.PyTensor (Py.batched Py.tf_int32 [Py.Arr [Py.Sc (Py.AInt 5)]]));
        ("scores"%string, Py.PyInt 0);
        ("decoder_padding_mask"%string,
         Py.PyTensor (Py.batched Py.tf_bool [Py.Arr [Py.Sc (Py.ABool true)]]))];
     Py.PyDict
       [("decoder_token_ids"%string,
         Py.PyTensor (Py.batched Py.tf_int32 [Py.Arr [Py.Sc (Py.AInt 6)]]));
        ("decoder_padding_mask"%string,
         Py.PyTensor
           (Py.batched Py.tf_bool [Py.Arr [Py.Sc (Py.ABool false)]]))]]
    false
  = Ok (Py.PyDict
          [("decoder_token_ids"%string,
            Py.PyNumpy
              (Py.batched Py.tf_int32
                 [Py.Arr [Py.Sc (Py.AInt 5)]; Py.Arr [Py.Sc (Py.AInt 6)]]));
           ("decoder_padding_mask"%string,
            Py.PyNumpy
              (Py.batched Py.tf_bool
                 [Py.Arr [Py.Sc (Py.ABool true)];
                  Py.Arr [Py.Sc (Py.ABool false)]]))]).
Proof.
  refine (proj1
            (normalize_dict_outputs _ Py.tf_int32 Py.tf_bool
               [Py.Arr [Py.Sc (Py.AInt 5)]] [Py.Arr [Py.Sc (Py.ABool true)]]
               [([Py.Arr [Py.Sc (Py.AInt 6)]],
                 [Py.Arr [Py.Sc (Py.ABool false)]])] _) _).
  - repeat constructor.
  - repeat constructor.
Defined.

Lemma normalize_input_idempotent_witness :
  Py.normalize_input
    (Py.PyTensor (Py.batched Py.tf_string [Py.Sc (Py.AStr "fox")]))
  = Ok (Py.PyTensor (Py.batched Py.tf_string [Py.Sc (Py.AStr "fox")]), false).
Proof.
  apply (normalize_input_idempotent (Py.PyStr "fox") _ true).
  reflexivity.
Defined.

(** Two generate functions that differ only on end tokens other than the
    tokenizer's. *)
Lemma generate_end_token_witness :
  Py.generate (Some Symbolic.identity_preprocessor) (fun x _ => Ok x)
    (Py.PyStr "fox") None
  = Py.generate (Some Symbolic.identity_preprocessor)
      (fun x e =>
         match e with
         | Some 2 => Ok x
         | _ => Raise TypeError
         end)
      (Py.PyStr "fox") None.
Proof.
  apply (generate_end_token (Some Symbolic.identity_preprocessor)
           (fun x _ => Ok x)
           (fun x e =>
              match e with
              | Some 2 => Ok x
              | _ => Raise TypeError
              end)).
  intros x. reflexivity.
Defined.

(** ** The cache across the steps of [next] *)

Section CacheSlots.
Context {B : Backbone} {L : TfLaws B}.

Lemma decoder_forward_Ok_slots (c : DecoderCall) r :
  decoder_forward c = Ok r ->
  (num_layers <= length (tf_unstack1 (dc_self_attention_cache c)))%nat /\
  (num_layers <= length (tf_unstack1 (dc_cross_attention_cache c)))%nat.
Proof.
  intros H.
  destruct (Nat.lt_ge_cases
              (length (tf_unstack1 (dc_self_attention_cache c))) num_layers)
    as [Hs|Hs].
  { unfold decoder_forward in H.
    rewrite for_each_layers_short in H; [discriminate|lia|cbn; lia]. }
  destruct (Nat.lt_ge_cases
              (length (tf_unstack1 (dc_cross_attention_cache c))) num_layers)
    as [Hc|Hc].
  { unfold decoder_forward in H.
    rewrite for_each_layers_short in H; [discriminate|lia|cbn; lia]. }
  now split.
Qed.

(** X16.  A step of [next] keeps the layer slots of the self-attention
    cache: the cache it returns unstacks into as many slots as the cache
    it was given, so a cache that serves one step serves the next. *)
Theorem next_keeps_cache_slots
    bs ehs m cc prompt cache index h logits hidden_states cache' h' :
  (0 < num_layers)%nat ->
  next bs ehs m cc prompt cache index h
  = Ok ((logits, hidden_states, cache'), h') ->
  length (tf_unstack1 cache') = length (tf_unstack1 cache) /\
  (num_layers <= length (tf_unstack1 cache'))%nat.
Proof.
  intros Hl Hn.
  apply next_Ok in Hn
    as (w & ehs' & m' & cc' & lg & hs & c' & cco & _ & _ & _ & _ & Hf & Hr & _).
  inversion Hr; subst; clear Hr.
  destruct (decoder_forward_Ok_slots _ _ Hf) as [Hs Hc].
  destruct (decoder_forward_total _ Hs Hc)
    as (lg' & hs' & sc' & cc'' & Hf' & Hsc & _).
  rewrite Hf in Hf'. inversion Hf'; subst; clear Hf'.
  destruct (Hsc (Int32.sub index 1) eq_refl) as (l & -> & Hlen).
  cbn [step_call dc_self_attention_cache] in *.
  assert (Hne : l <> []).
  { destruct l; [cbn in Hlen; lia|discriminate]. }
  rewrite (unstack_stack l Hne). split; [exact Hlen|lia].
Qed.

End CacheSlots.

Lemma next_keeps_cache_slots_witness :
  exists logits hidden_states cache' h',
    @next Symbolic.bart 2 Symbolic.demo_encoder_hidden_states
      (encoder_padding_mask Symbolic.demo_inputs)
      Symbolic.demo_cross_attention_cache
      (decoder_token_ids Symbolic.demo_inputs) Symbolic.demo_cache 2 []
    = Ok ((logits, hidden_states, cache'), h') /\
    length (@tf_unstack1 Symbolic.bart cache') = 2%nat.
Proof.
  destruct (@next Symbolic.bart 2 Symbolic.demo_encoder_hidden_states
              (encoder_padding_mask Symbolic.demo_inputs)
              Symbolic.demo_cross_attention_cache
              (decoder_token_ids Symbolic.demo_inputs) Symbolic.demo_cache 2 [])
    as [[[[lg hs] c'] h']|e] eqn:H.
  - exists lg, hs, c', h'. split; [reflexivity|].
    destruct (@next_keeps_cache_slots Symbolic.bart (symbolic_laws 2 4 8)
                _ _ _ _ _ _ _ _ lg hs c' h' (Nat.lt_0_succ 1) H) as [Hlen _].
    exact Hlen.
  - vm_compute in H. discriminate H.
Defined.

(** ** The alphabet of the sampler tests *)

Section Alphabet.
Import SamplerTest.

Lemma int_lookup_char_lookup (i : Z) (c : Ascii.ascii) :
  getitem Z.eqb int_lookup i = Ok c <->
  getitem Ascii.eqb char_lookup c = Ok i.
Proof.
  split.
  - intros H. unfold int_lookup in H. cbn in H.
    repeat match type of H with
           | (if ?k =? i then _ else _) = _ =>
             destruct (k =? i) eqn:E;
               [apply Z.eqb_eq in E; subst i; inversion H; subst;
                reflexivity|clear E]
           end.
    discriminate H.
  - intros H. unfold char_lookup, int_lookup in H. cbn in H.
    repeat match type of H with
           | (if Ascii.eqb ?k c then _ else _) = _ =>
             destruct (Ascii.eqb k c) eqn:E;
               [apply Ascii.eqb_eq in E; subst c; inversion H; subst;
                reflexivity|clear E]
           end.
    discriminate H.
Qed.

Lemma int_lookup_range (i : Z) :
  (exists c, getitem Z.eqb int_lookup i = Ok c) <-> 0 <= i < 26.
Proof.
  split.
  - intros [c H]. unfold int_lookup in H. cbn in H.
    repeat match type of H with
           | (if ?k =? i then _ else _) = _ =>
             destruct (Z.eqb_spec k i) as [<-|_]; [lia|]
           end.
    discriminate H.
  - intros Hi.
    assert (Hc : i = 0 \/ i = 1 \/ i = 2 \/ i = 3 \/ i = 4 \/ i = 5 \/ i = 6
                 \/ i = 7 \/ i = 8 \/ i = 9 \/ i = 10 \/ i = 11 \/ i = 12
                 \/ i = 13 \/ i = 14 \/ i = 15 \/ i = 16 \/ i = 17 \/ i = 18
                 \/ i = 19 \/ i = 20 \/ i = 21 \/ i = 22 \/ i = 23 \/ i = 24
                 \/ i = 25) by lia.
    repeat (destruct Hc as [->|Hc]; [eexists; reflexivity|]).
    subst. eexists. reflexivity.
Qed.

Lemma sequence_Ok_Forall2 {A C} (f : A -> Result C) l : forall r,
  Py.sequence (map f l) = Ok r <-> Forall2 (fun a c => f a = Ok c) l r.
Proof.
  induction l as [|a l IH]; intros r; cbn [map Py.sequence].
  - split; [intros H; inversion H; constructor|intros H; now inversion H].
  - split.
    + intros H. apply rbind_Ok in H as (c & Hc & H).
      apply rbind_Ok in H as (t & Ht & H). inversion H; subst.
      constructor; [exact Hc|now apply IH].
    + intros H. inversion H as [|? c ? t Hc Ht]; subst.
      apply IH in Ht. now rewrite Hc, Ht.
Qed.

(** X17.  The two dictionaries of the sampler tests are inverse to each
    other: a string that [char_lookup] turns into ids is the string
    [join_as_string] makes of these ids, every row of ids from 0 to 25 is
    joined into a string that maps back to the row, and [join_as_string]
    raises [KeyError] on a row with an id outside the alphabet. *)
Theorem join_as_string_round_trip (s : string) (ids : list Z) :
  (to_ids s = Ok ids -> join_as_string [ids] = Ok [s])
  /\
  (Forall (fun i => 0 <= i < 26) ids ->
   exists s', join_as_string [ids] = Ok [s'] /\ to_ids s' = Ok ids)
  /\
  (Exists (fun i => ~ 0 <= i < 26) ids ->
   join_as_string [ids] = Raise KeyError).
Proof.
  split; [|split].
  - unfold to_ids, join_as_string. intros H.
    apply sequence_Ok_Forall2 in H. cbn [map Py.sequence].
    assert (Hs : Py.sequence (map (getitem Z.eqb int_lookup) ids)
                 = Ok (list_ascii_of_string s)).
    { apply sequence_Ok_Forall2. clear -H.
      induction H as [|c i cs ids0 Hc _ IH]; constructor; [|exact IH].
      now apply int_lookup_char_lookup. }
    rewrite Hs. cbn [rbind]. now rewrite string_of_list_ascii_of_string.
  - intros Hall.
    assert (Hcs : exists cs,
               Forall2 (fun i c => getitem Z.eqb int_lookup i = Ok c) ids cs).
    { induction Hall as [|i ids Hi _ [cs IH]]; [now exists []|].
      apply int_lookup_range in Hi as [c Hc]. exists (c :: cs).
      now constructor. }
    destruct Hcs as [cs Hcs]. exists (string_of_list_ascii cs). split.
    + unfold join_as_string. cbn [map Py.sequence].
      rewrite (proj2 (sequence_Ok_Forall2 _ _ _) Hcs). reflexivity.
    + unfold to_ids. rewrite list_ascii_of_string_of_list_ascii.
      apply sequence_Ok_Forall2. clear -Hcs.
      induction Hcs as [|i c ids cs Hc _ IH]; constructor; [|exact IH].
      now apply int_lookup_char_lookup.
  - intros Hex. unfold join_as_string. cbn [map Py.sequence].
    assert (Hr : Py.sequence (map (getitem Z.eqb int_lookup) ids)
                 = Raise KeyError).
    { induction Hex as [i ids Hi|i ids _ IH]; cbn [map Py.sequence].
      - destruct (getitem Z.eqb int_lookup i) as [c|e] eqn:Hc.
        + exfalso. apply Hi. apply int_lookup_range. now exists c.
        + assert (e = KeyError) as ->; [|reflexivity].
          clear -Hc. unfold int_lookup in Hc. cbn in Hc.
          repeat match type of Hc with
                 | (if ?k =? i then _ else _) = _ =>
                   destruct (k =? i); [discriminate Hc|]
                 end.
          now inversion Hc.
      - rewrite IH.
        destruct (getitem Z.eqb int_lookup i) as [c|e] eqn:Hc; [reflexivity|].
        assert (e = KeyError) as ->; [|reflexivity].
        clear -Hc. unfold int_lookup in Hc. cbn in Hc.
        repeat match type of Hc with
               | (if ?k =? i then _ else _) = _ =>
                 destruct (k =? i); [discriminate Hc|]
               end.
        now inversion Hc. }
    now rewrite Hr.
Qed.

End Alphabet.

(** The cache of [test_stateful_call]. *)
Lemma join_as_string_round_trip_witness :
  SamplerTest.to_ids "sequentially"
  = Ok [18; 4; 16; 20; 4; 13; 19; 8; 0; 11; 11; 24] /\
  SamplerTest.join_as_string [[18; 4; 16; 20; 4; 13; 19; 8; 0; 11; 11; 24]]
  = Ok ["sequentially"%string].
Proof.
  split; [reflexivity|].
  apply (proj1 (join_as_string_round_trip "sequentially"
                  [18; 4; 16; 20; 4; 13; 19; 8; 0; 11; 11; 24])).
  reflexivity.
Defined.
